(** * whisper-transcription: subtitle formatting, project store, orchestration

    A shallow embedding of the parts of [audio_transcriber.py],
    [project_structure.py] and [youtube_downloader.py] that the specification
    talks about, and the properties of the specification checked against it;
    then the rest of the project store, the old layout of the outputs and
    [transcribe_local_audio] of [main.py], with further properties of the
    code.

    Conventions of the embedding.
    - A Python [str] is a Rocq [string] holding the UTF-8 bytes of the text.
      Every character the code compares against is ASCII, and UTF-8 keeps
      code point order, so the byte-level functions below agree with the
      code-point-level ones of Python.
    - A Python [float] that is finite is modelled by the rational number it
      denotes (type [Q]).  [math.fmod] is exact; the floor division of a
      non-negative float below [2^53] by [3600] or [60] is exact as well,
      and CPython's [%.3f] conversion rounds the exact binary value to the
      nearest multiple of [1/1000], ties to even.
    - Exceptions are values of type [exn]; an effectful method is a function
      from the world to an outcome and the world it leaves behind, so that
      what was written before an exception stays written. *)

From Stdlib Require Import ZArith QArith Qround Lia Lqa Ascii String List.
From stdpp Require Import gmap strings list fin_maps sorting.

Open Scope Z_scope.

(** ** Strings *)

Module Str.

Definition nl : string := String "010"%char "".

(** [sep.join(items)] is [String.concat sep items]. *)

(** [s.replace(a, b)] for one-character [a] and [b] *)
Fixpoint replace_char (a b : ascii) (s : string) : string :=
  match s with
  | EmptyString => EmptyString
  | String c rest =>
      String (if Ascii.eqb c a then b else c) (replace_char a b rest)
  end.

Fixpoint repeat_char (c : ascii) (n : nat) : string :=
  match n with
  | O => ""
  | S k => String c (repeat_char c k)
  end.

(** [s.startswith(p)] *)
Fixpoint startswith (p s : string) : bool :=
  match p, s with
  | EmptyString, _ => true
  | String a p', String b s' => Ascii.eqb a b && startswith p' s'
  | String _ _, EmptyString => false
  end.

Fixpoint drop (n : nat) (s : string) : string :=
  match n, s with
  | O, _ => s
  | S k, String _ rest => drop k rest
  | S _, EmptyString => EmptyString
  end.

Fixpoint take (n : nat) (s : string) : string :=
  match n, s with
  | O, _ => EmptyString
  | S k, String c rest => String c (take k rest)
  | S _, EmptyString => EmptyString
  end.

Definition of_bytes (l : list Z) : string :=
  fold_right (fun n acc => String (ascii_of_nat (Z.to_nat n)) acc) "" l.

(** The code points for which [str.isspace] holds, in UTF-8: U+0009..U+000D,
    U+001C..U+0020, U+0085, U+00A0, U+1680, U+2000..U+200A, U+2028, U+2029,
    U+202F, U+205F, U+3000. *)
Definition whitespace : list string :=
  map of_bytes
    ([ [9]; [10]; [11]; [12]; [13]; [28]; [29]; [30]; [31]; [32];
       [194; 133]; [194; 160]; [225; 154; 128] ]
     ++ map (fun k => [226; 128; k])
          [128; 129; 130; 131; 132; 133; 134; 135; 136; 137; 138; 168; 169; 175]
     ++ [ [226; 129; 159]; [227; 128; 128] ])%list.

(** Drops one leading white space character, if there is one. *)
Fixpoint drop_space (ws : list string) (s : string) : option string :=
  match ws with
  | [] => None
  | w :: ws' =>
      if startswith w s then Some (drop (String.length w) s)
      else drop_space ws' s
  end.

Fixpoint lstrip_with (ws : list string) (fuel : nat) (s : string) : string :=
  match fuel with
  | O => s
  | S k =>
      match drop_space ws s with
      | Some s' => lstrip_with ws k s'
      | None => s
      end
  end.

Definition lstrip (s : string) : string :=
  lstrip_with whitespace (String.length s) s.

(** On the reversed text the trailing white space leads, with the bytes of
    each character reversed. *)
Definition rstrip (s : string) : string :=
  String.rev
    (lstrip_with (map String.rev whitespace) (String.length s) (String.rev s)).

(** [s.strip()] *)
Definition strip (s : string) : string := rstrip (lstrip s).

End Str.

(** ** Numbers to text *)

Module Fmt.

Definition digit_char (d : Z) : ascii := ascii_of_nat (48 + Z.to_nat d).

Fixpoint digits_acc (fuel : nat) (n : Z) (acc : string) : string :=
  match fuel with
  | O => acc
  | S k =>
      let acc' := String (digit_char (n mod 10)) acc in
      if n <? 10 then acc' else digits_acc k (n / 10) acc'
  end.

(** Decimal digits of a non-negative integer; the binary length bounds the
    decimal length. *)
Definition digits (n : Z) : string :=
  digits_acc (S (Z.to_nat (Z.log2 n))) n "".

(** [str(n)] for an [int] *)
Definition str_int (n : Z) : string :=
  if n <? 0 then "-" +:+ digits (- n) else digits n.

(** Zero padding of the [0w] format flag: the zeros go between the sign and
    the digits, and nothing is ever cut. *)
Definition zero_pad (width : nat) (sign body : string) : string :=
  sign +:+
  Str.repeat_char "0" (width - (String.length sign + String.length body))%nat +:+
  body.

(** [f"{n:0<width>d}"] *)
Definition format_d (width : nat) (n : Z) : string :=
  if n <? 0 then zero_pad width "-" (digits (- n))
  else zero_pad width "" (digits n).

(** Nearest integer to [n/d], ties to the even one ([0 < d]). *)
Definition round_half_even (n d : Z) : Z :=
  let q := n / d in
  let r := n mod d in
  if 2 * r <? d then q
  else if d <? 2 * r then q + 1
  else if Z.even q then q else q + 1.

(** The number of thousandths [%.3f] prints for [|x|]. *)
Definition thousandths (x : Q) : Z :=
  round_half_even (1000 * Z.abs (Qnum x)) (Zpos (Qden x)).

(** [f"{x:0<width>.3f}"] *)
Definition format_3f (width : nat) (x : Q) : string :=
  let t := thousandths x in
  zero_pad width (if Qnum x <? 0 then "-" else "")
    (digits (t / 1000) +:+ "." +:+
     zero_pad 3 "" (digits (t mod 1000))).

End Fmt.

(** ** Python floats: [//], [%] and [int()] on exact values *)

Module Float.

(** [x // y] *)
Definition floordiv (x y : Q) : Q := inject_Z (Qfloor (x / y)).

(** [x % y] *)
Definition rem (x y : Q) : Q := x - y * inject_Z (Qfloor (x / y)).

(** [int(x)] truncates towards zero. *)
Definition to_int (x : Q) : Z := Z.quot (Qnum x) (Zpos (Qden x)).

End Float.

(** ** audio_transcriber.py: the subtitle formatter *)

Record segment := Segment {
  seg_start : Q;
  seg_end : Q;
  seg_text : string
}.

Definition _format_timestamp (seconds : Q) (srt : bool) : string :=
  let hours := Float.to_int (Float.floordiv seconds 3600) in
  let minutes :=
    Float.to_int (Float.floordiv (Float.rem seconds 3600) 60) in
  let secs := Float.rem seconds 60 in
  let s :=
    Fmt.format_d 2 hours +:+ ":" +:+ Fmt.format_d 2 minutes +:+ ":" +:+
    Fmt.format_3f 6 secs in
  if srt then Str.replace_char "." "," s else s.

(** The loop body of [_generate_srt]: one entry appended to [content]. *)
Definition srt_entry (i : Z) (seg : segment) : string :=
  let start := _format_timestamp (seg_start seg) true in
  let end_ := _format_timestamp (seg_end seg) true in
  let text := Str.strip (seg_text seg) in
  Fmt.str_int i +:+ Str.nl +:+ start +:+ " --> " +:+ end_ +:+ Str.nl +:+
  text +:+ Str.nl.

(** [for i, segment in enumerate(segments, i0): content.append(...)] *)
Fixpoint srt_loop (i : Z) (segments : list segment) (content : list string)
  : list string :=
  match segments with
  | [] => content
  | seg :: rest => srt_loop (i + 1) rest (content ++ [srt_entry i seg])
  end.

Definition _generate_srt (segments : list segment) : string :=
  String.concat Str.nl (srt_loop 1 segments []).

Definition vtt_entry (seg : segment) : string :=
  let start := _format_timestamp (seg_start seg) false in
  let end_ := _format_timestamp (seg_end seg) false in
  let text := Str.strip (seg_text seg) in
  start +:+ " --> " +:+ end_ +:+ Str.nl +:+ text +:+ Str.nl.

Fixpoint vtt_loop (segments : list segment) (content : list string)
  : list string :=
  match segments with
  | [] => content
  | seg :: rest => vtt_loop rest (content ++ [vtt_entry seg])
  end.

Definition _generate_vtt (segments : list segment) : string :=
  String.concat Str.nl (vtt_loop segments ["WEBVTT" +:+ Str.nl]).

(** ** pathlib paths

    A [Path] is the tuple of its parts, as [PurePosixPath.parts] gives it:
    the root, when there is one, is the first part. *)

Module Path.

Definition t := list string.

(** [s.split(c)] *)
Fixpoint split (c : ascii) (s : string) : list string :=
  match s with
  | EmptyString => [""]
  | String a rest =>
      if Ascii.eqb a c then "" :: split c rest
      else match split c rest with
           | x :: xs => String a x :: xs
           | [] => [String a ""]
           end
  end.

(** Exactly two leading slashes are kept as a root of their own. *)
Definition root_of (s : string) : string :=
  if Str.startswith "///" s then "/"
  else if Str.startswith "//" s then "//"
  else if Str.startswith "/" s then "/"
  else "".

Definition is_name (c : string) : bool :=
  negb (String.eqb c "" || String.eqb c ".").

(** [Path(s)]: empty and [.] components vanish, [..] stays. *)
Definition parse (s : string) : t :=
  let names := filter (fun c => is_name c = true) (split "/" s) in
  match root_of s with
  | "" => names
  | r => r :: names
  end.

Definition is_root (c : string) : bool :=
  String.eqb c "/" || String.eqb c "//".

Definition is_absolute (p : t) : bool :=
  match p with
  | c :: _ => is_root c
  | [] => false
  end.

(** [p / s] *)
Definition div (p : t) (s : string) : t :=
  let q := parse s in
  if is_absolute q then q else p ++ q.

(** [str(p)] *)
Definition to_str (p : t) : string :=
  match p with
  | [] => "."
  | c :: rest =>
      if is_root c then c +:+ String.concat "/" rest
      else String.concat "/" p
  end.

(** [p.name] *)
Definition name (p : t) : string :=
  match p with
  | c :: rest => if is_root c then List.last rest "" else List.last p ""
  | [] => ""
  end.

(** [s.rfind(".")], as the number of characters before the last dot *)
Fixpoint rfind_dot (s : string) : option nat :=
  match s with
  | EmptyString => None
  | String c rest =>
      match rfind_dot rest with
      | Some i => Some (S i)
      | None => if Ascii.eqb c "." then Some O else None
      end
  end.

(** [p.stem] *)
Definition stem (p : t) : string :=
  let n := name p in
  match rfind_dot n with
  | Some i =>
      if andb (0 <? i)%nat (i <? String.length n - 1)%nat
      then Str.take i n else n
  | None => n
  end.

Definition parent (p : t) : t := removelast p.

End Path.

(** ** The file system

    Entries are keyed by path.  The working directory (the empty path) and
    the roots are directories that always exist; relative and absolute paths
    do not alias, there are no links, and no entry is called [..]. *)

Inductive node :=
| Dir
| File (content : string).

Inductive exn :=
| FileNotFoundError (what : string)
| FileExistsError (what : string)
| NotADirectoryError (what : string)
| IsADirectoryError (what : string)
| UnboundLocalError (var : string)
| KeyError (key : string)
| AttributeError (attr : string)
| TypeError
| ValueError (msg : string)
| JSONDecodeError
| CollaboratorError (msg : string).

Inductive outcome (A : Type) :=
| Ok (a : A)
| Raise (e : exn).
Arguments Ok {A} a.
Arguments Raise {A} e.

Module Fs.

Definition node_at (fs : gmap Path.t node) (p : Path.t) : option node :=
  match p with
  | [] => Some Dir
  | [c] => if Path.is_root c then Some Dir else fs !! p
  | _ => fs !! p
  end.

Definition is_dir (fs : gmap Path.t node) (p : Path.t) : bool :=
  match node_at fs p with
  | Some Dir => true
  | _ => false
  end.

(** What stands in the way of creating an entry at [p], if anything. *)
Definition parent_check (fs : gmap Path.t node) (p : Path.t) : option exn :=
  match node_at fs (Path.parent p) with
  | Some Dir => None
  | Some (File _) => Some (NotADirectoryError (Path.to_str p))
  | None => Some (FileNotFoundError (Path.to_str p))
  end.

(** [p.mkdir(exist_ok=True)] *)
Definition mkdir_exist_ok (p : Path.t) (fs : gmap Path.t node)
  : outcome (gmap Path.t node) :=
  match node_at fs p with
  | Some Dir => Ok fs
  | Some (File _) => Raise (FileExistsError (Path.to_str p))
  | None =>
      match parent_check fs p with
      | Some e => Raise e
      | None => Ok (<[p := Dir]> fs)
      end
  end.

(** [open(p, "w")]: the file is created or emptied. *)
Definition open_w (p : Path.t) (fs : gmap Path.t node)
  : outcome (gmap Path.t node) :=
  match node_at fs p with
  | Some Dir => Raise (IsADirectoryError (Path.to_str p))
  | Some (File _) => Ok (<[p := File ""]> fs)
  | None =>
      match parent_check fs p with
      | Some e => Raise e
      | None => Ok (<[p := File ""]> fs)
      end
  end.

(** [f.write(s)] on a file opened at [p] *)
Definition append (p : Path.t) (s : string) (fs : gmap Path.t node)
  : gmap Path.t node :=
  match fs !! p with
  | Some (File old) => <[p := File (old +:+ s)]> fs
  | _ => fs
  end.

(** [os.path.exists(s)]: the empty string names nothing, and a regular file
    is not found under a name that ends in a slash or a dot component. *)
Definition exists_ (fs : gmap Path.t node) (s : string) : bool :=
  match s with
  | EmptyString => false
  | _ =>
      match node_at fs (Path.parse s) with
      | Some Dir => true
      | Some (File _) => Path.is_name (List.last (Path.split "/" s) "")
      | None => false
      end
  end.

(** The names [p.iterdir()] yields, in no particular order. *)
Definition iterdir (fs : gmap Path.t node) (p : Path.t) : list string :=
  omap (fun q => if decide (Path.parent q = p ∧ q ≠ [])
                 then Some (List.last q "") else None)
       (map fst (map_to_list fs)).

End Fs.

(** ** JSON values and Python dictionaries *)

#[local] Unset Elimination Schemes.
Inductive json :=
| JNull
| JBool (b : bool)
| JInt (n : Z)
| JFloat (x : Q)
| JStr (s : string)
| JArr (items : list json)
| JObj (members : list (string * json)).
#[local] Set Elimination Schemes.

(** A [dict] with [str] keys keeps its keys in insertion order. *)
Module Dict.

Abbreviation t V := (list (string * V)).

Fixpoint get {V} (d : t V) (k : string) : option V :=
  match d with
  | [] => None
  | (k', v) :: rest => if String.eqb k' k then Some v else get rest k
  end.

(** [d[k] = v]: an existing key keeps its place. *)
Fixpoint set {V} (d : t V) (k : string) (v : V) : t V :=
  match d with
  | [] => [(k, v)]
  | (k', v') :: rest =>
      if String.eqb k' k then (k, v) :: rest else (k', v') :: set rest k v
  end.

Definition keys {V} (d : t V) : list string := map fst d.

End Dict.

(** ** Regular expressions, as far as the patterns of the code go

    A backtracking matcher: [matches r s] lists, in the order in which [re]
    tries them, the ways in which [r] matches a prefix of [s], each with the
    text left over and the text of the capturing group. *)

Module Re.

Inductive regex :=
| Lit (l : string)
| Class (p : ascii → bool)
| AnyStar
| Alt (r1 r2 : regex)
| Seq (r1 r2 : regex)
| Rep (n : nat) (r : regex)
| Group (r : regex).

Definition attempt : Type := string * option string.

(** [.*]: greedy, and the dot stops at a line feed. *)
Fixpoint any_star (s : string) : list attempt :=
  match s with
  | EmptyString => [("", None)]
  | String c rest =>
      if Ascii.eqb c "010" then [(s, None)]
      else any_star rest ++ [(s, None)]
  end.

(** Continues every attempt of [first] with [next]; a group captured later
    replaces an earlier capture. *)
Definition and_then (first : list attempt) (next : string → list attempt)
  : list attempt :=
  flat_map (λ a : attempt,
              map (λ b : attempt,
                     (b.1, match b.2 with Some g => Some g | None => a.2 end))
                  (next a.1))
           first.

Fixpoint matches (r : regex) (s : string) : list attempt :=
  match r with
  | Lit l =>
      if Str.startswith l s then [(Str.drop (String.length l) s, None)] else []
  | Class p =>
      match s with
      | String c rest => if p c then [(rest, None)] else []
      | EmptyString => []
      end
  | AnyStar => any_star s
  | Alt r1 r2 => matches r1 s ++ matches r2 s
  | Seq r1 r2 => and_then (matches r1 s) (matches r2)
  | Rep n r' =>
      (fix rep (n : nat) (s : string) : list attempt :=
         match n with
         | O => [(s, None)]
         | S k => and_then (matches r' s) (rep k)
         end) n s
  | Group r' =>
      map (λ a : attempt,
             (a.1, Some (Str.take (String.length s - String.length a.1) s)))
          (matches r' s)
  end.

(** [re.search(r, s)]: the first attempt at the leftmost position that has
    one; the match object is represented by its group 1. *)
Fixpoint search (r : regex) (s : string) : option (option string) :=
  match matches r s with
  | a :: _ => Some a.2
  | [] =>
      match s with
      | String _ rest => search r rest
      | EmptyString => None
      end
  end.

End Re.

(** ** youtube_downloader.py: the video id *)

Definition between (lo hi c : ascii) : bool :=
  (nat_of_ascii lo <=? nat_of_ascii c)%nat
  && (nat_of_ascii c <=? nat_of_ascii hi)%nat.

(** The class [[0-9A-Za-z_-]] *)
Definition id_char (c : ascii) : bool :=
  between "0" "9" c || between "A" "Z" c || between "a" "z" c
  || Ascii.eqb c "_" || Ascii.eqb c "-".

Definition video_id_group : Re.regex := Re.Group (Re.Rep 11 (Re.Class id_char)).

Definition patterns : list Re.regex :=
  [ Re.Seq (Re.Alt (Re.Lit "v=") (Re.Lit "/"))
      (Re.Seq video_id_group Re.AnyStar);
    Re.Seq (Re.Lit "embed/") video_id_group;
    Re.Seq (Re.Lit "watch?v=") video_id_group;
    Re.Seq (Re.Lit "youtu.be/") video_id_group;
    Re.Seq (Re.Lit "live/") video_id_group ].

(** [for pattern in patterns: ... return match.group(1)] *)
Fixpoint first_match (ps : list Re.regex) (url : string) : option string :=
  match ps with
  | [] => None
  | p :: rest =>
      match Re.search p url with
      | Some m => m
      | None => first_match rest url
      end
  end.

Definition _extract_video_id (url : string) : option string :=
  first_match patterns url.

(** Truth value of an [Optional[str]] *)
Definition truthy (v : option string) : bool :=
  match v with
  | Some (String _ _) => true
  | _ => false
  end.

(** What a format entry of [output_contents] holds: text, or the result
    object itself for [json]. *)
Inductive content :=
| CStr (s : string)
| CObj (j : json).

(** ** The world and the effects of the code *)

Record whisper_call := WhisperCall {
  call_model : string;
  call_audio : string;
  call_language : option string
}.

(** The result of [model.transcribe]; [language] and [duration] are read
    with [.get] and may be missing. *)
Record transcription := Transcription {
  t_text : string;
  t_segments : list segment;
  t_language : option string;
  t_duration : option Q
}.

Record world := World {
  w_fs : gmap Path.t node;
  (** the dictionaries callers hold on to, by reference; a location never
      written holds the empty dictionary *)
  w_heap : gmap nat (Dict.t json);
  (** how many times the clock was read *)
  w_clock : nat;
  (** the calls made to the transcription model, latest first *)
  w_calls : list whisper_call
}.

Definition M (A : Type) : Type := world → outcome A * world.

#[global] Instance M_ret : MRet M := λ A a w, (Ok a, w).
#[global] Instance M_bind : MBind M := λ A B f m w,
  match m w with
  | (Ok a, w') => f a w'
  | (Raise e, w') => (Raise e, w')
  end.

Definition raise {A} (e : exn) : M A := λ w, (Raise e, w).

Definition set_fs (fs : gmap Path.t node) (w : world) : world :=
  World fs (w_heap w) (w_clock w) (w_calls w).

Definition set_heap (h : gmap nat (Dict.t json)) (w : world) : world :=
  World (w_fs w) h (w_clock w) (w_calls w).

Definition fs_op (f : gmap Path.t node → outcome (gmap Path.t node))
  : M unit := λ w,
  match f (w_fs w) with
  | Ok fs => (Ok tt, set_fs fs w)
  | Raise e => (Raise e, w)
  end.

Definition mkdir (p : Path.t) : M unit := fs_op (Fs.mkdir_exist_ok p).
Definition open_w (p : Path.t) : M unit := fs_op (Fs.open_w p).
Definition write (p : Path.t) (s : string) : M unit :=
  fs_op (λ fs, Ok (Fs.append p s fs)).

(** [f.write(c)] takes text only. *)
Definition write_content (p : Path.t) (c : content) : M unit :=
  match c with
  | CStr s => write p s
  | CObj _ => raise TypeError
  end.

Definition os_path_exists (s : string) : M bool :=
  λ w, (Ok (Fs.exists_ (w_fs w) s), w).

Definition deref (l : nat) : M (Dict.t json) :=
  λ w, (Ok (default [] (w_heap w !! l)), w).

(** [d[k] = v] on the dictionary at [l] *)
Definition setitem (l : nat) (k : string) (v : json) : M unit :=
  λ w, (Ok tt,
        set_heap (<[l := Dict.set (default [] (w_heap w !! l)) k v]> (w_heap w)) w).

Definition getitem {V} (d : Dict.t V) (k : string) : M V :=
  match Dict.get d k with
  | Some v => mret v
  | None => raise (KeyError k)
  end.

Definition getattr {V} (a : option V) (attr : string) : M V :=
  match a with
  | Some v => mret v
  | None => raise (AttributeError attr)
  end.

(** [x in xs] for strings *)
Definition str_in (x : string) (xs : list string) : bool :=
  existsb (String.eqb x) xs.

Definition json_of_segment (seg : segment) : json :=
  JObj [("start", JFloat (seg_start seg)); ("end", JFloat (seg_end seg));
        ("text", JStr (seg_text seg))].

Definition json_of_transcription (r : transcription) : json :=
  JObj ([("text", JStr (t_text r));
         ("segments", JArr (map json_of_segment (t_segments r)))]
        ++ match t_language r with
           | Some l => [("language", JStr l)]
           | None => []
           end
        ++ match t_duration r with
           | Some d => [("duration", JFloat d)]
           | None => []
           end).

Record ProjectStructure := { base_dir : Path.t }.

Record AudioTranscriber := {
  model_size : string;
  use_project_structure : bool;
  (** set only when [use_project_structure] is off *)
  output_dir : option Path.t;
  (** set only when [use_project_structure] is on *)
  project_manager : option ProjectStructure
}.

Record transcribe_result := {
  res_text : string;
  res_language : string;
  res_duration : Q;
  res_output_files : Dict.t string;
  res_segments : list segment
}.

Section Program.

(** The collaborators: the JSON library ([json.dump] with
    [ensure_ascii=False, indent=2], [json.loads]), the clock in its two
    formats, and the speech model. *)
Variable json_dumps : json → string.
Variable json_loads : string → option json.
Variable isoformat : nat → string.
Variable strftime : nat → string.
Variable whisper :
  string → string → option string → gmap Path.t node → outcome transcription.

(** [datetime.now()], formatted by [fmt] *)
Definition now (fmt : nat → string) : M string :=
  λ w, (Ok (fmt (w_clock w)),
        World (w_fs w) (w_heap w) (S (w_clock w)) (w_calls w)).

(** [self.model.transcribe(audio_path, language=language, ...)] *)
Definition model_transcribe (self : AudioTranscriber) (audio_path : string)
    (language : option string) : M transcription :=
  λ w,
  let w' := World (w_fs w) (w_heap w) (w_clock w)
              (WhisperCall (model_size self) audio_path language :: w_calls w) in
  match whisper (model_size self) audio_path language (w_fs w) with
  | Ok r => (Ok r, w')
  | Raise e => (Raise e, w')
  end.

(** *** project_structure.py *)

Definition ProjectStructure_init (dir : string) : M ProjectStructure :=
  let self := {| base_dir := Path.parse dir |} in
  mkdir (base_dir self);;
  mret self.

Definition create_project (self : ProjectStructure) (project_name : string)
    (project_type : string) (metadata : option nat)
  : M (Dict.t Path.t) :=
  let folder_name :=
    if String.eqb project_type "youtube" then "youtube_" +:+ project_name
    else "local_" +:+ project_name in
  let project_dir := Path.div (base_dir self) folder_name in
  mkdir project_dir;;
  let src_audio_dir := Path.div project_dir "src_audio" in
  let transcription_dir := Path.div project_dir "transcription" in
  mkdir src_audio_dir;;
  mkdir transcription_dir;;
  match metadata with
  | None => mret tt
  | Some l =>
      d ← deref l;
      match d with
      | [] => mret tt
      | _ :: _ =>
          let metadata_file := Path.div project_dir "metadata.json" in
          t ← now isoformat;
          setitem l "created_at" (JStr t);;
          setitem l "project_type" (JStr project_type);;
          open_w metadata_file;;
          d' ← deref l;
          write metadata_file (json_dumps (JObj d'))
      end
  end;;
  mret [("project_dir", project_dir);
        ("src_audio_dir", src_audio_dir);
        ("transcription_dir", transcription_dir)].

Definition save_transcription_settings (self : ProjectStructure)
    (project_dir : Path.t) (settings : Dict.t json) : M unit :=
  let transcription_dir := Path.div project_dir "transcription" in
  let settings_file := Path.div transcription_dir "settings.json" in
  t ← now isoformat;
  let settings_data := Dict.set settings "processed_at" (JStr t) in
  open_w settings_file;;
  write settings_file (json_dumps (JObj settings_data)).

(** The branch of the loop body of [save_transcription_outputs] taken for
    [format_type]; [file_path] is the local variable, unbound ([None]) until
    a branch assigns it. *)
Definition save_branch (transcription_dir : Path.t) (base_name : string)
    (format_type : string) (c : content) (file_path : option Path.t)
  : M (option Path.t) :=
  if String.eqb format_type "text" then
    let fp := Path.div transcription_dir (base_name +:+ ".txt") in
    open_w fp;; write_content fp c;; mret (Some fp)
  else if String.eqb format_type "json" then
    let fp := Path.div transcription_dir (base_name +:+ ".json") in
    open_w fp;;
    j ← match c with
        | CStr s => match json_loads s with
                    | Some j => mret j
                    | None => raise JSONDecodeError
                    end
        | CObj j => mret j
        end;
    write fp (json_dumps j);;
    mret (Some fp)
  else if String.eqb format_type "srt" then
    let fp := Path.div transcription_dir (base_name +:+ ".srt") in
    open_w fp;; write_content fp c;; mret (Some fp)
  else if String.eqb format_type "vtt" then
    let fp := Path.div transcription_dir (base_name +:+ ".vtt") in
    open_w fp;; write_content fp c;; mret (Some fp)
  else mret file_path.

(** [for format_type, content in outputs.items(): ...] *)
Fixpoint save_loop (transcription_dir : Path.t) (base_name : string)
    (items : list (string * content)) (file_path : option Path.t)
    (saved_files : Dict.t string) : M (Dict.t string) :=
  match items with
  | [] => mret saved_files
  | (format_type, c) :: rest =>
      file_path' ← save_branch transcription_dir base_name format_type c file_path;
      match file_path' with
      | None => raise (UnboundLocalError "file_path")
      | Some fp =>
          save_loop transcription_dir base_name rest (Some fp)
            (Dict.set saved_files format_type (Path.to_str fp))
      end
  end.

Definition save_transcription_outputs (self : ProjectStructure)
    (project_dirs : Dict.t Path.t) (outputs : Dict.t content)
    (base_name : string) : M (Dict.t string) :=
  transcription_dir ← getitem project_dirs "transcription_dir";
  save_loop transcription_dir base_name outputs None [].

Definition is_project_name (n : string) : bool :=
  Str.startswith "youtube_" n || Str.startswith "local_" n.

(** [list_projects]; [sorted] orders strings by [String.le]. *)
Definition list_projects (self : ProjectStructure) : M (list string) :=
  λ w,
  let fs := w_fs w in
  match Fs.node_at fs (base_dir self) with
  | None => (Ok [], w)
  | Some (File _) =>
      (Raise (NotADirectoryError (Path.to_str (base_dir self))), w)
  | Some Dir =>
      let projects :=
        filter (λ n, Fs.is_dir fs (base_dir self ++ [n]) = true
                     ∧ is_project_name n = true)
               (Fs.iterdir fs (base_dir self)) in
      (Ok (merge_sort String.le projects), w)
  end.

(** *** audio_transcriber.py *)

(** The constructor; loading the model itself is left to the collaborator. *)
Definition AudioTranscriber_init (size : string) (use_ps : bool)
  : M AudioTranscriber :=
  if negb use_ps then
    let dir := Path.parse "transcriptions" in
    mkdir dir;;
    mret {| model_size := size; use_project_structure := use_ps;
            output_dir := Some dir; project_manager := None |}
  else
    pm ← ProjectStructure_init "audio_projects";
    mret {| model_size := size; use_project_structure := use_ps;
            output_dir := None; project_manager := Some pm |}.

(** [for i, segment in enumerate(segments, i): f.write(...)] *)
Fixpoint write_srt_loop (f : Path.t) (i : Z) (segments : list segment)
  : M unit :=
  match segments with
  | [] => mret tt
  | seg :: rest =>
      let start := _format_timestamp (seg_start seg) true in
      let end_ := _format_timestamp (seg_end seg) true in
      let text := Str.strip (seg_text seg) in
      write f (Fmt.str_int i +:+ Str.nl +:+ start +:+ " --> " +:+ end_ +:+
               Str.nl +:+ text +:+ Str.nl +:+ Str.nl);;
      write_srt_loop f (i + 1) rest
  end.

Definition _write_srt (segments : list segment) (output_path : string)
  : M unit :=
  let f := Path.parse output_path in
  open_w f;;
  write_srt_loop f 1 segments.

Fixpoint write_vtt_loop (f : Path.t) (segments : list segment) : M unit :=
  match segments with
  | [] => mret tt
  | seg :: rest =>
      let start := _format_timestamp (seg_start seg) false in
      let end_ := _format_timestamp (seg_end seg) false in
      let text := Str.strip (seg_text seg) in
      write f (start +:+ " --> " +:+ end_ +:+ Str.nl +:+ text +:+ Str.nl +:+
               Str.nl);;
      write_vtt_loop f rest
  end.

Definition _write_vtt (segments : list segment) (output_path : string)
  : M unit :=
  let f := Path.parse output_path in
  open_w f;;
  write f ("WEBVTT" +:+ Str.nl +:+ Str.nl);;
  write_vtt_loop f segments.

(** The project branch of [transcribe_audio] (lines 72-94). *)
Definition transcribe_to_project (self : AudioTranscriber)
    (result : transcription) (output_format : string)
    (project_dirs : Dict.t Path.t) (transcription_settings : Dict.t json)
  : M (Dict.t string) :=
  pm ← getattr (project_manager self) "project_manager";
  project_dir ← getitem project_dirs "project_dir";
  save_transcription_settings pm project_dir transcription_settings;;
  let output_contents : Dict.t content := [] in
  let output_contents :=
    if str_in output_format ["text"; "all"]
    then Dict.set output_contents "text" (CStr (t_text result))
    else output_contents in
  let output_contents :=
    if str_in output_format ["json"; "all"]
    then Dict.set output_contents "json" (CObj (json_of_transcription result))
    else output_contents in
  let output_contents :=
    if str_in output_format ["srt"; "all"]
    then Dict.set output_contents "srt"
           (CStr (_generate_srt (t_segments result)))
    else output_contents in
  let output_contents :=
    if str_in output_format ["vtt"; "all"]
    then Dict.set output_contents "vtt"
           (CStr (_generate_vtt (t_segments result)))
    else output_contents in
  save_transcription_outputs pm project_dirs output_contents "transcript".

(** The old layout (lines 97-126). *)
Definition transcribe_to_output_dir (self : AudioTranscriber)
    (result : transcription) (audio_path output_format : string)
  : M (Dict.t string) :=
  let outputs : Dict.t string := [] in
  let base_name := Path.stem (Path.parse audio_path) in
  timestamp ← now strftime;
  dir ← getattr (output_dir self) "output_dir";
  let output_base := Path.div dir (base_name +:+ "_" +:+ timestamp) in
  outputs ←
    (if str_in output_format ["text"; "all"] then
       let text_file := Path.to_str output_base +:+ ".txt" in
       open_w (Path.parse text_file);;
       write (Path.parse text_file) (t_text result);;
       mret (Dict.set outputs "text" text_file)
     else mret outputs);
  outputs ←
    (if str_in output_format ["json"; "all"] then
       let json_file := Path.to_str output_base +:+ ".json" in
       open_w (Path.parse json_file);;
       write (Path.parse json_file)
         (json_dumps (json_of_transcription result));;
       mret (Dict.set outputs "json" json_file)
     else mret outputs);
  outputs ←
    (if str_in output_format ["srt"; "all"] then
       let srt_file := Path.to_str output_base +:+ ".srt" in
       _write_srt (t_segments result) srt_file;;
       mret (Dict.set outputs "srt" srt_file)
     else mret outputs);
  (if str_in output_format ["vtt"; "all"] then
     let vtt_file := Path.to_str output_base +:+ ".vtt" in
     _write_vtt (t_segments result) vtt_file;;
     mret (Dict.set outputs "vtt" vtt_file)
   else mret outputs).

Definition transcribe_audio (self : AudioTranscriber) (audio_path : string)
    (language : option string) (output_format : string)
    (project_dirs : option (Dict.t Path.t)) : M transcribe_result :=
  found ← os_path_exists audio_path;
  if negb found then
    raise (FileNotFoundError ("Audio file not found: " +:+ audio_path))
  else
    result ← model_transcribe self audio_path language;
    let transcription_settings :=
      [("model_size", JStr (model_size self));
       ("language", match language with Some l => JStr l | None => JNull end);
       ("output_format", JStr output_format);
       ("audio_file", JStr audio_path)] in
    outputs ←
      match use_project_structure self, project_dirs with
      | true, Some ((_ :: _) as dirs) =>
          transcribe_to_project self result output_format dirs
            transcription_settings
      | _, _ => transcribe_to_output_dir self result audio_path output_format
      end;
    mret {| res_text := t_text result;
            res_language := default "unknown" (t_language result);
            res_duration := default 0%Q (t_duration result);
            res_output_files := outputs;
            res_segments := t_segments result |}.

(** *** youtube_downloader.py *)

Record YouTubeDownloader := {
  yt_use_project_structure : bool;
  yt_project_manager : option ProjectStructure;
  yt_output_dir : option Path.t
}.

(** What [download_audio] does once it holds a video id (lines 41-135): the
    download itself, which belongs to the download collaborator. *)
Variable download_result : Type.
Variable download_with_id :
  YouTubeDownloader → string → string → string → string → M download_result.

Definition download_audio (self : YouTubeDownloader)
    (url audio_format quality : string) : M download_result :=
  let video_id := _extract_video_id url in
  if negb (truthy video_id) then
    raise (ValueError ("Invalid YouTube URL: " +:+ url))
  else
    download_with_id self (default "" video_id) url audio_format quality.

End Program.

(** ** project_structure.py: reading a project back, taking in the audio *)

(** The dictionary [get_project_info] returns; [metadata] and
    [transcription_settings] are the keys it may lack. *)
Record project_info := ProjectInfo {
  info_name : string;
  info_path : string;
  info_has_audio : bool;
  info_has_transcription : bool;
  info_metadata : option json;
  info_transcription_settings : option json
}.

(** [p.exists()] *)
Definition path_exists (p : Path.t) : M bool :=
  λ w, (Ok (match Fs.node_at (w_fs w) p with
            | Some _ => true
            | None => false
            end), w).

(** [list(p.glob("*"))], by name: the entries of a directory, and nothing
    for what is not one. *)
Definition glob_star (p : Path.t) : M (list string) :=
  λ w, (Ok (if Fs.is_dir (w_fs w) p then Fs.iterdir (w_fs w) p else []), w).

(** [open(p, "rb")]: the content of the regular file at [p]. *)
Definition open_r (p : Path.t) (fs : gmap Path.t node) : outcome string :=
  match Fs.node_at fs p with
  | Some (File s) => Ok s
  | Some Dir => Raise (IsADirectoryError (Path.to_str p))
  | None =>
      Raise (default (FileNotFoundError (Path.to_str p))
               (Fs.parent_check fs p))
  end.

(** [os.path.samefile(a, b)], with its [OSError] read as [False]: without
    links, an entry has one name. *)
Definition samefile (fs : gmap Path.t node) (a b : Path.t) : bool :=
  bool_decide (a = b)
  && match Fs.node_at fs a with
     | Some _ => true
     | None => false
     end.

(** [os.path.basename(str(p))] *)
Definition basename (p : Path.t) : string :=
  match p with
  | [] => "."
  | _ => Path.name p
  end.

(** [shutil.copy2(src, dst)]: into [dst] when it is a directory;
    [shutil.SameFileError] is reported by its class name.  The times and
    permission bits it copies are not part of the world. *)
Definition shutil_copy2 (src dst : Path.t) : M unit :=
  λ w,
  let fs := w_fs w in
  let dst := if Fs.is_dir fs dst then Path.div dst (basename src) else dst in
  if samefile fs src dst then
    (Raise (CollaboratorError "shutil.SameFileError"), w)
  else
    match open_r src fs with
    | Raise e => (Raise e, w)
    | Ok s =>
        match Fs.open_w dst fs with
        | Ok fs1 => (Ok tt, set_fs (Fs.append dst s fs1) w)
        | Raise e => (Raise e, w)
        end
    end.

Section Library.

(** [json.load(f)] on the bytes of a file, and [shutil.move] for a source
    that is a directory. *)
Variable json_load : string → outcome json.
Variable move_tree : Path.t → Path.t → M unit.

Definition read_json (p : Path.t) : M json :=
  λ w,
  match open_r p (w_fs w) with
  | Ok s => (json_load s, w)
  | Raise e => (Raise e, w)
  end.

(** [if p.exists(): with open(p, "r") as f: info[key] = json.load(f)] *)
Definition load_if_exists (p : Path.t) : M (option json) :=
  found ← path_exists p;
  if negb found then mret None
  else j ← read_json p; mret (Some j).

(** [shutil.move(src, dst)] within one file system: a regular file is
    renamed, over a regular file that may be there; where [os.rename] fails
    the copy that is tried next fails on the same ground.  [shutil.Error]
    is reported by its class name. *)
Definition shutil_move (src dst : Path.t) : M unit :=
  λ w,
  let fs := w_fs w in
  if Fs.is_dir fs dst && samefile fs src dst then (Ok tt, w)
  else
    let real_dst :=
      if Fs.is_dir fs dst then Path.div dst (basename src) else dst in
    if Fs.is_dir fs dst
       && match Fs.node_at fs real_dst with
          | Some _ => true
          | None => false
          end
    then (Raise (CollaboratorError "shutil.Error"), w)
    else
      match Fs.node_at fs src with
      | Some Dir => move_tree src real_dst w
      | _ =>
          match open_r src fs with
          | Raise e => (Raise e, w)
          | Ok s =>
              if samefile fs src real_dst then (Ok tt, w)
              else
                match Fs.open_w real_dst fs with
                | Ok fs1 =>
                    (Ok tt,
                     set_fs (delete src (Fs.append real_dst s fs1)) w)
                | Raise e => (Raise e, w)
                end
          end
      end.

Definition move_audio_to_project (self : ProjectStructure)
    (audio_file : string) (project_dirs : Dict.t Path.t)
    (keep_original : bool) : M Path.t :=
  let audio_path := Path.parse audio_file in
  src_audio_dir ← getitem project_dirs "src_audio_dir";
  let dest_path := Path.div src_audio_dir (Path.name audio_path) in
  (if keep_original then shutil_copy2 audio_path dest_path
   else shutil_move (Path.parse (Path.to_str audio_path)) dest_path);;
  mret dest_path.

Definition get_project_info (self : ProjectStructure) (project_name : string)
  : M (option project_info) :=
  let project_dir := Path.div (base_dir self) project_name in
  found ← path_exists project_dir;
  if negb found then mret None
  else
    audio ← glob_star (Path.div project_dir "src_audio");
    outputs ← glob_star (Path.div project_dir "transcription");
    let metadata_file := Path.div project_dir "metadata.json" in
    metadata ← load_if_exists metadata_file;
    let settings_file :=
      Path.div (Path.div project_dir "transcription") "settings.json" in
    settings ← load_if_exists settings_file;
    mret (Some {| info_name := project_name;
                  info_path := Path.to_str project_dir;
                  info_has_audio := (0 <? length audio)%nat;
                  info_has_transcription := (0 <? length outputs)%nat;
                  info_metadata := metadata;
                  info_transcription_settings := settings |}).

End Library.

(** ** main.py: transcribing a local audio file

    What the functions print is not part of the world. *)

(** A dictionary literal: a new dictionary, at a location of its own. *)
Definition alloc (d : Dict.t json) : M nat :=
  λ w,
  let l := fresh (dom (w_heap w)) in
  (Ok l, set_heap (<[l := d]> (w_heap w)) w).

Section Main.

Variable json_dumps : json → string.
Variable json_loads : string → option json.
Variable isoformat : nat → string.
Variable strftime : nat → string.
Variable whisper :
  string → string → option string → gmap Path.t node → outcome transcription.
Variable move_tree : Path.t → Path.t → M unit.

(** What [stat] reports as the size of a directory. *)
Variable dir_size : Path.t → Z.

(** [p.stat().st_size if p.exists() else 0] *)
Definition size_or_zero (p : Path.t) : M Z :=
  λ w,
  (Ok match Fs.node_at (w_fs w) p with
      | Some (File s) => Z.of_nat (String.length s)
      | Some Dir => dir_size p
      | None => 0
      end, w).

Definition transcribe_local_audio (audio_path model_size : string)
    (language : option string) (output_format : string)
  : M transcribe_result :=
  project_manager ← ProjectStructure_init "audio_projects";
  let audio_file_path := Path.parse audio_path in
  file_size ← size_or_zero audio_file_path;
  metadata ← alloc [("original_filename", JStr (Path.name audio_file_path));
                    ("file_size", JInt file_size);
                    ("source_type", JStr "local")];
  project_dirs ← create_project json_dumps isoformat project_manager
                   (Path.stem audio_file_path) "local" (Some metadata);
  final_audio_path ← move_audio_to_project move_tree project_manager
                       audio_path project_dirs true;
  transcriber ← AudioTranscriber_init model_size true;
  transcribe_audio json_dumps json_loads isoformat strftime whisper
    transcriber (Path.to_str final_audio_path) language output_format
    (Some project_dirs).

End Main.

(** ** Sample data *)

Definition two_cues : list segment :=
  [ Segment 0 (3 # 2) "hello "; Segment (3 # 2) (13 # 4) "world" ].

(** The text the specification gives for [two_cues], line by line. *)
Definition two_cues_vtt : string :=
  String.concat Str.nl
    [ "WEBVTT"; "";
      "00:00:00.000 --> 00:00:01.500"; "hello"; "";
      "00:00:01.500 --> 00:00:03.250"; "world"; ""; "" ].

Definition one_cue : list segment := [ Segment 0 1 " hi" ].

Definition empty_world : world := World ∅ ∅ 0 [].

(** The content of the file at [p], if it is a regular file. *)
Definition file_at (w : world) (p : Path.t) : option string :=
  match w_fs w !! p with
  | Some (File s) => Some s
  | _ => None
  end.

(** A cue block as the specification describes it for SRT: index line,
    timing line, trimmed text line, blank line. *)
Definition srt_block (i : Z) (seg : segment) : string :=
  Fmt.str_int i +:+ Str.nl +:+
  _format_timestamp (seg_start seg) true +:+ " --> " +:+
  _format_timestamp (seg_end seg) true +:+ Str.nl +:+
  Str.strip (seg_text seg) +:+ Str.nl +:+
  Str.nl.

(** The same for WebVTT, which has no index line. *)
Definition vtt_block (seg : segment) : string :=
  _format_timestamp (seg_start seg) false +:+ " --> " +:+
  _format_timestamp (seg_end seg) false +:+ Str.nl +:+
  Str.strip (seg_text seg) +:+ Str.nl +:+
  Str.nl.

(** Stand-ins for the collaborators, for running the code on examples. *)
Definition demo_dumps (j : json) : string :=
  match j with
  | JObj members => "{" +:+ String.concat "," (Dict.keys members) +:+ "}"
  | _ => "json"
  end.

Definition demo_loads (s : string) : option json :=
  if String.eqb s "null" then Some JNull else None.

Definition demo_isoformat (n : nat) : string :=
  "2024-01-01T00:00:0" +:+ Fmt.str_int (Z.of_nat n).

Definition demo_strftime (n : nat) : string :=
  "20240101_00000" +:+ Fmt.str_int (Z.of_nat n).

Definition demo_whisper (size audio : string) (language : option string)
    (fs : gmap Path.t node) : outcome transcription :=
  Ok (Transcription "hello world" two_cues (Some "en") None).

Definition demo_store : ProjectStructure := {| base_dir := ["audio_projects"] |}.

Definition demo_dirs : Dict.t Path.t :=
  [("project_dir", ["audio_projects"; "local_demo"]);
   ("src_audio_dir", ["audio_projects"; "local_demo"; "src_audio"]);
   ("transcription_dir", ["audio_projects"; "local_demo"; "transcription"])].

(** The world once the store exists, and once the project [local_demo] has
    been created in it. *)
Definition store_world : world :=
  (ProjectStructure_init "audio_projects" empty_world).2.

Definition demo_world : world :=
  (create_project demo_dumps demo_isoformat demo_store "demo" "local" None
     store_world).2.

(** *** The project store as the specification describes it *)

Definition has_char (c : ascii) (s : string) : bool :=
  existsb (Ascii.eqb c) (list_ascii_of_string s).

(** A file name proper: no directory part. *)
Definition plain_name (s : string) : Prop := has_char "/" s = false.

Definition recognized (format_type : string) : bool :=
  str_in format_type ["text"; "json"; "srt"; "vtt"].

(** The extension of the file a format goes to. *)
Definition ext_of (format_type : string) : string :=
  if String.eqb format_type "text" then "txt" else format_type.

(** Where the specification puts the output of a format:
    [{transcription_dir}/{base_name}.{ext}]. *)
Definition output_path (transcription_dir : Path.t) (base_name : string)
    (format_type : string) : Path.t :=
  transcription_dir ++ [base_name +:+ "." +:+ ext_of format_type].

(** The text that ends up in the file of a format: the content itself, or
    for [json] the serialization of the object (parsed first when it comes
    as text). *)
Definition content_text (dumps : json → string) (loads : string → option json)
    (format_type : string) (c : content) : option string :=
  if String.eqb format_type "json" then
    match c with
    | CObj j => Some (dumps j)
    | CStr s => dumps <$> loads s
    end
  else
    match c with
    | CStr s => Some s
    | CObj _ => None
    end.

(** *** Where a video id is found *)

Fixpoint all_chars (p : ascii → bool) (s : string) : bool :=
  match s with
  | EmptyString => true
  | String c rest => p c && all_chars p rest
  end.

(** [s] begins with [n] characters of the class [p]. *)
Fixpoint class_prefix (p : ascii → bool) (n : nat) (s : string) : bool :=
  match n, s with
  | O, _ => true
  | S k, String c rest => p c && class_prefix p k rest
  | S _, EmptyString => false
  end.

(** The video id that starts right at the beginning of [s]: the eleven id
    characters behind a leading [v=] or slash. *)
Definition id_at (s : string) : option string :=
  if Str.startswith "v=" s && class_prefix id_char 11 (Str.drop 2 s)
  then Some (Str.take 11 (Str.drop 2 s))
  else if Str.startswith "/" s && class_prefix id_char 11 (Str.drop 1 s)
  then Some (Str.take 11 (Str.drop 1 s))
  else None.

(** The capture of the attempt [re] prefers. *)
Definition head_group (l : list Re.attempt) : option (option string) :=
  match l with
  | a :: _ => Some a.2
  | [] => None
  end.

(** [url] is [pre], then [v=] or a slash, then the eleven id characters
    [id], then [rest]. *)
Definition occurrence (url pre id rest : string) : Prop :=
  (url = pre +:+ "v=" +:+ id +:+ rest ∨ url = pre +:+ "/" +:+ id +:+ rest)
  ∧ String.length id = 11%nat
  ∧ all_chars id_char id = true.

(** A world in which the caller holds an empty dictionary at location 0,
    and one in which it holds a dictionary with a title. *)
Definition fresh_world : world :=
  World (w_fs store_world) {[ 0%nat := [] ]} 0 [].

Definition titled_world : world :=
  World (w_fs store_world) {[ 0%nat := [("title", JStr "Talk")] ]} 0 [].

(** The three directories of the project [folder] under [b]. *)
Definition with_project (b : Path.t) (folder : string)
    (fs : gmap Path.t node) : gmap Path.t node :=
  <[(b ++ [folder]) ++ ["transcription"] := Dir]>
    (<[(b ++ [folder]) ++ ["src_audio"] := Dir]>
       (<[b ++ [folder] := Dir]> fs)).

(** *** Trimmed text *)

(** A run of white space: a concatenation of items of [ws]. *)
Inductive run (ws : list string) : string → Prop :=
| run_nil : run ws ""
| run_cons w s : w ∈ ws → run ws s → run ws (w +:+ s).

(** *** Timestamps as the specification describes them *)

Definition is_digit (c : ascii) : bool := between "0" "9" c.

(** The value of a decimal numeral; [None] when a character is no digit. *)
Fixpoint dec_acc (s : string) (v : Z) : option Z :=
  match s with
  | EmptyString => Some v
  | String c rest =>
      if is_digit c
      then dec_acc rest (10 * v + (Z.of_nat (nat_of_ascii c) - 48))
      else None
  end.

Definition dec_value (s : string) : option Z :=
  match s with
  | EmptyString => None
  | _ => dec_acc s 0
  end.

Definition two_digits (n : Z) : string :=
  String (Fmt.digit_char (n / 10)) (String (Fmt.digit_char (n mod 10)) "").

Definition three_digits (n : Z) : string :=
  String (Fmt.digit_char (n / 100)) (two_digits (n mod 100)).

(** The twelve characters [HH:MM:SS.mmm], with [sep] for the decimal mark. *)
Definition timestamp_pattern (sep : ascii) (s : string) : bool :=
  match s with
  | String h1 (String h2 (String c1 (String m1 (String m2 (String c2
      (String s1 (String s2 (String p (String f1 (String f2 (String f3
        EmptyString))))))))))) =>
      forallb is_digit [h1; h2; m1; m2; s1; s2; f1; f2; f3]
      && Ascii.eqb c1 ":" && Ascii.eqb c2 ":" && Ascii.eqb p sep
  | _ => false
  end.

Definition decimal_mark (srt : bool) : ascii := if srt then "," else ".".

(** *** More sample data *)

(** A serialization that can be read back, for mappings of strings without
    [;] and [=], in the place of the JSON library. *)
Definition kv_dumps (j : json) : string :=
  match j with
  | JObj members =>
      String.concat ";"
        (map (λ kv : string * json,
                kv.1 +:+ "=" +:+ match kv.2 with JStr s => s | _ => "" end)
             members)
  | _ => ""
  end.

Definition kv_load (s : string) : outcome json :=
  Ok (JObj (omap (λ item, match Path.split "=" item with
                          | [k; v] => Some (k, JStr v)
                          | _ => None
                          end)
                 (Path.split ";" s))).

(** The world of the project [local_demo] with an audio file in the working
    directory, and with the same file already in the project. *)
Definition talk_world : world :=
  set_fs (<[["talk.mp3"] := File "RIFF"]> (w_fs demo_world)) demo_world.

Definition taken_in_world : world :=
  set_fs (<[["audio_projects"; "local_demo"; "src_audio"; "talk.mp3"]
            := File "RIFF"]> (w_fs demo_world)) demo_world.

(** A stand-in for the moving of directory trees, which no example does. *)
Definition demo_move_tree (src dst : Path.t) : M unit := mret tt.

(** *** The outputs of a transcription as the orchestrator files them *)

(** The format [tag] is asked for by [output_format]. *)
Definition wanted (output_format tag : string) : bool :=
  str_in output_format [tag; "all"].

(** The text of the output of the format [tag]. *)
Definition output_text (dumps : json → string) (r : transcription)
    (tag : string) : string :=
  if String.eqb tag "text" then t_text r
  else if String.eqb tag "json" then dumps (json_of_transcription r)
  else if String.eqb tag "srt" then _generate_srt (t_segments r)
  else _generate_vtt (t_segments r).

(** The [output_contents] dictionary of [transcribe_audio]. *)
Definition output_contents_of (output_format : string) (r : transcription)
  : Dict.t content :=
  let output_contents : Dict.t content := [] in
  let output_contents :=
    if str_in output_format ["text"; "all"]
    then Dict.set output_contents "text" (CStr (t_text r))
    else output_contents in
  let output_contents :=
    if str_in output_format ["json"; "all"]
    then Dict.set output_contents "json" (CObj (json_of_transcription r))
    else output_contents in
  let output_contents :=
    if str_in output_format ["srt"; "all"]
    then Dict.set output_contents "srt" (CStr (_generate_srt (t_segments r)))
    else output_contents in
  if str_in output_format ["vtt"; "all"]
  then Dict.set output_contents "vtt" (CStr (_generate_vtt (t_segments r)))
  else output_contents.

(** *** Where no video id can start *)

(** One of the first [n] characters of [s] is no id character. *)
Fixpoint stops (n : nat) (s : string) : bool :=
  match n, s with
  | S k, String c rest => negb (id_char c) || stops k rest
  | _, _ => false
  end.

(** No video id starts at the beginning of [s], whatever follows [s]. *)
Definition no_id_at (s : string) : bool :=
  (negb (Str.startswith "v=" s) || stops 11 (Str.drop 2 s))
  && (negb (Str.startswith "/" s) || stops 11 (Str.drop 1 s)).

(** No video id starts inside [pre] when [d] follows it. *)
Fixpoint clear_before (pre d : string) : bool :=
  match pre with
  | EmptyString => true
  | String _ pre' => no_id_at (pre +:+ d) && clear_before pre' d
  end.

(** The beginnings of the links that the patterns of the code name: what
    stands before the id, up to the [v=] or the slash. *)
Definition standard_heads : list (string * string) :=
  [ ("https://www.youtube.com/watch?", "v=");
    ("https://youtu.be", "/");
    ("https://www.youtube.com/embed", "/");
    ("https://www.youtube.com/live", "/") ].

(** A world with nothing but an audio file in the working directory. *)
Definition lone_file_world : world :=
  set_fs (<[["talk.mp3"] := File "RIFF"]> ∅) empty_world.

(** A stand-in for the size [stat] reports for a directory. *)
Definition demo_dir_size (p : Path.t) : Z := 4096.

(** The text of the output of the format [tag] in the old layout, where
    the subtitle files are written block by block. *)
Definition legacy_text (dumps : json → string) (r : transcription)
    (tag : string) : string :=
  if String.eqb tag "text" then t_text r
  else if String.eqb tag "json" then dumps (json_of_transcription r)
  else if String.eqb tag "srt" then
    String.concat "" (imap (λ k, srt_block (1 + Z.of_nat k)) (t_segments r))
  else
    "WEBVTT" +:+ Str.nl +:+ Str.nl +:+
    String.concat "" (map vtt_block (t_segments r)).

(** The world of a transcriber of the old layout, with an audio file in the
    working directory. *)
Definition legacy_world : world :=
  set_fs (<[["talk.mp3"] := File "RIFF"]>
            (w_fs (AudioTranscriber_init "base" false empty_world).2))
    empty_world.

(** ** Tactics *)

(** Decides the comparisons of string constants in the goal and in [H]. *)
Ltac eval_eqb_in H :=
  repeat match type of H with
         | context [String.eqb ?a ?b] =>
             let v := eval vm_compute in (String.eqb a b) in
             change (String.eqb a b) with v in H
         end;
  cbv iota in H.

Ltac eval_eqb :=
  repeat match goal with
         | |- context [String.eqb ?a ?b] =>
             let v := eval vm_compute in (String.eqb a b) in
             change (String.eqb a b) with v
         end;
  cbv iota.

(** ** Strings: basic facts *)

Lemma app_cons c (a b : string) : String c a +:+ b = String c (a +:+ b).
Proof. reflexivity. Qed.

Lemma app_empty_l (s : string) : "" +:+ s = s.
Proof. reflexivity. Qed.

Lemma app_empty_r (s : string) : s +:+ "" = s.
Proof. induction s as [|c s IH]; [done|]. by rewrite app_cons, IH. Qed.

Lemma app_assoc_str (a b c : string) : (a +:+ b) +:+ c = a +:+ (b +:+ c).
Proof.
  induction a as [|x a IH]; [done|]. by rewrite !app_cons, IH.
Qed.

Lemma length_app_str (a b : string) :
  String.length (a +:+ b) = (String.length a + String.length b)%nat.
Proof.
  induction a as [|x a IH]; [done|]. rewrite app_cons. simpl. by rewrite IH.
Qed.

Lemma startswith_app (p s : string) : Str.startswith p (p +:+ s) = true.
Proof.
  induction p as [|c p IH]; [done|].
  rewrite app_cons. simpl. by rewrite Ascii.eqb_refl, IH.
Qed.

Lemma drop_app (p s : string) : Str.drop (String.length p) (p +:+ s) = s.
Proof. induction p as [|c p IH]; [done|]. by rewrite app_cons. Qed.

Lemma take_app (p s : string) : Str.take (String.length p) (p +:+ s) = p.
Proof.
  induction p as [|c p IH]; [done|]. rewrite app_cons. simpl. by rewrite IH.
Qed.

(** [sep.join] of a non-empty list: the head, then every other item behind a
    separator. *)
Lemma concat_cons sep (x : string) (l : list string) :
  String.concat sep (x :: l)
  = x +:+ String.concat "" (map (λ y, sep +:+ y) l).
Proof.
  revert x. induction l as [|y l IH]; intros x.
  - simpl. by rewrite app_empty_r.
  - change (String.concat sep (x :: y :: l))
      with (x +:+ sep +:+ String.concat sep (y :: l)).
    rewrite IH. destruct l as [|z l].
    + simpl. by rewrite !app_empty_r.
    + change (map (λ y0, sep +:+ y0) (y :: z :: l))
        with ((sep +:+ y) :: map (λ y0, sep +:+ y0) (z :: l)).
      set (m := map (λ y0, sep +:+ y0) (z :: l)).
      assert (Hm : m ≠ []) by done.
      destruct m as [|m0 m]; [done|].
      change (String.concat "" ((sep +:+ y) :: m0 :: m))
        with ((sep +:+ y) +:+ "" +:+ String.concat "" (m0 :: m)).
      by rewrite app_empty_l, app_assoc_str.
Qed.

Lemma concat_empty_cons (x : string) (l : list string) :
  String.concat "" (x :: l) = x +:+ String.concat "" l.
Proof.
  destruct l as [|y l]; [simpl; by rewrite app_empty_r|].
  change (String.concat "" (x :: y :: l))
    with (x +:+ "" +:+ String.concat "" (y :: l)).
  by rewrite app_empty_l.
Qed.

Lemma concat_empty_snoc (l : list string) (x : string) :
  String.concat "" (l ++ [x]) = String.concat "" l +:+ x.
Proof.
  induction l as [|y l IH]; [done|].
  change ((y :: l) ++ [x]) with (y :: (l ++ [x])).
  by rewrite !concat_empty_cons, IH, app_assoc_str.
Qed.

Lemma startswith_drop (p s : string) :
  Str.startswith p s = true → s = p +:+ Str.drop (String.length p) s.
Proof.
  revert s. induction p as [|c p IH]; intros s; [done|].
  destruct s as [|d s]; [done|]. simpl.
  intros [Hc Hs]%andb_true_iff. apply Ascii.eqb_eq in Hc as ->.
  by rewrite app_cons, <- IH.
Qed.

(** ** Trimming *)

Lemma rev_app_spec (a b c : string) :
  String.rev_app (a +:+ b) c = String.rev_app b (String.rev_app a c).
Proof.
  revert c. induction a as [|x a IH]; intros c; [done|].
  rewrite app_cons. simpl. apply IH.
Qed.

Lemma rev_app_acc (a c : string) :
  String.rev_app a c = String.rev a +:+ c.
Proof.
  unfold String.rev. revert c. induction a as [|x a IH]; intros c; [done|].
  simpl. rewrite (IH (String x c)), (IH (String x "")).
  by rewrite app_assoc_str.
Qed.

Lemma rev_app_str (a b : string) :
  String.rev (a +:+ b) = String.rev b +:+ String.rev a.
Proof.
  unfold String.rev at 1. rewrite rev_app_spec.
  by rewrite rev_app_acc.
Qed.

Lemma rev_involutive_str (s : string) : String.rev (String.rev s) = s.
Proof.
  induction s as [|c s IH]; [done|].
  change (String c s) with (String c "" +:+ s) at 1.
  rewrite rev_app_str, rev_app_str. by rewrite IH.
Qed.

Lemma length_rev_str (s : string) :
  String.length (String.rev s) = String.length s.
Proof.
  induction s as [|c s IH]; [done|].
  change (String c s) with (String c "" +:+ s) at 1.
  rewrite rev_app_str, length_app_str, IH. simpl. lia.
Qed.

Lemma drop_space_some ws (s s' : string) :
  Str.drop_space ws s = Some s' → ∃ w, w ∈ ws ∧ s = w +:+ s'.
Proof.
  induction ws as [|w ws IH]; [done|]. simpl.
  destruct (Str.startswith w s) eqn:E.
  - intros [= <-]. exists w. split; [left|]. by apply startswith_drop.
  - intros (w' & Hin & ->)%IH. exists w'. split; [by right|done].
Qed.

Lemma drop_space_none ws (w s : string) :
  Str.drop_space ws (w +:+ s) = None → w ∉ ws.
Proof.
  induction ws as [|w' ws IH]; [intros _; apply not_elem_of_nil|]. simpl.
  destruct (Str.startswith w' (w +:+ s)) eqn:E; [done|].
  intros H. apply not_elem_of_cons. split; [|by apply IH].
  intros ->. by rewrite startswith_app in E.
Qed.

(** What [lstrip_with] returns has no item of [ws] in front, and what it
    took away is a run of items of [ws]. *)
Lemma lstrip_with_spec ws fuel (s : string) :
  "" ∉ ws → (String.length s ≤ fuel)%nat →
  ∃ l, run ws l
       ∧ s = l +:+ Str.lstrip_with ws fuel s
       ∧ Str.drop_space ws (Str.lstrip_with ws fuel s) = None.
Proof.
  intros Hne. revert s. induction fuel as [|k IH]; intros s Hlen.
  - destruct s; [|simpl in Hlen; lia]. exists "". split; [constructor|].
    split; [done|]. simpl. induction ws as [|w ws IHws]; [done|].
    simpl. destruct w as [|c w]; [by destruct Hne; left|].
    simpl. apply IHws. intros H. apply Hne. by right.
  - simpl. destruct (Str.drop_space ws s) as [s'|] eqn:E.
    + destruct (drop_space_some _ _ _ E) as (w & Hw & ->).
      destruct (IH s') as (l & Hl & Hs & Hd).
      { rewrite length_app_str in Hlen.
        destruct w; [done|]. simpl in Hlen. lia. }
      exists (w +:+ l). split; [by constructor|]. split; [|done].
      by rewrite app_assoc_str, <- Hs.
    + exists "". split; [constructor|]. by split.
Qed.

Lemma run_snoc ws (a w : string) : run ws a → w ∈ ws → run ws (a +:+ w).
Proof.
  induction 1 as [|w' s Hw' Hs IH]; intros Hw.
  - rewrite app_empty_l, <- (app_empty_r w). by constructor; [|constructor].
  - rewrite app_assoc_str. constructor; [done|by apply IH].
Qed.

Lemma run_rev ws (a : string) :
  run (map String.rev ws) a → run ws (String.rev a).
Proof.
  induction 1 as [|w s Hw Hs IH]; [constructor|].
  rewrite rev_app_str. apply run_snoc; [done|].
  apply list_elem_of_fmap in Hw as (u & -> & Hu).
  by rewrite rev_involutive_str.
Qed.

(** [strip] takes a run of white space off each end, and what it returns
    neither begins nor ends with a white space character. *)
Lemma strip_spec (s : string) :
  ∃ l r,
    s = l +:+ Str.strip s +:+ r
    ∧ run Str.whitespace l
    ∧ run Str.whitespace r
    ∧ Str.drop_space Str.whitespace (Str.strip s) = None
    ∧ Str.drop_space (map String.rev Str.whitespace)
        (String.rev (Str.strip s)) = None.
Proof.
  assert ("" ∉ Str.whitespace) as Hne
    by (apply (bool_decide_unpack _); by vm_compute).
  assert ("" ∉ map String.rev Str.whitespace) as Hner
    by (apply (bool_decide_unpack _); by vm_compute).
  unfold Str.strip, Str.rstrip, Str.lstrip.
  destruct (lstrip_with_spec Str.whitespace (String.length s) s Hne)
    as (l & Hl & Hs & Hd); [done|].
  set (m := Str.lstrip_with Str.whitespace (String.length s) s) in *.
  destruct (lstrip_with_spec (map String.rev Str.whitespace)
              (String.length m) (String.rev m) Hner)
    as (r & Hr & Hm & Hdr); [by rewrite length_rev_str|].
  set (t := Str.lstrip_with _ (String.length m) (String.rev m)) in *.
  assert (m = String.rev t +:+ String.rev r) as Hm'.
  { by rewrite <- rev_app_str, <- Hm, rev_involutive_str. }
  exists l, (String.rev r).
  split; [by rewrite <- Hm'|]. split; [done|]. split; [by apply run_rev|].
  split; [|by rewrite rev_involutive_str].
  destruct (Str.drop_space Str.whitespace (String.rev t)) as [x|] eqn:E;
    [|done].
  destruct (drop_space_some _ _ _ E) as (w & Hw & Hx).
  rewrite Hx, app_assoc_str in Hm'. rewrite Hm' in Hd.
  by destruct (drop_space_none _ _ _ Hd).
Qed.

(** ** The subtitle generators *)

Lemma vtt_loop_spec segments content :
  vtt_loop segments content = content ++ map vtt_entry segments.
Proof.
  revert content. induction segments as [|seg rest IH]; intros content; simpl.
  - by rewrite app_nil_r.
  - by rewrite IH, <- app_assoc.
Qed.

Lemma srt_loop_spec i segments content :
  srt_loop i segments content
  = content ++ imap (λ k seg, srt_entry (i + Z.of_nat k) seg) segments.
Proof.
  revert i content.
  induction segments as [|seg rest IH]; intros i content; simpl.
  - by rewrite app_nil_r.
  - rewrite IH, <- app_assoc. simpl. rewrite Z.add_0_r. do 2 f_equal.
    apply imap_ext. intros k x _. simpl. f_equal. lia.
Qed.

(** The WebVTT text is the header line and then, for each segment in order,
    an empty line, the timing line and the trimmed text line: no index
    lines, and no empty line after the last cue or after a header that
    stands alone. *)
Lemma generate_vtt_shape segments :
  _generate_vtt segments
  = "WEBVTT" +:+ Str.nl +:+
    String.concat "" (map (λ seg, Str.nl +:+ vtt_entry seg) segments).
Proof.
  unfold _generate_vtt. rewrite vtt_loop_spec.
  change (["WEBVTT" +:+ Str.nl] ++ map vtt_entry segments)
    with (("WEBVTT" +:+ Str.nl) :: map vtt_entry segments).
  by rewrite concat_cons, map_map, app_assoc_str.
Qed.

Lemma generate_vtt_nonempty seg rest :
  ∃ tail, _generate_vtt (seg :: rest) = "WEBVTT" +:+ Str.nl +:+ Str.nl +:+ tail.
Proof.
  rewrite generate_vtt_shape. simpl map. rewrite concat_empty_cons.
  eexists. by rewrite !app_assoc_str.
Qed.

Lemma concat_sep_end sep (l : list string) :
  l ≠ [] →
  String.concat sep l +:+ sep = String.concat "" (map (λ y, y +:+ sep) l).
Proof.
  induction l as [|x l IH]; [done|]. intros _.
  destruct l as [|y l].
  - simpl. done.
  - change (String.concat sep (x :: y :: l))
      with (x +:+ sep +:+ String.concat sep (y :: l)).
    change (map (λ y0, y0 +:+ sep) (x :: y :: l))
      with ((x +:+ sep) :: map (λ y0, y0 +:+ sep) (y :: l)).
    rewrite concat_empty_cons, <- IH by done.
    by rewrite !app_assoc_str.
Qed.

Lemma srt_block_entry i seg : srt_block i seg = srt_entry i seg +:+ Str.nl.
Proof. unfold srt_block, srt_entry. by rewrite !app_assoc_str. Qed.

(** The WebVTT text is one line feed short of the header, an empty line,
    and the blocks of the specification in the order of the segments. *)
Lemma generate_vtt_blocks seg rest :
  _generate_vtt (seg :: rest) +:+ Str.nl
  = "WEBVTT" +:+ Str.nl +:+ Str.nl +:+
    String.concat "" (map vtt_block (seg :: rest)).
Proof.
  unfold _generate_vtt. rewrite vtt_loop_spec.
  change (["WEBVTT" +:+ Str.nl] ++ map vtt_entry (seg :: rest))
    with (("WEBVTT" +:+ Str.nl) :: map vtt_entry (seg :: rest)).
  rewrite concat_sep_end by done.
  change (map ?f (?x :: ?l)) with (f x :: map f l) at 1.
  rewrite concat_empty_cons, map_map, !app_assoc_str.
  do 4 f_equal. apply map_ext. intros s. unfold vtt_block, vtt_entry.
  by rewrite !app_assoc_str.
Qed.

(** With the line feed that is missing at the end, the SRT text is the
    sequence of the blocks of the specification, numbered from 1, in the
    order of the segments. *)
Lemma generate_srt_shape seg rest :
  _generate_srt (seg :: rest) +:+ Str.nl
  = String.concat ""
      (imap (λ k s, srt_block (1 + Z.of_nat k) s) (seg :: rest)).
Proof.
  unfold _generate_srt. rewrite srt_loop_spec, app_nil_l.
  rewrite concat_sep_end by done.
  f_equal.
  etrans; [apply (fmap_imap _ (λ y : string, y +:+ Str.nl))|].
  apply imap_ext. intros k s _. simpl. by rewrite srt_block_entry.
Qed.

Lemma generate_srt_empty : _generate_srt [] = "".
Proof. reflexivity. Qed.

(** C1 (the code at the two cues of the specification): [_generate_vtt]
    returns the text of the specification without its last line feed, so
    the two texts differ; the text of the specification is what [_write_vtt]
    writes to a file. *)
Theorem generate_vtt_two_cues :
  _generate_vtt two_cues +:+ Str.nl = two_cues_vtt
  ∧ _generate_vtt two_cues ≠ two_cues_vtt
  ∧ file_at (_write_vtt two_cues "out.vtt" empty_world).2 ["out.vtt"]
    = Some two_cues_vtt.
Proof.
  split; [by vm_compute|]. split.
  - intros H%String.eqb_eq. vm_compute in H. discriminate.
  - by vm_compute.
Qed.

(** C4 (the code at the empty sequence): [_generate_vtt] returns the header
    line alone, which does not begin with the header and an empty line,
    while [_write_vtt] writes the header and the empty line. *)
Theorem generate_vtt_no_segments :
  _generate_vtt [] = "WEBVTT" +:+ Str.nl
  ∧ Str.startswith ("WEBVTT" +:+ Str.nl +:+ Str.nl) (_generate_vtt []) = false
  ∧ file_at (_write_vtt [] "out.vtt" empty_world).2 ["out.vtt"]
    = Some ("WEBVTT" +:+ Str.nl +:+ Str.nl).
Proof. by vm_compute. Qed.

(** C5 (the code at a single segment): [_generate_srt] returns the index
    line, the timing line and the trimmed text line, and no empty line after
    them; [_write_srt] writes the whole block of the specification. *)
Theorem generate_srt_one_cue :
  _generate_srt one_cue
  = String.concat Str.nl ["1"; "00:00:00,000 --> 00:00:01,000"; "hi"; ""]
  ∧ _generate_srt one_cue
    ≠ String.concat "" (imap (λ k, srt_block (1 + Z.of_nat k)) one_cue)
  ∧ file_at (_write_srt one_cue "out.srt" empty_world).2 ["out.srt"]
    = Some (String.concat ""
              (imap (λ k, srt_block (1 + Z.of_nat k)) one_cue)).
Proof.
  split; [by vm_compute|]. split.
  - intros H%String.eqb_eq. vm_compute in H. discriminate.
  - by vm_compute.
Qed.

(** ** Decimal numerals *)

Lemma digit_char_spec d :
  0 ≤ d ≤ 9 →
  is_digit (Fmt.digit_char d) = true
  ∧ Z.of_nat (nat_of_ascii (Fmt.digit_char d)) - 48 = d
  ∧ Fmt.digit_char d ≠ "."%char.
Proof.
  intros Hd.
  assert (H : d = 0 ∨ d = 1 ∨ d = 2 ∨ d = 3 ∨ d = 4 ∨ d = 5 ∨ d = 6
              ∨ d = 7 ∨ d = 8 ∨ d = 9) by lia.
  repeat (destruct H as [-> | H]); try subst d; by vm_compute.
Qed.

Lemma digits_acc_app fuel n acc :
  Fmt.digits_acc fuel n acc = Fmt.digits_acc fuel n "" +:+ acc.
Proof.
  revert n acc. induction fuel as [|k IH]; intros n acc; simpl; [done|].
  destruct (n <? 10); [done|].
  rewrite (IH _ (String _ acc)), (IH _ (String _ "")).
  by rewrite app_assoc_str.
Qed.

Lemma dec_acc_snoc d c v :
  dec_acc (d +:+ String c "") v
  = x ← dec_acc d v;
    if is_digit c then Some (10 * x + (Z.of_nat (nat_of_ascii c) - 48))
    else None.
Proof.
  revert v. induction d as [|a d IH]; intros v.
  - simpl. by destruct (is_digit c).
  - rewrite app_cons. simpl. destruct (is_digit a); [apply IH|done].
Qed.

Lemma digits_acc_step k n :
  10 ≤ n →
  Fmt.digits_acc (S k) n ""
  = Fmt.digits_acc k (n / 10) "" +:+ String (Fmt.digit_char (n mod 10)) "".
Proof.
  intros Hn. simpl. destruct (Z.ltb_spec n 10); [lia|].
  apply digits_acc_app.
Qed.

Lemma digits_acc_small k n :
  n < 10 → Fmt.digits_acc (S k) n "" = String (Fmt.digit_char (n mod 10)) "".
Proof. intros Hn. simpl. by destruct (Z.ltb_spec n 10); [|lia]. Qed.

Lemma dec_acc_digit d v :
  0 ≤ d ≤ 9 → dec_acc (String (Fmt.digit_char d) "") v = Some (10 * v + d).
Proof.
  intros Hd. destruct (digit_char_spec d Hd) as (H1 & H2 & _).
  cbv [dec_acc]. by rewrite H1, H2.
Qed.

Lemma div10_bound k n :
  0 ≤ n < 2 ^ Z.of_nat (S k) → 0 ≤ n / 10 < 2 ^ Z.of_nat k.
Proof.
  rewrite Nat2Z.inj_succ, Z.pow_succ_r by lia. intros Hn.
  split; [apply Z.div_pos; lia|]. apply Z.div_lt_upper_bound; lia.
Qed.

Lemma digits_acc_value fuel n :
  0 ≤ n < 2 ^ Z.of_nat fuel → dec_acc (Fmt.digits_acc fuel n "") 0 = Some n.
Proof.
  revert n. induction fuel as [|k IH]; intros n Hn.
  - change (Z.of_nat 0) with 0 in Hn. rewrite Z.pow_0_r in Hn.
    cbv [Fmt.digits_acc dec_acc]. f_equal. lia.
  - destruct (Z.lt_ge_cases n 10) as [Hs|Hl].
    + rewrite digits_acc_small by done. rewrite Z.mod_small by lia.
      rewrite dec_acc_digit by lia. f_equal; lia.
    + rewrite digits_acc_step, dec_acc_snoc by done.
      rewrite IH by by apply div10_bound.
      pose proof (Z.mod_pos_bound n 10 ltac:(lia)) as Hm.
      destruct (digit_char_spec (n mod 10)) as (H1 & H2 & _); [lia|].
      cbn [mbind option_bind]. rewrite H1, H2. f_equal.
      pose proof (Z.div_mod n 10). lia.
Qed.

Lemma digits_acc_length fuel n :
  0 ≤ n < 2 ^ Z.of_nat fuel →
  ((1 ≤ fuel)%nat → (1 ≤ String.length (Fmt.digits_acc fuel n ""))%nat)
  ∧ (10 ≤ n → (2 ≤ String.length (Fmt.digits_acc fuel n ""))%nat)
  ∧ (100 ≤ n → (3 ≤ String.length (Fmt.digits_acc fuel n ""))%nat).
Proof.
  revert n. induction fuel as [|k IH]; intros n Hn.
  - change (Z.of_nat 0) with 0 in Hn. rewrite Z.pow_0_r in Hn.
    repeat split; intros; lia.
  - destruct (Z.lt_ge_cases n 10) as [Hs|Hl].
    { rewrite digits_acc_small by done.
      repeat split; intros; cbn [String.length]; lia. }
    rewrite digits_acc_step, length_app_str by done.
    cbn [String.length].
    pose proof (div10_bound k n Hn) as Hk.
    destruct (IH _ Hk) as (IH1 & IH2 & _).
    split; [intros; lia|]. split; intros Hn'.
    + destruct k as [|k].
      { change (Z.of_nat 0) with 0 in Hk. rewrite Z.pow_0_r in Hk.
        assert (n / 10 = 0) as E by lia.
        apply Z.div_small_iff in E; lia. }
      specialize (IH1 ltac:(lia)). lia.
    + assert (10 ≤ n / 10) by (apply Z.div_le_lower_bound; lia).
      specialize (IH2 ltac:(done)). lia.
Qed.

Lemma digits_fuel n : 0 ≤ n → n < 2 ^ Z.of_nat (S (Z.to_nat (Z.log2 n))).
Proof.
  intros Hn. rewrite Nat2Z.inj_succ, Z2Nat.id by apply Z.log2_nonneg.
  destruct (Z.eq_dec n 0) as [->|]; [done|].
  apply Z.log2_spec. lia.
Qed.

Lemma digits_value n : 0 ≤ n → dec_acc (Fmt.digits n) 0 = Some n.
Proof. intros Hn. apply digits_acc_value. split; [done|by apply digits_fuel]. Qed.

Lemma digits_length n :
  100 ≤ n → (3 ≤ String.length (Fmt.digits n))%nat.
Proof.
  intros Hn. apply digits_acc_length; [|done].
  split; [lia|apply digits_fuel; lia].
Qed.

Lemma digits_lt_10 n : 0 ≤ n < 10 → Fmt.digits n = String (Fmt.digit_char n) "".
Proof.
  intros Hn. unfold Fmt.digits. rewrite digits_acc_small by lia.
  by rewrite Z.mod_small by lia.
Qed.

Lemma digits_lt_100 n : 10 ≤ n < 100 → Fmt.digits n = two_digits n.
Proof.
  intros Hn. unfold Fmt.digits.
  assert (1 ≤ Z.log2 n) by (apply Z.log2_le_pow2; lia).
  destruct (Z.to_nat (Z.log2 n)) as [|k] eqn:E; [lia|].
  rewrite digits_acc_step by lia.
  rewrite digits_acc_small, Z.mod_small.
  - done.
  - split; [apply Z.div_pos; lia|apply Z.div_lt_upper_bound; lia].
  - apply Z.div_lt_upper_bound; lia.
Qed.


(** A property checked on every number below [N] holds below [N]. *)
Lemma below_forallb (P : Z → bool) (N : nat) :
  forallb P (map Z.of_nat (seq 0 N)) = true →
  ∀ n, 0 ≤ n < Z.of_nat N → P n = true.
Proof.
  intros H n Hn. rewrite forallb_forall in H. apply H.
  apply in_map_iff. exists (Z.to_nat n). split; [lia|].
  apply in_seq. lia.
Qed.

Lemma pad2 n : 0 ≤ n < 100 → Fmt.zero_pad 2 "" (Fmt.digits n) = two_digits n.
Proof.
  intros Hn.
  apply String.eqb_eq.
  by apply (below_forallb
              (λ k, String.eqb (Fmt.zero_pad 2 "" (Fmt.digits k)) (two_digits k))
              100).
Qed.

Lemma pad3 n : 0 ≤ n < 1000 → Fmt.zero_pad 3 "" (Fmt.digits n) = three_digits n.
Proof.
  intros Hn.
  apply String.eqb_eq.
  by apply (below_forallb
              (λ k, String.eqb (Fmt.zero_pad 3 "" (Fmt.digits k)) (three_digits k))
              1000).
Qed.

Lemma format_d_small n : 0 ≤ n < 100 → Fmt.format_d 2 n = two_digits n.
Proof.
  intros Hn. unfold Fmt.format_d.
  destruct (Z.ltb_spec n 0); [lia|]. by apply pad2.
Qed.

Lemma format_d_large n : 100 ≤ n → Fmt.format_d 2 n = Fmt.digits n.
Proof.
  intros Hn. unfold Fmt.format_d, Fmt.zero_pad.
  destruct (Z.ltb_spec n 0); [lia|].
  pose proof (digits_length n Hn).
  replace (2 - _)%nat with 0%nat by (cbn [String.length]; lia).
  done.
Qed.

(** The seconds field: two digits, the decimal point, three digits. *)
Lemma pad6 a b :
  0 ≤ a < 100 → 0 ≤ b < 1000 →
  Fmt.zero_pad 6 "" (Fmt.digits a +:+ "." +:+ Fmt.zero_pad 3 "" (Fmt.digits b))
  = two_digits a +:+ "." +:+ three_digits b.
Proof.
  intros Ha Hb. rewrite pad3 by done.
  destruct (Z.lt_ge_cases a 10).
  - rewrite digits_lt_10 by lia. unfold two_digits.
    rewrite Z.div_small, Z.mod_small by lia. done.
  - rewrite digits_lt_100 by lia. done.
Qed.

(** ** Exact arithmetic of the timestamp *)

Lemma to_int_inject z : Float.to_int (inject_Z z) = z.
Proof. unfold Float.to_int. simpl. apply Z.quot_1_r. Qed.

Lemma Qfloor_unique (y : Q) (z : Z) :
  (inject_Z z <= y)%Q → (y < inject_Z (z + 1))%Q → Qfloor y = z.
Proof.
  intros Hlo Hhi.
  pose proof (Qfloor_le y) as H1. pose proof (Qlt_floor y) as H2.
  assert (inject_Z z < inject_Z (Qfloor y + 1))%Q as H3
    by (eapply Qle_lt_trans; eauto).
  assert (inject_Z (Qfloor y) < inject_Z (z + 1))%Q as H4
    by (eapply Qle_lt_trans; eauto).
  rewrite <- Zlt_Qlt in H3, H4. lia.
Qed.

Lemma Qfloor_bounds (y : Q) :
  (inject_Z (Qfloor y) <= y)%Q ∧ (y < inject_Z (Qfloor y) + 1)%Q.
Proof.
  split; [apply Qfloor_le|].
  pose proof (Qlt_floor y) as H. by rewrite inject_Z_plus in H.
Qed.

(** The hours, minutes and seconds the code computes are the decomposition
    of [x] by floor division. *)
Lemma timestamp_components (x : Q) :
  (0 <= x)%Q →
  let h := Qfloor (x / 3600) in
  let q := Qfloor (x / 60) in
  Float.to_int (Float.floordiv x 3600) = h
  ∧ Float.to_int (Float.floordiv (Float.rem x 3600) 60) = q mod 60
  ∧ 0 ≤ h ∧ h = q / 60
  ∧ (0 <= Float.rem x 60)%Q ∧ (Float.rem x 60 < 60)%Q.
Proof.
  intros Hx h q. unfold Float.floordiv, Float.rem. rewrite !to_int_inject.
  fold h. fold q.
  destruct (Qfloor_bounds (x / 3600)) as [Hh1 Hh2]. fold h in Hh1, Hh2.
  destruct (Qfloor_bounds (x / 60)) as [Hq1 Hq2]. fold q in Hq1, Hq2.
  assert (x / 3600 == x * (1 # 3600))%Q as E1 by (unfold Qdiv; reflexivity).
  assert (x / 60 == x * (1 # 60))%Q as E2 by (unfold Qdiv; reflexivity).
  rewrite E1 in Hh1, Hh2. rewrite E2 in Hq1, Hq2.
  assert (0 ≤ h) as Hh0.
  { destruct (Z.lt_ge_cases h 0) as [Hneg|]; [exfalso|done].
    assert (inject_Z h <= inject_Z (-1))%Q by (rewrite <- Zle_Qle; lia).
    change (inject_Z (-1)) with (-1)%Q in *. lra. }
  set (m := Qfloor ((x - 3600 * inject_Z h) / 60)).
  destruct (Qfloor_bounds ((x - 3600 * inject_Z h) / 60)) as [Hm1 Hm2].
  fold m in Hm1, Hm2.
  assert ((x - 3600 * inject_Z h) / 60
          == (x - 3600 * inject_Z h) * (1 # 60))%Q as E3
    by (unfold Qdiv; reflexivity).
  rewrite E3 in Hm1, Hm2.
  assert (0 ≤ m < 60) as Hm.
  { split.
    - destruct (Z.lt_ge_cases m 0) as [Hneg|]; [exfalso|done].
      assert (inject_Z m <= inject_Z (-1))%Q by (rewrite <- Zle_Qle; lia).
      change (inject_Z (-1)) with (-1)%Q in *. lra.
    - destruct (Z.lt_ge_cases m 60) as [|Hbig]; [done|exfalso].
      assert (inject_Z 60 <= inject_Z m)%Q by (rewrite <- Zle_Qle; lia).
      change (inject_Z 60) with 60%Q in *. lra. }
  assert (q = 60 * h + m) as Hq.
  { apply Qfloor_unique; rewrite ?E2, ?inject_Z_plus, ?inject_Z_mult;
      change (inject_Z 60) with 60%Q; change (inject_Z 1) with 1%Q; lra. }
  repeat split; try done.
  - rewrite Hq. apply Z.mod_unique_pos with h; lia.
  - rewrite Hq. apply Z.div_unique_pos with m; lia.
  - lra.
  - lra.
Qed.

Lemma round_half_even_spec N D :
  0 < D → 0 ≤ N →
  let t := Fmt.round_half_even N D in
  2 * Z.abs (N - t * D) ≤ D
  ∧ (2 * Z.abs (N - t * D) = D → Z.even t = true)
  ∧ 0 ≤ t
  ∧ (∀ B, N < B * D → t ≤ B).
Proof.
  intros HD HN t. subst t. unfold Fmt.round_half_even.
  pose proof (Z.div_mod N D ltac:(lia)) as E.
  pose proof (Z.mod_pos_bound N D HD) as Hr.
  assert (0 ≤ N / D) as Hq by (apply Z.div_pos; lia).
  set (q := N / D) in *. set (r := N mod D) in *.
  assert (∀ B, N < B * D → q < B) as HB by (intros B HBD; nia).
  destruct (Z.ltb_spec (2 * r) D); [|destruct (Z.ltb_spec D (2 * r))].
  - repeat split; [nia|nia|lia|intros B HBD; specialize (HB B HBD); lia].
  - repeat split; [nia|nia|lia|intros B HBD; specialize (HB B HBD); lia].
  - assert (2 * r = D) as Htie by lia.
    destruct (Z.even q) eqn:Hev.
    + repeat split; [nia|done|lia|intros B HBD; specialize (HB B HBD); lia].
    + repeat split; [nia| |lia|intros B HBD; specialize (HB B HBD); lia].
      intros _. rewrite Z.add_1_r, Z.even_succ, <- Z.negb_even, Hev. done.
Qed.

(** What [%.3f] prints is the multiple of [1/1000] nearest to the value,
    the even one of two equally near. *)
Lemma thousandths_spec (y : Q) :
  (0 <= y)%Q →
  let t := Fmt.thousandths y in
  (inject_Z t - (1 # 2) <= 1000 * y)%Q
  ∧ (1000 * y <= inject_Z t + (1 # 2))%Q
  ∧ ((1000 * y == inject_Z t - (1 # 2))%Q ∨ (1000 * y == inject_Z t + (1 # 2))%Q
     → Z.even t = true)
  ∧ 0 ≤ t
  ∧ ((y < 60)%Q → t ≤ 60000)
  ∧ (Qnum y <? 0) = false.
Proof.
  intros Hy t. subst t. unfold Fmt.thousandths.
  destruct y as [n d]. unfold Qle in Hy. simpl in Hy.
  assert (0 ≤ n) as Hn by lia. cbn [Qnum Qden].
  rewrite (Z.abs_eq n) by done.
  destruct (round_half_even_spec (1000 * n) (Z.pos d) ltac:(lia) ltac:(lia))
    as (H1 & H2 & H3 & H4).
  set (t := Fmt.round_half_even (1000 * n) (Z.pos d)) in *.
  repeat split.
  - unfold Qle, Qminus, Qplus, Qmult, Qopp, inject_Z. simpl. lia.
  - unfold Qle, Qminus, Qplus, Qmult, Qopp, inject_Z. simpl. lia.
  - intros [E|E]; apply H2;
      unfold Qeq, Qminus, Qplus, Qmult, Qopp, inject_Z in E; simpl in E; lia.
  - done.
  - intros H60. apply H4. unfold Qlt in H60. simpl in H60. lia.
  - by destruct (Z.ltb_spec n 0); [lia|].
Qed.

(** ** The text of a timestamp *)

Lemma replace_char_app a b (s1 s2 : string) :
  Str.replace_char a b (s1 +:+ s2)
  = Str.replace_char a b s1 +:+ Str.replace_char a b s2.
Proof.
  induction s1 as [|c s1 IH]; [done|].
  rewrite app_cons. simpl. by rewrite IH.
Qed.

Lemma is_digit_not_dot c : is_digit c = true → Ascii.eqb c "." = false.
Proof.
  destruct (Ascii.eqb_spec c ".") as [->|]; [|done]. by vm_compute.
Qed.

Lemma numeral_no_dot s v z :
  dec_acc s v = Some z → Str.replace_char "." "," s = s.
Proof.
  revert v. induction s as [|c s IH]; intros v; [done|].
  simpl. destruct (is_digit c) eqn:Hc; [|done]. intros H.
  by rewrite (is_digit_not_dot c Hc), (IH _ H).
Qed.

Lemma two_digits_value n : 0 ≤ n < 100 → dec_acc (two_digits n) 0 = Some n.
Proof.
  intros Hn. unfold two_digits.
  change (String ?c (String ?d "")) with (String c "" +:+ String d "").
  rewrite dec_acc_snoc, dec_acc_digit.
  - pose proof (Z.mod_pos_bound n 10 ltac:(lia)).
    destruct (digit_char_spec (n mod 10)) as (H1 & H2 & _); [lia|].
    cbn [mbind option_bind]. rewrite H1, H2. f_equal.
    pose proof (Z.div_mod n 10). lia.
  - split; [apply Z.div_pos; lia|].
    apply Z.lt_succ_r. apply Z.div_lt_upper_bound; lia.
Qed.

Lemma three_digits_no_dot n :
  0 ≤ n < 1000 → Str.replace_char "." "," (three_digits n) = three_digits n.
Proof.
  intros Hn. apply String.eqb_eq.
  by apply (below_forallb
              (λ k, String.eqb (Str.replace_char "." "," (three_digits k))
                      (three_digits k)) 1000).
Qed.

Lemma is_digit_digit_char d : 0 ≤ d ≤ 9 → is_digit (Fmt.digit_char d) = true.
Proof. intros Hd. by destruct (digit_char_spec d Hd). Qed.

Lemma pattern_ok sep h m s f :
  0 ≤ h < 100 → 0 ≤ m < 100 → 0 ≤ s < 100 → 0 ≤ f < 1000 →
  timestamp_pattern sep
    (two_digits h +:+ ":" +:+ two_digits m +:+ ":" +:+ two_digits s +:+
     String sep (three_digits f)) = true.
Proof.
  intros Hh Hm Hs Hf. unfold three_digits, two_digits.
  cbv [String.append timestamp_pattern forallb].
  rewrite !is_digit_digit_char, !Ascii.eqb_refl; [done|..];
    Z.div_mod_to_equations; lia.
Qed.

Lemma hours_field h :
  0 ≤ h →
  dec_value (Fmt.format_d 2 h) = Some h
  ∧ (2 ≤ String.length (Fmt.format_d 2 h))%nat
  ∧ (h < 100 ↔ String.length (Fmt.format_d 2 h) = 2%nat)
  ∧ Str.replace_char "." "," (Fmt.format_d 2 h) = Fmt.format_d 2 h.
Proof.
  intros Hh. destruct (Z.lt_ge_cases h 100) as [Hs|Hl].
  - rewrite format_d_small by lia.
    pose proof (two_digits_value h ltac:(lia)) as Hv.
    repeat split; try done. eapply numeral_no_dot, Hv.
  - rewrite format_d_large by done.
    pose proof (digits_value h Hh) as Hv.
    pose proof (digits_length h Hl) as Hlen.
    repeat split.
    + unfold dec_value. destruct (Fmt.digits h); [simpl in Hlen; lia|done].
    + lia.
    + lia.
    + lia.
    + eapply numeral_no_dot, Hv.
Qed.

(** C6, as amended: for every non-negative number of seconds the text is
    the hours, [:], the minutes in two digits, [:], the seconds in two
    digits, the decimal mark ([,] for SRT, [.] otherwise) and three digits of
    thousandths.  The hours are [floor(x/3600)], never reduced modulo 24,
    written in at least two digits and in exactly two below 100 hours; the
    minutes are [floor(x/60) mod 60]; the thousandths are those of the seconds
    left over, rounded to the nearest, ties to even.  Below 100 hours the text
    has the twelve-character shape [HH:MM:SS.mmm]. *)
Theorem format_timestamp_fields (x : Q) (srt : bool) :
  (0 <= x)%Q →
  let h := Qfloor (x / 3600) in
  let m := Qfloor (x / 60) mod 60 in
  let secs := (x - 60 * inject_Z (Qfloor (x / 60)))%Q in
  ∃ (hh : string) (t : Z),
    _format_timestamp x srt
    = hh +:+ ":" +:+ two_digits m +:+ ":" +:+ two_digits (t / 1000) +:+
      String (decimal_mark srt) (three_digits (t mod 1000))
    ∧ dec_value hh = Some h
    ∧ (2 ≤ String.length hh)%nat
    ∧ (h < 100 ↔ String.length hh = 2%nat)
    ∧ 0 ≤ h ∧ 0 ≤ m < 60
    ∧ (0 <= secs)%Q ∧ (secs < 60)%Q
    ∧ (inject_Z h * 3600 + inject_Z m * 60 + secs == x)%Q
    ∧ 0 ≤ t ≤ 60000
    ∧ (inject_Z t - (1 # 2) <= 1000 * secs)%Q
    ∧ (1000 * secs <= inject_Z t + (1 # 2))%Q
    ∧ ((1000 * secs == inject_Z t - (1 # 2))%Q
       ∨ (1000 * secs == inject_Z t + (1 # 2))%Q → Z.even t = true)
    ∧ ((x < 360000)%Q →
       timestamp_pattern (decimal_mark srt) (_format_timestamp x srt) = true).
Proof.
  intros Hx h m secs.
  destruct (timestamp_components x Hx) as (Eh & Em & Hh0 & Hhq & Hs0 & Hs60).
  fold h in Eh, Hh0, Hhq. fold m in Em.
  change (Float.rem x 60) with secs in Hs0, Hs60.
  destruct (thousandths_spec secs Hs0) as (Ht1 & Ht2 & Ht3 & Ht0 & Ht60 & Hsign).
  specialize (Ht60 Hs60).
  set (t := Fmt.thousandths secs) in *.
  destruct (hours_field h Hh0) as (Hv & Hlen & Hlen2 & Hdot).
  assert (0 ≤ m < 60) as Hm by (apply Z.mod_pos_bound; lia).
  assert (0 ≤ t / 1000 < 100) as Hq.
  { split; [apply Z.div_pos; lia|apply Z.div_lt_upper_bound; lia]. }
  assert (0 ≤ t mod 1000 < 1000) as Hr by (apply Z.mod_pos_bound; lia).
  assert (_format_timestamp x srt
          = Fmt.format_d 2 h +:+ ":" +:+ two_digits m +:+ ":" +:+
            two_digits (t / 1000) +:+
            String (decimal_mark srt) (three_digits (t mod 1000))) as Hshape.
  { unfold _format_timestamp. rewrite Eh, Em.
    change (Float.rem x 60) with secs.
    unfold Fmt.format_3f. fold t. rewrite Hsign, pad6 by done.
    rewrite (format_d_small m) by lia.
    destruct srt; [|done].
    rewrite !replace_char_app, Hdot.
    rewrite (numeral_no_dot _ _ _ (two_digits_value m ltac:(lia))).
    rewrite (numeral_no_dot _ _ _ (two_digits_value (t / 1000) Hq)).
    rewrite three_digits_no_dot by done. done. }
  exists (Fmt.format_d 2 h), t.
  split; [done|]. repeat (split; [done || lia|]).
  split.
  { assert (Qfloor (x / 60) = 60 * h + m) as E.
    { subst m. rewrite Hhq. pose proof (Z.div_mod (Qfloor (x / 60)) 60). lia. }
    unfold secs. rewrite E, inject_Z_plus, inject_Z_mult.
    change (inject_Z 60) with 60%Q. ring. }
  repeat (split; [done || lia|]).
  intros H100. rewrite Hshape.
  assert (h < 100) as Hh100.
  { destruct (Z.lt_ge_cases h 100) as [|Hbig]; [done|exfalso].
    destruct (Qfloor_bounds (x / 3600)) as [Hb _]. fold h in Hb.
    assert (inject_Z 100 <= inject_Z h)%Q by (rewrite <- Zle_Qle; lia).
    assert (x / 3600 == x * (1 # 3600))%Q as E by (unfold Qdiv; reflexivity).
    rewrite E in Hb. change (inject_Z 100) with 100%Q in *. lra. }
  rewrite format_d_small by lia.
  apply pattern_ok; lia.
Qed.

(** C6 at a concrete input: one second and a half. *)
Lemma format_timestamp_fields_witness :
  (0 <= 3 # 2)%Q
  ∧ ∃ (hh : string) (t : Z),
    _format_timestamp (3 # 2) true
    = hh +:+ ":" +:+ two_digits 0 +:+ ":" +:+ two_digits (t / 1000) +:+
      String "," (three_digits (t mod 1000))
    ∧ dec_value hh = Some 0 ∧ t = 1500.
Proof.
  assert (0 <= 3 # 2)%Q as Hpos by done.
  split; [exact Hpos|].
  destruct (format_timestamp_fields (3 # 2) true Hpos)
    as (hh & t & H1 & H2 & _ & _ & _ & _ & _ & _ & _ & _ & H3 & H4 & _).
  exists hh, t. split; [exact H1|]. split; [exact H2|].
  change (Qfloor ((3 # 2) / 60)) with 0 in H3, H4.
  unfold Qle, Qminus, Qplus, Qmult, Qopp, inject_Z in H3, H4.
  simpl in H3, H4. lia.
Defined.

(** C6 as it was stated fails at 100 hours: the hours take three digits and
    the text is not of the shape [HH:MM:SS.mmm]. *)
Lemma format_timestamp_100_hours :
  _format_timestamp 360000 false = "100:00:00.000"
  ∧ timestamp_pattern "." (_format_timestamp 360000 false) = false.
Proof. by vm_compute. Qed.

(** ** The transcription orchestrator *)

Section Orchestrator.

Variable json_dumps : json → string.
Variable json_loads : string → option json.
Variable isoformat : nat → string.
Variable strftime : nat → string.
Variable whisper :
  string → string → option string → gmap Path.t node → outcome transcription.

(** C8: when nothing exists at [audio_path], [transcribe_audio] raises
    [FileNotFoundError] and leaves the world as it found it: the model has
    not been called, the clock has not been read, no file has been written. *)
Theorem transcribe_audio_missing_file (self : AudioTranscriber)
    (audio_path : string) (language : option string) (output_format : string)
    (project_dirs : option (Dict.t Path.t)) (w : world) :
  Fs.exists_ (w_fs w) audio_path = false →
  transcribe_audio json_dumps json_loads isoformat strftime whisper
    self audio_path language output_format project_dirs w
  = (Raise (FileNotFoundError ("Audio file not found: " +:+ audio_path)), w).
Proof.
  intros Hmissing. unfold transcribe_audio, os_path_exists.
  cbv [mbind M_bind]. by rewrite Hmissing.
Qed.

End Orchestrator.

Lemma transcribe_audio_missing_file_witness :
  Fs.exists_ (w_fs demo_world) "talk.mp3" = false
  ∧ transcribe_audio demo_dumps demo_loads demo_isoformat demo_strftime
      demo_whisper
      {| model_size := "base"; use_project_structure := true;
         output_dir := None; project_manager := Some demo_store |}
      "talk.mp3" None "all" (Some demo_dirs) demo_world
    = (Raise (FileNotFoundError "Audio file not found: talk.mp3"), demo_world).
Proof.
  split; [by vm_compute|].
  apply (transcribe_audio_missing_file demo_dumps demo_loads demo_isoformat
           demo_strftime demo_whisper). by vm_compute.
Defined.

(** ** Paths and files *)

#[local] Arguments Ascii.eqb : simpl never.
#[local] Arguments String.eqb : simpl never.

Lemma has_char_app c (a b : string) :
  has_char c (a +:+ b) = has_char c a || has_char c b.
Proof.
  unfold has_char. induction a as [|x a IH]; [done|].
  rewrite app_cons. simpl. by rewrite IH, orb_assoc.
Qed.

Lemma split_plain (s : string) : plain_name s → Path.split "/" s = [s].
Proof.
  unfold plain_name, has_char. induction s as [|c s IH]; [done|].
  simpl. intros [Hc Hs]%orb_false_elim.
  rewrite Ascii.eqb_sym, Hc, (IH Hs). done.
Qed.

Lemma plain_no_root (s : string) : plain_name s → Path.root_of s = "".
Proof.
  intros Hp. unfold Path.root_of. destruct s as [|c s]; [done|].
  unfold plain_name, has_char in Hp. simpl in Hp.
  apply orb_false_elim in Hp as [Hc _]. simpl. by rewrite Hc.
Qed.

Lemma parse_plain (s : string) :
  plain_name s → Path.is_name s = true → Path.parse s = [s].
Proof.
  intros Hp Hn. unfold Path.parse.
  rewrite split_plain, plain_no_root by done.
  by rewrite filter_cons_True, filter_nil.
Qed.

Lemma div_plain (p : Path.t) (s : string) :
  plain_name s → Path.is_name s = true → Path.div p s = p ++ [s].
Proof.
  intros Hp Hn. unfold Path.div. rewrite parse_plain by done.
  assert (Path.is_absolute [s] = false) as ->; [|done].
  unfold Path.is_absolute, Path.is_root.
  destruct (String.eqb_spec s "/") as [->|]; [done|].
  destruct (String.eqb_spec s "//") as [->|]; done.
Qed.

(** The name of an output file: the base name, a dot, the extension. *)
Lemma file_name_plain (base ext : string) :
  plain_name base → plain_name ext → ext ≠ "" →
  plain_name (base +:+ "." +:+ ext)
  ∧ Path.is_name (base +:+ "." +:+ ext) = true.
Proof.
  intros Hb He Hne. split.
  { unfold plain_name in *. by rewrite !has_char_app, Hb, He. }
  assert (2 ≤ String.length (base +:+ "." +:+ ext))%nat as Hlen.
  { rewrite !length_app_str. destruct ext; [done|]. simpl. lia. }
  unfold Path.is_name.
  destruct (String.eqb_spec (base +:+ "." +:+ ext) "") as [E|_];
    [rewrite E in Hlen; simpl in Hlen; lia|].
  destruct (String.eqb_spec (base +:+ "." +:+ ext) ".") as [E|_];
    [rewrite E in Hlen; simpl in Hlen; lia|done].
Qed.

Lemma plain_not_root (s : string) : plain_name s → Path.is_root s = false.
Proof.
  intros Hp. unfold Path.is_root.
  destruct (String.eqb_spec s "/") as [->|]; [done|].
  destruct (String.eqb_spec s "//") as [->|]; done.
Qed.

Lemma node_at_child fs (p : Path.t) (n : string) :
  Path.is_root n = false → Fs.node_at fs (p ++ [n]) = fs !! (p ++ [n]).
Proof.
  intros Hn. destruct p as [|c [|c' p]]; simpl; by rewrite ?Hn.
Qed.

Lemma parent_child (p : Path.t) (n : string) : Path.parent (p ++ [n]) = p.
Proof. apply removelast_last. Qed.

Lemma child_ne (p : Path.t) (n : string) : p ++ [n] ≠ p.
Proof. intros E%(f_equal length). rewrite length_app in E. simpl in E. lia. Qed.

(** Writing a file under a directory that exists, where no directory is in
    the way: the file holds what was written. *)
Lemma open_write fs (p : Path.t) (n s : string) :
  Path.is_root n = false →
  Fs.is_dir fs p = true →
  fs !! (p ++ [n]) ≠ Some Dir →
  ∃ fs1, Fs.open_w (p ++ [n]) fs = Ok fs1
         ∧ Fs.append (p ++ [n]) s fs1 = <[p ++ [n] := File s]> fs.
Proof.
  intros Hn Hd Hfree. unfold Fs.open_w, Fs.parent_check.
  rewrite node_at_child, parent_child by done.
  unfold Fs.is_dir in Hd.
  exists (<[p ++ [n] := File ""]> fs).
  assert (Fs.append (p ++ [n]) s (<[p ++ [n] := File ""]> fs)
          = <[p ++ [n] := File s]> fs) as Happ.
  { unfold Fs.append. by rewrite lookup_insert_eq, insert_insert_eq. }
  destruct (fs !! (p ++ [n])) as [[|old]|] eqn:E; [done|done|].
  by destruct (Fs.node_at fs p) as [[|?]|].
Qed.

Lemma node_at_insert_ne fs (p q : Path.t) (x : node) :
  p ≠ q → Fs.node_at (<[q := x]> fs) p = Fs.node_at fs p.
Proof.
  intros Hne. unfold Fs.node_at.
  destruct p as [|c [|c' p]]; [done| |]; by rewrite lookup_insert_ne.
Qed.

Lemma is_dir_insert_child fs (p : Path.t) (n : string) (x : node) :
  Fs.is_dir (<[p ++ [n] := x]> fs) p = Fs.is_dir fs p.
Proof.
  unfold Fs.is_dir. rewrite node_at_insert_ne; [done|].
  intros E. by apply (child_ne p n).
Qed.

(** ** Dictionaries *)

Lemma dict_get_set_eq {V} (d : Dict.t V) k v :
  Dict.get (Dict.set d k v) k = Some v.
Proof.
  induction d as [|[k' v'] d IH]; simpl.
  - by rewrite String.eqb_refl.
  - destruct (String.eqb_spec k' k) as [->|Hne]; simpl.
    + by rewrite String.eqb_refl.
    + by destruct (String.eqb_spec k' k).
Qed.

Lemma dict_get_set_ne {V} (d : Dict.t V) k k' v :
  k ≠ k' → Dict.get (Dict.set d k v) k' = Dict.get d k'.
Proof.
  intros Hne. induction d as [|[k0 v0] d IH]; simpl.
  - by destruct (String.eqb_spec k k').
  - destruct (String.eqb_spec k0 k) as [->|Hne0]; simpl.
    + destruct (String.eqb_spec k k'); [done|]. done.
    + by rewrite IH.
Qed.

(** ** Saving the outputs *)

Section Outputs.

Variable json_dumps : json → string.
Variable json_loads : string → option json.

Lemma recognized_cases tag :
  recognized tag = true →
  tag = "text" ∨ tag = "json" ∨ tag = "srt" ∨ tag = "vtt".
Proof.
  unfold recognized, str_in. simpl.
  destruct (String.eqb_spec tag "text"); [auto|].
  destruct (String.eqb_spec tag "json"); [auto|].
  destruct (String.eqb_spec tag "srt"); [auto|].
  destruct (String.eqb_spec tag "vtt"); [auto|done].
Qed.

Lemma output_name_plain base tag :
  plain_name base → recognized tag = true →
  plain_name (base +:+ "." +:+ ext_of tag)
  ∧ Path.is_name (base +:+ "." +:+ ext_of tag) = true.
Proof.
  intros Hb Ht. apply file_name_plain; [done|..];
    destruct (recognized_cases tag Ht) as [-> | [-> | [-> | ->]]]; done.
Qed.

Lemma output_path_inj td base tag1 tag2 :
  recognized tag1 = true → recognized tag2 = true →
  output_path td base tag1 = output_path td base tag2 → tag1 = tag2.
Proof.
  intros H1 H2 E. unfold output_path in E.
  apply app_inv_head in E. injection E as E.
  apply String.app_inj in E. injection E as E.
  destruct (recognized_cases tag1 H1) as [-> | [-> | [-> | ->]]];
    destruct (recognized_cases tag2 H2) as [-> | [-> | [-> | ->]]];
    done.
Qed.

(** One turn of the loop on a recognized format: the file of the format is
    written and [file_path] is its path. *)
Lemma save_branch_recognized td base tag c fp w text :
  plain_name base →
  recognized tag = true →
  content_text json_dumps json_loads tag c = Some text →
  Fs.is_dir (w_fs w) td = true →
  w_fs w !! output_path td base tag ≠ Some Dir →
  save_branch json_dumps json_loads td base tag c fp w
  = (Ok (Some (output_path td base tag)),
     set_fs (<[output_path td base tag := File text]> (w_fs w)) w).
Proof.
  intros Hb Ht Hc Hd Hfree.
  destruct (output_name_plain base tag Hb Ht) as [Hp Hn].
  pose proof (plain_not_root _ Hp) as Hr.
  destruct (open_write (w_fs w) td _ text Hr Hd Hfree) as (fs1 & Ho & Ha).
  unfold save_branch, content_text in *.
  destruct (recognized_cases tag Ht) as [-> | [-> | [-> | ->]]];
    eval_eqb; eval_eqb_in Hc;
    match goal with
    | |- context [Path.div td ?n] =>
        change (output_path td base _) with (td ++ [n]) in *;
        change (base +:+ "." +:+ ext_of _) with n in *
    end;
    rewrite div_plain by done;
    cbv [mbind M_bind mret M_ret open_w write write_content fs_op raise];
    rewrite Ho;
    destruct c as [s|j]; simplify_eq/=; try (by rewrite Ha).
  destruct (json_loads s) as [j|]; simplify_eq/=. by rewrite Ha.
Qed.

Lemma save_branch_unknown td base tag c fp w :
  recognized tag = false →
  save_branch json_dumps json_loads td base tag c fp w = (Ok fp, w).
Proof.
  unfold recognized, str_in, save_branch. simpl.
  destruct (String.eqb tag "text"); [done|].
  destruct (String.eqb tag "json"); [done|].
  destruct (String.eqb tag "srt"); [done|].
  destruct (String.eqb tag "vtt"); done.
Qed.

Lemma elem_of_keys {V} (d : Dict.t V) k v : (k, v) ∈ d → k ∈ Dict.keys d.
Proof. intros H. apply list_elem_of_fmap. by exists (k, v). Qed.

(** The loop of [save_transcription_outputs], from any turn on: it ends
    normally when no unrecognized format meets an unbound [file_path]; it
    touches no path but those of the recognized formats still to come, and
    no key of [saved_files] but those still to come. *)
Lemma save_loop_spec td base :
  plain_name base →
  ∀ items fp saved w,
  Fs.is_dir (w_fs w) td = true →
  NoDup (Dict.keys items) →
  (∀ tag c, (tag, c) ∈ items → recognized tag = true →
     is_Some (content_text json_dumps json_loads tag c)
     ∧ w_fs w !! output_path td base tag ≠ Some Dir) →
  (fp = None → ∀ tag c rest, items = (tag, c) :: rest → recognized tag = true) →
  ∃ saved' w',
    save_loop json_dumps json_loads td base items fp saved w = (Ok saved', w')
    ∧ (∀ p, (∀ tag c, (tag, c) ∈ items → recognized tag = true →
               p ≠ output_path td base tag) →
            w_fs w' !! p = w_fs w !! p)
    ∧ (∀ k, k ∉ Dict.keys items → Dict.get saved' k = Dict.get saved k)
    ∧ (∀ tag c, (tag, c) ∈ items → recognized tag = true →
         ∃ text, content_text json_dumps json_loads tag c = Some text
                 ∧ file_at w' (output_path td base tag) = Some text
                 ∧ Dict.get saved' tag
                   = Some (Path.to_str (output_path td base tag))).
Proof.
  intros Hb items.
  induction items as [|[tag c] rest IH]; intros fp saved w Hd Hnd Hok Hfp.
  { exists saved, w. repeat split; try done. intros ?? H. by apply elem_of_nil in H. }
  apply NoDup_cons in Hnd as [Hfresh Hnd]. cbn [save_loop].
  cbv [mbind M_bind].
  destruct (recognized tag) eqn:Ht.
  - destruct (Hok tag c ltac:(left) Ht) as [[text Htext] Hfree].
    rewrite (save_branch_recognized td base tag c fp w text) by done.
    set (q := output_path td base tag) in *.
    set (w1 := set_fs (<[q := File text]> (w_fs w)) w).
    destruct (IH (Some q) (Dict.set saved tag (Path.to_str q)) w1)
      as (saved' & w' & Hrun & Hframe & Hkeys & Hres).
    + subst w1 q. unfold output_path. cbn [w_fs set_fs].
      by rewrite is_dir_insert_child.
    + done.
    + intros tag' c' Hin Ht'.
      destruct (Hok tag' c' ltac:(by right) Ht') as [Hs Hf]. split; [done|].
      subst w1. cbn [w_fs set_fs].
      destruct (decide (q = output_path td base tag')) as [<-|Hne].
      * by rewrite lookup_insert_eq.
      * by rewrite lookup_insert_ne.
    + done.
    + exists saved', w'. split; [done|]. split; [|split].
      * intros p Hp. rewrite Hframe.
        -- subst w1. cbn [w_fs set_fs]. rewrite lookup_insert_ne; [done|].
           intros E. by apply (Hp tag c ltac:(left) Ht).
        -- intros tag' c' Hin Ht'. apply (Hp tag' c'); [by right|done].
      * intros k Hk. apply not_elem_of_cons in Hk as [Hne Hk].
        rewrite Hkeys by done. by apply dict_get_set_ne.
      * intros tag' c' Hin Ht'.
        apply elem_of_cons in Hin as [E|Hin]; [|by eapply Hres].
        injection E as -> ->. exists text. split; [done|]. split.
        -- unfold file_at. rewrite Hframe.
           ++ subst w1. cbn [w_fs set_fs]. fold q. by rewrite lookup_insert_eq.
           ++ intros tag' c' Hin Ht'' E.
              apply output_path_inj in E; [|done..]. subst tag'.
              by apply Hfresh, (elem_of_keys rest tag c').
        -- rewrite Hkeys by done. apply dict_get_set_eq.
  - rewrite save_branch_unknown by done.
    destruct fp as [q|]; [|specialize (Hfp eq_refl tag c rest eq_refl); congruence].
    destruct (IH (Some q) (Dict.set saved tag (Path.to_str q)) w)
      as (saved' & w' & Hrun & Hframe & Hkeys & Hres).
    + done.
    + done.
    + intros tag' c' Hin Ht'. apply (Hok tag' c'); [by right|done].
    + done.
    + exists saved', w'. split; [done|]. split; [|split].
      * intros p Hp. apply Hframe.
        intros tag' c' Hin Ht'. apply (Hp tag' c'); [by right|done].
      * intros k Hk. apply not_elem_of_cons in Hk as [Hne Hk].
        rewrite Hkeys by done. by apply dict_get_set_ne.
      * intros tag' c' Hin Ht'.
        apply elem_of_cons in Hin as [E|Hin]; [|by eapply Hres].
        injection E as -> ->. congruence.
Qed.

(** C3, as amended: in an existing transcription directory, for a base name
    without directory part and outputs whose first format is recognized
    (whose recognized formats hold text, or for [json] an object or text that
    parses, and have no directory in the place of their file),
    [save_transcription_outputs] returns normally, and for every recognized
    format of the outputs the file [{transcription_dir}/{base_name}.{ext}]
    holds the content, where [ext] is [txt] for [text] and the format tag
    itself for [json], [srt] and [vtt]; the returned mapping sends the format
    to that path. *)
Theorem save_outputs_files (self : ProjectStructure)
    (project_dirs : Dict.t Path.t) (td : Path.t) (outputs : Dict.t content)
    (base_name : string) (w : world) :
  Dict.get project_dirs "transcription_dir" = Some td →
  Fs.is_dir (w_fs w) td = true →
  plain_name base_name →
  NoDup (Dict.keys outputs) →
  (∀ tag c, (tag, c) ∈ outputs → recognized tag = true →
     is_Some (content_text json_dumps json_loads tag c)
     ∧ w_fs w !! output_path td base_name tag ≠ Some Dir) →
  (∀ tag c rest, outputs = (tag, c) :: rest → recognized tag = true) →
  ∃ saved w',
    save_transcription_outputs json_dumps json_loads self project_dirs outputs
      base_name w = (Ok saved, w')
    ∧ ∀ tag c, (tag, c) ∈ outputs → recognized tag = true →
        ∃ text,
          content_text json_dumps json_loads tag c = Some text
          ∧ file_at w' (td ++ [base_name +:+ "." +:+ ext_of tag]) = Some text
          ∧ Dict.get saved tag
            = Some (Path.to_str (td ++ [base_name +:+ "." +:+ ext_of tag])).
Proof.
  intros Htd Hd Hb Hnd Hok Hfirst.
  unfold save_transcription_outputs, getitem. rewrite Htd.
  cbv [mbind M_bind mret M_ret].
  destruct (save_loop_spec td base_name Hb outputs None [] w Hd Hnd Hok)
    as (saved & w' & Hrun & _ & _ & Hres); [done|].
  exists saved, w'. split; [done|].
  intros tag c Hin Ht. destruct (Hres tag c Hin Ht) as (text & H1 & H2 & H3).
  by exists text.
Qed.

End Outputs.

(** ** Creating a project *)

Lemma mkdir_child fs (p : Path.t) (n : string) :
  Path.is_root n = false →
  Fs.is_dir fs p = true →
  (∀ s, fs !! (p ++ [n]) ≠ Some (File s)) →
  Fs.mkdir_exist_ok (p ++ [n]) fs = Ok (<[p ++ [n] := Dir]> fs).
Proof.
  intros Hn Hd Hfree. unfold Fs.mkdir_exist_ok, Fs.parent_check.
  rewrite node_at_child, parent_child by done. unfold Fs.is_dir in Hd.
  destruct (fs !! (p ++ [n])) as [[|s]|] eqn:E.
  - by rewrite insert_id.
  - by destruct (Hfree s).
  - by destruct (Fs.node_at fs p) as [[|?]|].
Qed.

Lemma is_dir_child_insert fs (p : Path.t) (n : string) :
  Path.is_root n = false → Fs.is_dir (<[p ++ [n] := Dir]> fs) (p ++ [n]) = true.
Proof.
  intros Hn. unfold Fs.is_dir. by rewrite node_at_child, lookup_insert_eq.
Qed.

Lemma is_dir_insert_ne fs (p q : Path.t) (x : node) :
  p ≠ q → Fs.is_dir (<[q := x]> fs) p = Fs.is_dir fs p.
Proof. intros Hne. unfold Fs.is_dir. by rewrite node_at_insert_ne. Qed.

Lemma grandchild_ne (p : Path.t) (a b : string) : p ≠ p ++ [a] ++ [b].
Proof. intros E%(f_equal length). rewrite !length_app in E. simpl in E. lia. Qed.

Lemma siblings_ne (p : Path.t) (a b : string) : a ≠ b → p ++ [a] ≠ p ++ [b].
Proof. intros Hne E. apply app_inv_head in E. congruence. Qed.

Lemma set_fs_set_fs fs fs' w : set_fs fs (set_fs fs' w) = set_fs fs w.
Proof. done. Qed.

Lemma set_fs_id w : set_fs (w_fs w) w = w.
Proof. by destruct w. Qed.

Lemma with_project_idem b folder fs :
  with_project b folder (with_project b folder fs) = with_project b folder fs.
Proof.
  unfold with_project.
  assert (b ++ [folder] ≠ (b ++ [folder]) ++ ["src_audio"]) as H1
    by (intros E; by apply (child_ne (b ++ [folder]) "src_audio")).
  assert (b ++ [folder] ≠ (b ++ [folder]) ++ ["transcription"]) as H2
    by (intros E; by apply (child_ne (b ++ [folder]) "transcription")).
  assert ((b ++ [folder]) ++ ["src_audio"]
          ≠ (b ++ [folder]) ++ ["transcription"]) as H3
    by (by apply siblings_ne).
  apply map_eq. intros p.
  destruct (decide (p = (b ++ [folder]) ++ ["transcription"])) as [->|N1];
    [by rewrite !lookup_insert_eq|].
  rewrite !(lookup_insert_ne _ ((b ++ [folder]) ++ ["transcription"])) by done.
  destruct (decide (p = (b ++ [folder]) ++ ["src_audio"])) as [->|N2];
    [by rewrite !lookup_insert_eq|].
  rewrite !(lookup_insert_ne _ ((b ++ [folder]) ++ ["src_audio"])) by done.
  destruct (decide (p = b ++ [folder])) as [->|N3];
    [by rewrite !lookup_insert_eq|].
  rewrite !(lookup_insert_ne _ (b ++ [folder])) by done.
  by rewrite !lookup_insert_ne by done.
Qed.

Section Store.

Variable json_dumps : json → string.
Variable isoformat : nat → string.

(** Without metadata to save, [create_project] makes the three
    directories, whether they exist or not, and nothing else. *)
Lemma create_project_dirs (self : ProjectStructure) (name ptype : string)
    (md : option nat) (w : world) :
  let folder := if String.eqb ptype "youtube" then "youtube_" +:+ name
                else "local_" +:+ name in
  let pd := base_dir self ++ [folder] in
  plain_name folder →
  match md with
  | Some l => default [] (w_heap w !! l) = []
  | None => True
  end →
  Fs.is_dir (w_fs w) (base_dir self) = true →
  (∀ p s, p ∈ [pd; pd ++ ["src_audio"]; pd ++ ["transcription"]] →
          w_fs w !! p ≠ Some (File s)) →
  create_project json_dumps isoformat self name ptype md w
  = (Ok [("project_dir", pd);
         ("src_audio_dir", pd ++ ["src_audio"]);
         ("transcription_dir", pd ++ ["transcription"])],
     set_fs (with_project (base_dir self) folder (w_fs w)) w).
Proof.
  intros folder pd Hplain Hmd Hbase Hfree.
  assert (Path.is_name folder = true) as Hname.
  { subst folder. destruct (String.eqb ptype "youtube"); done. }
  pose proof (plain_not_root _ Hplain) as Hroot.
  unfold create_project. fold folder. subst pd.
  rewrite (div_plain _ folder) by done.
  rewrite !(div_plain (base_dir self ++ [folder])) by done.
  cbv [mbind M_bind mret M_ret mkdir fs_op].
  rewrite mkdir_child; [|done|done|intros s; apply Hfree; set_solver].
  cbn [w_fs set_fs].
  rewrite mkdir_child; [|done|by apply is_dir_child_insert|].
  2:{ intros s. rewrite lookup_insert_ne by (intros E; by eapply child_ne).
      apply Hfree. set_solver. }
  cbn [w_fs set_fs].
  rewrite mkdir_child; [|done| |].
  2:{ rewrite is_dir_insert_child. by apply is_dir_child_insert. }
  2:{ intros s. rewrite lookup_insert_ne by (by apply siblings_ne).
      rewrite lookup_insert_ne by (intros E; by eapply child_ne).
      apply Hfree. set_solver. }
  cbn [w_fs set_fs].
  destruct md as [l|]; [|done].
  unfold deref. cbn [w_heap set_fs]. by rewrite Hmd.
Qed.

End Store.

(** ** Listing the projects *)

Lemma NoDup_omap_inj {A B} (f : A → option B) (l : list A) :
  (∀ x y z, f x = Some z → f y = Some z → x = y) →
  NoDup l → NoDup (omap f l).
Proof.
  intros Hinj. induction 1 as [|x l Hx Hl IH]; simpl; [constructor|].
  destruct (f x) as [z|] eqn:E; [|done].
  constructor; [|done].
  intros (y & Hy & Ey)%list_elem_of_omap.
  by rewrite (Hinj x y z E Ey) in Hx.
Qed.

Lemma iterdir_NoDup fs (p : Path.t) : NoDup (Fs.iterdir fs p).
Proof.
  unfold Fs.iterdir. apply NoDup_omap_inj; [|apply NoDup_fst_map_to_list].
  intros x y z Hx Hy.
  destruct (decide (Path.parent x = p ∧ x ≠ [])) as [[Px Nx]|]; [|done].
  destruct (decide (Path.parent y = p ∧ y ≠ [])) as [[Py Ny]|]; [|done].
  injection Hx as Hx. injection Hy as Hy.
  rewrite (app_removelast_last "" Nx), (app_removelast_last "" Ny).
  unfold Path.parent in Px, Py. by rewrite Px, Py, Hx, Hy.
Qed.

Lemma iterdir_elem fs (p : Path.t) (n : string) (x : node) :
  fs !! (p ++ [n]) = Some x → n ∈ Fs.iterdir fs p.
Proof.
  intros H. unfold Fs.iterdir. apply list_elem_of_omap.
  exists (p ++ [n]). split.
  - apply list_elem_of_fmap. exists (p ++ [n], x). split; [done|].
    by apply elem_of_map_to_list.
  - rewrite decide_True.
    + by rewrite last_last.
    + split; [apply parent_child|]. by destruct p.
Qed.

Section Projects.

Variable json_dumps : json → string.
Variable isoformat : nat → string.

(** C7: in a store whose base directory exists, where no regular file sits
    in the place of the project directories, [create_project("demo",
    "local", {})] returns normally, and so does a second call with the same
    arguments; both return the same three paths; after the first call the
    three directories exist and the second call changes nothing; the listing
    of the projects names [local_demo] exactly once. *)
Theorem create_project_twice (self : ProjectStructure) (l : nat) (w : world) :
  let pd := base_dir self ++ ["local_demo"] in
  Fs.is_dir (w_fs w) (base_dir self) = true →
  (∀ p s, p ∈ [pd; pd ++ ["src_audio"]; pd ++ ["transcription"]] →
          w_fs w !! p ≠ Some (File s)) →
  w_heap w !! l = Some [] →
  ∃ dirs w1 names,
    create_project json_dumps isoformat self "demo" "local" (Some l) w
    = (Ok dirs, w1)
    ∧ create_project json_dumps isoformat self "demo" "local" (Some l) w1
      = (Ok dirs, w1)
    ∧ dirs = [("project_dir", pd);
              ("src_audio_dir", pd ++ ["src_audio"]);
              ("transcription_dir", pd ++ ["transcription"])]
    ∧ w_fs w1 !! pd = Some Dir
    ∧ w_fs w1 !! (pd ++ ["src_audio"]) = Some Dir
    ∧ w_fs w1 !! (pd ++ ["transcription"]) = Some Dir
    ∧ list_projects self w1 = (Ok names, w1)
    ∧ "local_demo" ∈ names
    ∧ NoDup names.
Proof.
  intros pd Hbase Hfree Hl.
  set (fs1 := with_project (base_dir self) "local_demo" (w_fs w)).
  assert (pd ≠ pd ++ ["src_audio"]) as N1
    by (intros E; by apply (child_ne pd "src_audio")).
  assert (pd ≠ pd ++ ["transcription"]) as N2
    by (intros E; by apply (child_ne pd "transcription")).
  assert (fs1 !! pd = Some Dir) as D1.
  { subst fs1. unfold with_project. fold pd.
    by rewrite !lookup_insert_ne, lookup_insert_eq by done. }
  assert (fs1 !! (pd ++ ["src_audio"]) = Some Dir) as D2.
  { subst fs1. unfold with_project. fold pd.
    rewrite lookup_insert_ne by (by apply siblings_ne).
    by rewrite lookup_insert_eq. }
  assert (fs1 !! (pd ++ ["transcription"]) = Some Dir) as D3.
  { subst fs1. unfold with_project. fold pd. by rewrite lookup_insert_eq. }
  assert (Fs.is_dir fs1 (base_dir self) = true) as Hbase1.
  { subst fs1. unfold with_project.
    rewrite !is_dir_insert_ne; [done|..].
    - intros E. by apply (child_ne (base_dir self) "local_demo").
    - rewrite <- app_assoc. apply grandchild_ne.
    - rewrite <- app_assoc. apply grandchild_ne. }
  exists [("project_dir", pd); ("src_audio_dir", pd ++ ["src_audio"]);
          ("transcription_dir", pd ++ ["transcription"])],
         (set_fs fs1 w),
         (merge_sort String.le
            (filter (λ n, Fs.is_dir fs1 (base_dir self ++ [n]) = true
                          ∧ is_project_name n = true)
                    (Fs.iterdir fs1 (base_dir self)))).
  split; [|split; [|repeat split; try done]].
  - apply (create_project_dirs json_dumps isoformat self "demo" "local");
      [done|by rewrite Hl|done|done].
  - rewrite (create_project_dirs json_dumps isoformat self "demo" "local").
    + cbn [w_fs set_fs]. subst fs1.
      by rewrite with_project_idem, set_fs_set_fs.
    + done.
    + cbn [w_heap set_fs]. by rewrite Hl.
    + done.
    + intros p s Hp. cbn [w_fs set_fs].
      change (p ∈ [pd; pd ++ ["src_audio"]; pd ++ ["transcription"]]) in Hp.
      apply elem_of_cons in Hp as [->|Hp]; [congruence|].
      apply elem_of_cons in Hp as [->|Hp]; [congruence|].
      apply elem_of_cons in Hp as [->|Hp]; [congruence|].
      by apply elem_of_nil in Hp.
  - unfold list_projects. cbn [w_fs set_fs]. unfold Fs.is_dir in Hbase1.
    by destruct (Fs.node_at fs1 (base_dir self)) as [[|?]|].
  - rewrite merge_sort_Permutation. apply list_elem_of_filter. split.
    + split; [|done]. unfold Fs.is_dir.
      rewrite (node_at_child fs1 (base_dir self) "local_demo") by done.
      change (base_dir self ++ ["local_demo"]) with pd. by rewrite D1.
    + by apply (iterdir_elem _ _ _ Dir).
  - rewrite merge_sort_Permutation. apply NoDup_filter, iterdir_NoDup.
Qed.

Lemma open_w_file fs fs1 (p : Path.t) (s : string) :
  Fs.open_w p fs = Ok fs1 →
  Fs.append p s fs1 !! p = Some (File s).
Proof.
  unfold Fs.open_w, Fs.append. intros H.
  assert (fs1 = <[p := File ""]> fs) as ->.
  { destruct (Fs.node_at fs p) as [[|?]|]; [done|by injection H|].
    destruct (Fs.parent_check fs p); [done|by injection H]. }
  by rewrite lookup_insert_eq, lookup_insert_eq.
Qed.

(** C9: when [create_project] is given a non-empty metadata mapping and
    returns, the mapping the caller holds has been changed in place: it has
    the keys [created_at] (the time of the call) and [project_type], every
    other key is as it was, and [metadata.json] holds the serialization of
    the mapping so changed.  The mapping differs from what it was unless it
    held exactly these two values before. *)
Theorem create_project_mutates_metadata (self : ProjectStructure)
    (name ptype : string) (l : nat) (d : Dict.t json) (w w' : world)
    (dirs : Dict.t Path.t) :
  w_heap w !! l = Some d →
  d ≠ [] →
  create_project json_dumps isoformat self name ptype (Some l) w
  = (Ok dirs, w') →
  let created := JStr (isoformat (w_clock w)) in
  let d' := Dict.set (Dict.set d "created_at" created)
              "project_type" (JStr ptype) in
  w_heap w' !! l = Some d'
  ∧ Dict.get d' "created_at" = Some created
  ∧ Dict.get d' "project_type" = Some (JStr ptype)
  ∧ (∀ k, k ≠ "created_at" → k ≠ "project_type" →
          Dict.get d' k = Dict.get d k)
  ∧ (∃ project_dir,
       Dict.get dirs "project_dir" = Some project_dir
       ∧ file_at w' (Path.div project_dir "metadata.json")
         = Some (json_dumps (JObj d')))
  ∧ (Dict.get d "created_at" ≠ Some created
     ∨ Dict.get d "project_type" ≠ Some (JStr ptype) → d' ≠ d).
Proof.
  intros Hl Hd Hrun created d'.
  destruct w as [fs h clock calls]. cbn [w_heap w_clock] in *.
  unfold create_project in Hrun.
  set (pd := Path.div (base_dir self) _) in Hrun.
  cbv [mbind M_bind mret M_ret mkdir fs_op open_w write deref setitem now
       set_fs set_heap w_fs w_heap w_clock w_calls] in Hrun.
  destruct (Fs.mkdir_exist_ok pd fs) as [fs1|] eqn:E1; [|done].
  destruct (Fs.mkdir_exist_ok (Path.div pd "src_audio") fs1) as [fs2|] eqn:E2;
    [|done].
  destruct (Fs.mkdir_exist_ok (Path.div pd "transcription") fs2) as [fs3|]
    eqn:E3; [|done].
  rewrite Hl in Hrun. cbn [default] in Hrun.
  destruct d as [|[k0 v0] d0]; [done|].
  cbv beta iota zeta delta [id] in Hrun.
  rewrite Hl, lookup_insert_eq in Hrun. cbn [default] in Hrun.
  destruct (Fs.open_w (Path.div pd "metadata.json") fs3) as [fs4|] eqn:E4;
    [|done].
  injection Hrun as <- <-. cbn [w_heap w_fs].
  fold created. fold d'.
  split; [by rewrite lookup_insert_eq|].
  split. { subst d'. rewrite dict_get_set_ne by done. apply dict_get_set_eq. }
  split; [apply dict_get_set_eq|].
  split. { intros k H1 H2. subst d'. by rewrite !dict_get_set_ne by done. }
  split.
  { exists pd. split; [done|]. unfold file_at. cbn [w_fs].
    rewrite (open_w_file fs3 fs4) by done. by rewrite lookup_insert_eq. }
  intros Hdiff E. destruct Hdiff as [Hdiff|Hdiff]; apply Hdiff; rewrite <- E.
  - subst d'. rewrite dict_get_set_ne by done. apply dict_get_set_eq.
  - apply dict_get_set_eq.
Qed.

End Projects.

(** C2 (the code at two inputs): a format tag that is not recognized and
    comes first makes [save_transcription_outputs] raise
    [UnboundLocalError]; one that comes after a recognized tag is entered in
    the returned mapping with the path of the file written before it.  No
    file is written for it in either case. *)
Theorem save_outputs_unknown_tag :
  save_transcription_outputs demo_dumps demo_loads demo_store demo_dirs
    [("pdf", CStr "x")] "transcript" demo_world
  = (Raise (UnboundLocalError "file_path"), demo_world)
  ∧ (save_transcription_outputs demo_dumps demo_loads demo_store demo_dirs
       [("text", CStr "a"); ("pdf", CStr "x")] "transcript" demo_world).1
    = Ok [("text", "audio_projects/local_demo/transcription/transcript.txt");
          ("pdf", "audio_projects/local_demo/transcription/transcript.txt")]
  ∧ Fs.iterdir
      (w_fs (save_transcription_outputs demo_dumps demo_loads demo_store
               demo_dirs [("text", CStr "a"); ("pdf", CStr "x")] "transcript"
               demo_world).2)
      ["audio_projects"; "local_demo"; "transcription"]
    = ["transcript.txt"].
Proof. by vm_compute. Qed.

(** C3 at a concrete input: the [text] and [json] outputs of the
    orchestrator, saved in the project [local_demo]. *)
Lemma save_outputs_files_witness :
  ∃ saved w',
    save_transcription_outputs demo_dumps demo_loads demo_store demo_dirs
      [("text", CStr "hello"); ("json", CObj JNull)] "transcript" demo_world
    = (Ok saved, w')
    ∧ ∀ tag c, (tag, c) ∈ [("text", CStr "hello"); ("json", CObj JNull)] →
        recognized tag = true →
        ∃ text,
          content_text demo_dumps demo_loads tag c = Some text
          ∧ file_at w'
              (["audio_projects"; "local_demo"; "transcription"]
               ++ ["transcript" +:+ "." +:+ ext_of tag]) = Some text
          ∧ Dict.get saved tag
            = Some (Path.to_str
                      (["audio_projects"; "local_demo"; "transcription"]
                       ++ ["transcript" +:+ "." +:+ ext_of tag])).
Proof.
  apply (save_outputs_files demo_dumps demo_loads demo_store demo_dirs
           ["audio_projects"; "local_demo"; "transcription"]).
  - reflexivity.
  - by vm_compute.
  - by vm_compute.
  - apply (bool_decide_unpack _). by vm_compute.
  - intros tag c Hin _.
    apply elem_of_cons in Hin as [E|Hin];
      [|apply elem_of_cons in Hin as [E|Hin]; [|by apply elem_of_nil in Hin]];
      injection E as -> ->; (split; [by eexists|by vm_compute]).
  - intros tag c rest E. by injection E as <- _ _.
Defined.

(** C3 as it was stated fails for [text]: its file is [transcript.txt], and
    no [transcript.text] is written. *)
Lemma save_outputs_text_extension :
  let w' := (save_transcription_outputs demo_dumps demo_loads demo_store
               demo_dirs [("text", CStr "hello")] "transcript" demo_world).2 in
  file_at w' ["audio_projects"; "local_demo"; "transcription"; "transcript.text"]
  = None
  ∧ file_at w' ["audio_projects"; "local_demo"; "transcription"; "transcript.txt"]
    = Some "hello"
  ∧ Fs.iterdir (w_fs w') ["audio_projects"; "local_demo"; "transcription"]
    = ["transcript.txt"].
Proof. by vm_compute. Qed.

(** C7 at a concrete input: the store right after its creation. *)
Lemma create_project_twice_witness :
  ∃ dirs w1 names,
    create_project demo_dumps demo_isoformat demo_store "demo" "local"
      (Some 0%nat) fresh_world = (Ok dirs, w1)
    ∧ create_project demo_dumps demo_isoformat demo_store "demo" "local"
        (Some 0%nat) w1 = (Ok dirs, w1)
    ∧ dirs = demo_dirs
    ∧ w_fs w1 !! ["audio_projects"; "local_demo"] = Some Dir
    ∧ w_fs w1 !! ["audio_projects"; "local_demo"; "src_audio"] = Some Dir
    ∧ w_fs w1 !! ["audio_projects"; "local_demo"; "transcription"] = Some Dir
    ∧ list_projects demo_store w1 = (Ok names, w1)
    ∧ "local_demo" ∈ names
    ∧ NoDup names.
Proof.
  apply (create_project_twice demo_dumps demo_isoformat demo_store 0%nat
           fresh_world).
  - by vm_compute.
  - intros p s Hp.
    apply elem_of_cons in Hp as [->|Hp]; [by vm_compute|].
    apply elem_of_cons in Hp as [->|Hp]; [by vm_compute|].
    apply elem_of_cons in Hp as [->|Hp]; [by vm_compute|].
    by apply elem_of_nil in Hp.
  - by vm_compute.
Defined.

(** C9 at a concrete input: a dictionary with a title, for a project of
    type [youtube]. *)
Lemma create_project_mutates_metadata_witness :
  let w' := (create_project demo_dumps demo_isoformat demo_store "abc"
               "youtube" (Some 0%nat) titled_world).2 in
  let d' := [("title", JStr "Talk");
             ("created_at", JStr "2024-01-01T00:00:00");
             ("project_type", JStr "youtube")] in
  w_heap w' !! 0%nat = Some d'
  ∧ file_at w' ["audio_projects"; "youtube_abc"; "metadata.json"]
    = Some "{title,created_at,project_type}".
Proof.
  destruct (create_project_mutates_metadata demo_dumps demo_isoformat
              demo_store "abc" "youtube" 0%nat [("title", JStr "Talk")]
              titled_world
              (create_project demo_dumps demo_isoformat demo_store "abc"
                 "youtube" (Some 0%nat) titled_world).2
              [("project_dir", ["audio_projects"; "youtube_abc"]);
               ("src_audio_dir", ["audio_projects"; "youtube_abc"; "src_audio"]);
               ("transcription_dir",
                ["audio_projects"; "youtube_abc"; "transcription"])])
    as (H1 & _ & _ & _ & (pd & Hpd & Hfile) & _).
  - by vm_compute.
  - done.
  - by vm_compute.
  - split; [exact H1|]. injection Hpd as <-. exact Hfile.
Defined.

(** ** The first pattern of [_extract_video_id] *)

Lemma length_drop n (s : string) :
  String.length (Str.drop n s) = (String.length s - n)%nat.
Proof.
  revert s. induction n as [|k IH]; intros [|c s]; simpl; by try lia.
Qed.

Lemma class_prefix_length p n (s : string) :
  class_prefix p n s = true → (n ≤ String.length s)%nat.
Proof.
  revert s. induction n as [|k IH]; intros [|c s]; simpl; try done; [lia|].
  intros [_ H]%andb_true_iff. apply IH in H. lia.
Qed.

Lemma class_prefix_app p (a b : string) :
  all_chars p a = true → class_prefix p (String.length a) (a +:+ b) = true.
Proof.
  induction a as [|c a IH]; [done|]. rewrite app_cons. simpl.
  intros [-> H]%andb_true_iff. by apply IH.
Qed.

Lemma class_prefix_take p n (s : string) :
  class_prefix p n s = true →
  all_chars p (Str.take n s) = true
  ∧ String.length (Str.take n s) = n
  ∧ s = Str.take n s +:+ Str.drop n s.
Proof.
  revert s. induction n as [|k IH]; intros [|c s]; simpl; try done.
  intros [-> H]%andb_true_iff. destruct (IH s H) as (H1 & H2 & H3).
  rewrite app_cons, <- H3. auto.
Qed.

Lemma and_then_single r o next :
  Re.and_then [(r, o)] next
  = map (λ b : Re.attempt,
           (b.1, match b.2 with Some g => Some g | None => o end))
        (next r).
Proof. unfold Re.and_then. simpl. by rewrite app_nil_r. Qed.

Lemma rep_class p n (s : string) :
  Re.matches (Re.Rep n (Re.Class p)) s
  = if class_prefix p n s then [(Str.drop n s, None)] else [].
Proof.
  revert s. induction n as [|k IH]; intros s; [done|].
  change (Re.matches (Re.Rep (S k) (Re.Class p)) s)
    with (Re.and_then (Re.matches (Re.Class p) s)
            (Re.matches (Re.Rep k (Re.Class p)))).
  destruct s as [|c s]; [done|].
  change (Re.matches (Re.Class p) (String c s))
    with (if p c then [(s, None) : Re.attempt] else []).
  cbn [class_prefix Str.drop].
  destruct (p c); [|done].
  rewrite and_then_single, IH. cbn [andb].
  by destruct (class_prefix p k s).
Qed.

Lemma any_star_head (s : string) :
  ∃ r tl, Re.any_star s = (r, None) :: tl.
Proof.
  induction s as [|c s (r & tl & IH)]; simpl; [by eexists _, _|].
  destruct (Ascii.eqb c "010"); [by eexists _, _|].
  rewrite IH. by eexists _, _.
Qed.

(** The group and the [.*] behind it: they match exactly when eleven id
    characters lead, and the group is those characters. *)
Lemma id_group_spec (s : string) :
  head_group (Re.matches (Re.Seq video_id_group Re.AnyStar) s)
  = (if class_prefix id_char 11 s then Some (Some (Str.take 11 s)) else None)
  ∧ (class_prefix id_char 11 s = false →
     Re.matches (Re.Seq video_id_group Re.AnyStar) s = []).
Proof.
  unfold video_id_group.
  change (Re.matches (Re.Seq ?a ?b) s)
    with (Re.and_then (Re.matches a s) (Re.matches b)).
  change (Re.matches (Re.Group ?r) s)
    with (map (λ a : Re.attempt,
                 (a.1, Some (Str.take (String.length s - String.length a.1) s)))
              (Re.matches r s)).
  rewrite rep_class.
  destruct (class_prefix id_char 11 s) eqn:E; [|done].
  split; [|done]. cbn [map fst]. rewrite and_then_single.
  change (Re.matches Re.AnyStar) with Re.any_star.
  destruct (any_star_head (Str.drop 11 s)) as (r & tl & ->).
  cbn [map head_group fst snd]. do 3 f_equal.
  rewrite length_drop. apply class_prefix_length in E. lia.
Qed.

Lemma head_group_map o (l : list Re.attempt) :
  head_group (map (λ b : Re.attempt,
                     (b.1, match b.2 with Some g => Some g | None => o end)) l)
  = (λ g, match g with Some g' => Some g' | None => o end) <$> head_group l.
Proof. by destruct l. Qed.

Lemma startswith_cases (s : string) :
  Str.startswith "v=" s = true → Str.startswith "/" s = false.
Proof.
  destruct s as [|c s]; [done|]. simpl.
  destruct (Ascii.eqb_spec "v" c) as [<-|]; [|done]. done.
Qed.

(** What the first pattern finds at the start of a string. *)
Lemma first_pattern_at (s : string) (p1 : Re.regex) :
  p1 = Re.Seq (Re.Alt (Re.Lit "v=") (Re.Lit "/"))
         (Re.Seq video_id_group Re.AnyStar) →
  head_group (Re.matches p1 s) = Some <$> id_at s.
Proof.
  intros ->.
  change (Re.matches (Re.Seq ?a ?b) s)
    with (Re.and_then (Re.matches a s) (Re.matches b)).
  change (Re.matches (Re.Alt ?a ?b) s)
    with (Re.matches a s ++ Re.matches b s).
  change (Re.matches (Re.Lit "v=") s)
    with (if Str.startswith "v=" s then [(Str.drop 2 s, None) : Re.attempt]
          else []).
  change (Re.matches (Re.Lit "/") s)
    with (if Str.startswith "/" s then [(Str.drop 1 s, None) : Re.attempt]
          else []).
  unfold id_at.
  destruct (Str.startswith "v=" s) eqn:Ev.
  - rewrite (startswith_cases s Ev). cbn [app andb].
    rewrite and_then_single, head_group_map.
    destruct (id_group_spec (Str.drop 2 s)) as [-> _].
    by destruct (class_prefix id_char 11 (Str.drop 2 s)).
  - cbn [app andb]. destruct (Str.startswith "/" s) eqn:Es; [|done].
    rewrite and_then_single, head_group_map.
    destruct (id_group_spec (Str.drop 1 s)) as [-> _].
    by destruct (class_prefix id_char 11 (Str.drop 1 s)).
Qed.

Lemma id_at_sound (s id : string) :
  id_at s = Some id →
  ∃ rest, occurrence s "" id rest.
Proof.
  unfold id_at, occurrence. intros H.
  destruct (Str.startswith "v=" s && class_prefix id_char 11 (Str.drop 2 s))
    eqn:E1.
  - assert (id = Str.take 11 (Str.drop 2 s)) as -> by congruence.
    apply andb_true_iff in E1 as [Hs Hc].
    destruct (class_prefix_take _ _ _ Hc) as (H1 & H2 & H3).
    exists (Str.drop 11 (Str.drop 2 s)). split; [|done].
    left. rewrite app_empty_l, <- H3. by apply (startswith_drop "v=").
  - destruct (Str.startswith "/" s && class_prefix id_char 11 (Str.drop 1 s))
      eqn:E2; [|done].
    assert (id = Str.take 11 (Str.drop 1 s)) as -> by congruence.
    apply andb_true_iff in E2 as [Hs Hc].
    destruct (class_prefix_take _ _ _ Hc) as (H1 & H2 & H3).
    exists (Str.drop 11 (Str.drop 1 s)). split; [|done].
    right. rewrite app_empty_l, <- H3. by apply (startswith_drop "/").
Qed.

Lemma id_at_complete (s id rest : string) :
  occurrence s "" id rest → id_at s = Some id.
Proof.
  unfold occurrence. rewrite !app_empty_l. intros ([->| ->] & Hlen & Hall).
  - unfold id_at. rewrite (startswith_app "v="). cbn [andb].
    rewrite (drop_app "v="). rewrite <- Hlen at 1.
    rewrite class_prefix_app by done. rewrite <- Hlen. by rewrite take_app.
  - unfold id_at.
    change (Str.startswith "v=" ("/" +:+ id +:+ rest)) with false.
    rewrite (startswith_app "/"). cbn [andb].
    rewrite (drop_app "/"). rewrite <- Hlen at 1.
    rewrite class_prefix_app by done. rewrite <- Hlen. by rewrite take_app.
Qed.

Lemma occurrence_nonempty (pre id rest : string) : ¬ occurrence "" pre id rest.
Proof.
  intros ([E|E] & Hlen & _); apply (f_equal String.length) in E;
    rewrite !length_app_str, Hlen in E; simpl in E; lia.
Qed.

Lemma occurrence_cons c (u pre id rest : string) :
  occurrence (String c u) (String c pre) id rest ↔ occurrence u pre id rest.
Proof.
  unfold occurrence. rewrite !app_cons. split.
  - intros ([E|E] & H); (split; [|done]); injection E as ->; auto.
  - intros ([-> | ->] & H); (split; [|done]); auto.
Qed.

Lemma occurrence_later c (u pre id rest : string) :
  occurrence (String c u) pre id rest →
  pre = "" ∨ ∃ pre1, pre = String c pre1 ∧ occurrence u pre1 id rest.
Proof.
  destruct pre as [|c' pre1]; [auto|]. intros H. right. exists pre1.
  assert (c' = c) as ->.
  { pose proof H as ([E|E] & _); rewrite app_cons in E; congruence. }
  split; [done|]. exact (proj1 (occurrence_cons c u pre1 id rest) H).
Qed.

Lemma search_unfold (r : Re.regex) (s : string) :
  Re.search r s
  = match head_group (Re.matches r s) with
    | Some g => Some g
    | None =>
        match s with
        | String _ rest => Re.search r rest
        | EmptyString => None
        end
    end.
Proof. destruct s; simpl; by destruct (Re.matches r _). Qed.

(** [re.search] with the first pattern finds the leftmost occurrence. *)
Lemma search_leftmost (p1 : Re.regex) (url : string) :
  p1 = Re.Seq (Re.Alt (Re.Lit "v=") (Re.Lit "/"))
         (Re.Seq video_id_group Re.AnyStar) →
  (∃ pre id rest, occurrence url pre id rest) →
  ∃ pre' id' rest',
    occurrence url pre' id' rest'
    ∧ Re.search p1 url = Some (Some id')
    ∧ ∀ pre2 id2 rest2,
        occurrence url pre2 id2 rest2 →
        (String.length pre' ≤ String.length pre2)%nat
        ∧ (String.length pre2 = String.length pre' → id2 = id').
Proof.
  intros Hp1. induction url as [|c u IH]; intros (pre & id & rest & Hocc).
  { by destruct (occurrence_nonempty pre id rest). }
  rewrite search_unfold, (first_pattern_at _ _ Hp1).
  destruct (id_at (String c u)) as [id0|] eqn:E.
  - destruct (id_at_sound _ _ E) as [rest0 H0].
    exists "", id0, rest0. split; [done|]. split; [done|].
    intros pre2 id2 rest2 H2. split; [simpl; lia|].
    destruct pre2; [|done]. intros _.
    apply id_at_complete in H2. congruence.
  - cbn [fmap option_fmap option_map].
    assert (∀ pre2 id2 rest2, occurrence (String c u) pre2 id2 rest2 →
            ∃ pre1, pre2 = String c pre1 ∧ occurrence u pre1 id2 rest2) as Hlater.
    { intros pre2 id2 rest2 H2.
      destruct (occurrence_later _ _ _ _ _ H2) as [->|H]; [|done].
      apply id_at_complete in H2. congruence. }
    destruct (Hlater _ _ _ Hocc) as (pre1 & -> & Hocc1).
    destruct (IH ltac:(by eexists _, _, _))
      as (pre' & id' & rest' & H1 & Hs & Hleft).
    exists (String c pre'), id', rest'.
    split; [by apply occurrence_cons|]. split; [done|].
    intros pre2 id2 rest2 H2.
    destruct (Hlater _ _ _ H2) as (pre3 & -> & H3).
    destruct (Hleft _ _ _ H3) as [Hle Heq]. simpl. split; [lia|].
    intros Hlen. apply Heq. lia.
Qed.

Section Downloader.

Variable download_result : Type.
Variable download_with_id :
  YouTubeDownloader → string → string → string → string → M download_result.

(** C10, as amended: when a URL contains [v=] or a slash followed by eleven
    characters of [[0-9A-Za-z_-]], the first pattern matches, and
    [_extract_video_id] returns the eleven characters of the leftmost such
    place, which need not be those of the place one had in mind, whatever
    the rest of the URL is; [download_audio] then goes on to the download
    with that id instead of raising [ValueError]. *)
Theorem extract_video_id_first_pattern (url pre id rest : string) :
  occurrence url pre id rest →
  ∃ pre' id' rest',
    occurrence url pre' id' rest'
    ∧ (∀ pre2 id2 rest2,
         occurrence url pre2 id2 rest2 →
         (String.length pre' ≤ String.length pre2)%nat
         ∧ (String.length pre2 = String.length pre' → id2 = id'))
    ∧ (∃ p1, patterns !! 0%nat = Some p1
             ∧ Re.search p1 url = Some (Some id'))
    ∧ _extract_video_id url = Some id'
    ∧ ∀ self audio_format quality w,
        download_audio download_result download_with_id self url audio_format
          quality w
        = download_with_id self id' url audio_format quality w.
Proof.
  intros Hocc.
  destruct (search_leftmost _ url eq_refl ltac:(by eexists _, _, _))
    as (pre' & id' & rest' & H1 & Hs & Hleft).
  exists pre', id', rest'. split; [done|]. split; [done|].
  split; [by eexists|].
  assert (_extract_video_id url = Some id') as Hid.
  { unfold _extract_video_id, patterns. cbn [first_match]. by rewrite Hs. }
  split; [done|]. intros self audio_format quality w.
  unfold download_audio. rewrite Hid.
  destruct H1 as (_ & Hlen & _). by destruct id'.
Qed.

End Downloader.

(** C10 at a concrete input: a link that is not a YouTube link. *)
Lemma extract_video_id_first_pattern_witness :
  occurrence "https://example.com/playlist_abc/x" "https://example.com"
    "playlist_ab" "c/x"
  ∧ ∃ pre' id' rest',
      occurrence "https://example.com/playlist_abc/x" pre' id' rest'
      ∧ _extract_video_id "https://example.com/playlist_abc/x" = Some id'.
Proof.
  assert (occurrence "https://example.com/playlist_abc/x"
            "https://example.com" "playlist_ab" "c/x") as Hocc.
  { split; [by right|]. by vm_compute. }
  split; [exact Hocc|].
  destruct (extract_video_id_first_pattern unit (λ _ _ _ _ _, mret tt)
              _ _ _ _ Hocc)
    as (pre' & id' & rest' & H1 & _ & _ & Hid & _).
  by exists pre', id', rest'.
Defined.

(** C10 as it was stated fails when an earlier place qualifies: in this
    link the eleven characters after [watch?v=] follow a [v=], yet
    [_extract_video_id] returns the beginning of the host name, which
    follows the second slash. *)
Lemma extract_video_id_later_occurrence :
  let url := "https://abcdefghijk.com/watch?v=dQw4w9WgXcQ" in
  occurrence url "https://abcdefghijk.com/watch?" "dQw4w9WgXcQ" ""
  ∧ occurrence url "https:/" "abcdefghijk" ".com/watch?v=dQw4w9WgXcQ"
  ∧ _extract_video_id url = Some "abcdefghijk"
  ∧ _extract_video_id url ≠ Some "dQw4w9WgXcQ".
Proof.
  repeat split; try by vm_compute.
  - by left.
  - by right.
Qed.

(** * Further properties of the code *)

(** ** The writers and the generators *)

Lemma open_w_ok fs fs1 (p : Path.t) :
  Fs.open_w p fs = Ok fs1 → fs1 = <[p := File ""]> fs.
Proof.
  unfold Fs.open_w. intros H.
  destruct (Fs.node_at fs p) as [[|?]|]; [done|by injection H|].
  destruct (Fs.parent_check fs p); [done|by injection H].
Qed.

Lemma write_step (p : Path.t) (old s : string) (w : world) :
  w_fs w !! p = Some (File old) →
  write p s w = (Ok tt, set_fs (<[p := File (old +:+ s)]> (w_fs w)) w).
Proof. intros H. unfold write, fs_op, Fs.append. by rewrite H. Qed.

Lemma write_srt_loop_spec (p : Path.t) (segments : list segment) :
  ∀ (i : Z) (old : string) (w : world),
  w_fs w !! p = Some (File old) →
  write_srt_loop p i segments w
  = (Ok tt,
     set_fs (<[p := File (old +:+ String.concat ""
                            (imap (λ k, srt_block (i + Z.of_nat k)) segments))]>
               (w_fs w)) w).
Proof.
  induction segments as [|seg rest IH]; intros i old w Hp.
  - simpl. rewrite app_empty_r. unfold mret, M_ret.
    by rewrite insert_id, set_fs_id.
  - cbn [write_srt_loop]. cbv [mbind M_bind].
    rewrite (write_step p old _ w Hp).
    erewrite IH; [|cbn [w_fs set_fs]; apply lookup_insert_eq].
    cbn [w_fs set_fs]. rewrite insert_insert_eq, set_fs_set_fs.
    do 4 f_equal. rewrite imap_cons, concat_empty_cons, app_assoc_str.
    rewrite Z.add_0_r. apply (f_equal (String.append old)).
    apply (f_equal2 String.append); [done|].
    apply (f_equal (String.concat "")), imap_ext.
    intros k x _. simpl. f_equal. lia.
Qed.

Lemma write_vtt_loop_spec (p : Path.t) (segments : list segment) :
  ∀ (old : string) (w : world),
  w_fs w !! p = Some (File old) →
  write_vtt_loop p segments w
  = (Ok tt,
     set_fs (<[p := File (old +:+ String.concat "" (map vtt_block segments))]>
               (w_fs w)) w).
Proof.
  induction segments as [|seg rest IH]; intros old w Hp.
  - simpl. rewrite app_empty_r. unfold mret, M_ret.
    by rewrite insert_id, set_fs_id.
  - cbn [write_vtt_loop]. cbv [mbind M_bind].
    rewrite (write_step p old _ w Hp).
    erewrite IH; [|cbn [w_fs set_fs]; apply lookup_insert_eq].
    cbn [w_fs set_fs]. rewrite insert_insert_eq, set_fs_set_fs.
    do 4 f_equal. cbn [map]. rewrite concat_empty_cons, app_assoc_str.
    done.
Qed.

(** X1: when the file can be opened, [_write_srt] leaves in it the blocks of
    all segments, numbered from 1, in order, and touches no other path; for
    a non-empty sequence that text is what [_generate_srt] returns followed
    by one more line feed, for the empty sequence both are empty. *)
Theorem write_srt_file (segments : list segment) (output_path : string)
    (w : world) (fs1 : gmap Path.t node) :
  Fs.open_w (Path.parse output_path) (w_fs w) = Ok fs1 →
  let text := String.concat ""
                (imap (λ k, srt_block (1 + Z.of_nat k)) segments) in
  _write_srt segments output_path w
  = (Ok tt, set_fs (<[Path.parse output_path := File text]> (w_fs w)) w)
  ∧ (segments ≠ [] → text = _generate_srt segments +:+ Str.nl)
  ∧ (segments = [] → text = "" ∧ _generate_srt segments = "").
Proof.
  intros Ho text. split; [|split].
  - unfold _write_srt. cbv [mbind M_bind open_w fs_op]. rewrite Ho.
    rewrite (open_w_ok _ _ _ Ho).
    erewrite (write_srt_loop_spec _ _ 1 "");
      [|cbn [w_fs set_fs]; apply lookup_insert_eq].
    cbn [w_fs set_fs]. by rewrite insert_insert_eq, set_fs_set_fs.
  - destruct segments as [|seg rest]; [done|]. intros _.
    subst text. by rewrite generate_srt_shape.
  - by intros ->.
Qed.

(** X2: when the file can be opened, [_write_vtt] leaves in it the header,
    an empty line and the blocks of all segments in order, and touches no
    other path; for every sequence, the empty one too, that text is what
    [_generate_vtt] returns followed by one more line feed. *)
Theorem write_vtt_file (segments : list segment) (output_path : string)
    (w : world) (fs1 : gmap Path.t node) :
  Fs.open_w (Path.parse output_path) (w_fs w) = Ok fs1 →
  let text := "WEBVTT" +:+ Str.nl +:+ Str.nl +:+
              String.concat "" (map vtt_block segments) in
  _write_vtt segments output_path w
  = (Ok tt, set_fs (<[Path.parse output_path := File text]> (w_fs w)) w)
  ∧ text = _generate_vtt segments +:+ Str.nl.
Proof.
  intros Ho text. split.
  - unfold _write_vtt. cbv [mbind M_bind open_w fs_op]. rewrite Ho.
    rewrite (open_w_ok _ _ _ Ho).
    erewrite (write_step _ "");
      [|cbn [w_fs set_fs]; apply lookup_insert_eq].
    cbn [w_fs set_fs]. rewrite insert_insert_eq, set_fs_set_fs.
    erewrite (write_vtt_loop_spec _ _ ("" +:+ "WEBVTT" +:+ Str.nl +:+ Str.nl));
      [|cbn [w_fs set_fs]; apply lookup_insert_eq].
    cbn [w_fs set_fs]. rewrite insert_insert_eq, set_fs_set_fs.
    subst text. by rewrite app_empty_l, !app_assoc_str.
  - subst text. destruct segments as [|seg rest]; [done|].
    by rewrite generate_vtt_blocks.
Qed.

Lemma write_srt_file_witness :
  let text := String.concat ""
                (imap (λ k, srt_block (1 + Z.of_nat k)) two_cues) in
  _write_srt two_cues "out.srt" empty_world
  = (Ok tt, set_fs (<[Path.parse "out.srt" := File text]> (w_fs empty_world))
              empty_world)
  ∧ (two_cues ≠ [] → text = _generate_srt two_cues +:+ Str.nl)
  ∧ (two_cues = [] → text = "" ∧ _generate_srt two_cues = "").
Proof.
  apply (write_srt_file two_cues "out.srt" empty_world
           (<[["out.srt"] := File ""]> ∅)).
  reflexivity.
Defined.

Lemma write_vtt_file_witness :
  let text := "WEBVTT" +:+ Str.nl +:+ Str.nl +:+
              String.concat "" (map vtt_block two_cues) in
  _write_vtt two_cues "out.vtt" empty_world
  = (Ok tt, set_fs (<[Path.parse "out.vtt" := File text]> (w_fs empty_world))
              empty_world)
  ∧ text = _generate_vtt two_cues +:+ Str.nl.
Proof.
  apply (write_vtt_file two_cues "out.vtt" empty_world
           (<[["out.vtt"] := File ""]> ∅)).
  reflexivity.
Defined.

(** ** The seconds field at the end of a minute *)

(** The text of a timestamp from its three computed fields. *)
Lemma format_timestamp_shape (x : Q) (srt : bool) :
  (0 <= x)%Q →
  let h := Qfloor (x / 3600) in
  let m := Qfloor (x / 60) mod 60 in
  let t := Fmt.thousandths (Float.rem x 60) in
  _format_timestamp x srt
  = Fmt.format_d 2 h +:+ ":" +:+ two_digits m +:+ ":" +:+
    two_digits (t / 1000) +:+
    String (decimal_mark srt) (three_digits (t mod 1000)).
Proof.
  intros Hx h m t.
  destruct (timestamp_components x Hx) as (Eh & Em & Hh0 & Hhq & Hs0 & Hs60).
  fold h in Eh, Hh0, Hhq. fold m in Em.
  destruct (thousandths_spec _ Hs0) as (_ & _ & _ & Ht0 & Ht60 & Hsign).
  specialize (Ht60 Hs60). fold t in Ht0, Ht60.
  destruct (hours_field h Hh0) as (_ & _ & _ & Hdot).
  assert (0 ≤ m < 60) as Hm by (apply Z.mod_pos_bound; lia).
  assert (0 ≤ t / 1000 < 100) as Hq.
  { split; [apply Z.div_pos; lia|apply Z.div_lt_upper_bound; lia]. }
  assert (0 ≤ t mod 1000 < 1000) as Hr by (apply Z.mod_pos_bound; lia).
  unfold _format_timestamp. rewrite Eh, Em.
  unfold Fmt.format_3f. fold t. rewrite Hsign, pad6 by done.
  rewrite (format_d_small m) by lia.
  destruct srt; [|done].
  rewrite !replace_char_app, Hdot.
  rewrite (numeral_no_dot _ _ _ (two_digits_value m ltac:(lia))).
  rewrite (numeral_no_dot _ _ _ (two_digits_value (t / 1000) Hq)).
  rewrite three_digits_no_dot by done. done.
Qed.

(** X3: the seconds are rounded to thousandths after the minutes were cut
    off, and nothing is carried: for every non-negative number of seconds
    the seconds field is at most [60.000], and it reads [60.000], with the
    minutes and hours of the minute that is ending, exactly when the seconds
    left over in the minute are [59.9995] or more. *)
Theorem format_timestamp_no_carry (x : Q) (srt : bool) :
  (0 <= x)%Q →
  let h := Qfloor (x / 3600) in
  let m := Qfloor (x / 60) mod 60 in
  let secs := (x - 60 * inject_Z (Qfloor (x / 60)))%Q in
  ∃ (hh : string) (t : Z),
    _format_timestamp x srt
    = hh +:+ ":" +:+ two_digits m +:+ ":" +:+ two_digits (t / 1000) +:+
      String (decimal_mark srt) (three_digits (t mod 1000))
    ∧ dec_value hh = Some h
    ∧ 0 ≤ t ≤ 60000
    ∧ (t = 60000 ↔ (119999 # 2000 <= secs)%Q)
    ∧ (t = 60000 →
       _format_timestamp x srt
       = hh +:+ ":" +:+ two_digits m +:+ ":60" +:+
         String (decimal_mark srt) "000").
Proof.
  intros Hx h m secs.
  pose proof (format_timestamp_shape x srt Hx) as Hshape.
  destruct (timestamp_components x Hx) as (_ & _ & Hh0 & _ & Hs0 & Hs60).
  fold h in Hh0. change (Float.rem x 60) with secs in *.
  destruct (thousandths_spec secs Hs0) as (Ht1 & Ht2 & Ht3 & Ht0 & Ht60 & _).
  specialize (Ht60 Hs60).
  cbv zeta in Hshape. fold h m in Hshape.
  set (t := Fmt.thousandths secs) in *.
  destruct (hours_field h Hh0) as (Hv & _).
  exists (Fmt.format_d 2 h), t.
  split; [done|]. split; [done|]. split; [lia|]. split; [split|].
  - intros E. rewrite E in Ht1. change (inject_Z 60000) with 60000%Q in Ht1.
    lra.
  - intros Hs.
    destruct (Z.lt_ge_cases t 59999) as [Hlt|Hge].
    { exfalso. assert (inject_Z t <= inject_Z 59998)%Q as Hq
        by (rewrite <- Zle_Qle; lia).
      change (inject_Z 59998) with 59998%Q in Hq. lra. }
    destruct (Z.eq_dec t 59999) as [E|Hne]; [exfalso|lia].
    assert (Z.even t = true) as Hev.
    { apply Ht3. right. rewrite E in *.
      change (inject_Z 59999) with 59999%Q in *. lra. }
    by rewrite E in Hev.
  - intros E. rewrite Hshape, E. done.
Qed.

Lemma format_timestamp_no_carry_witness :
  ∃ (hh : string) (t : Z),
    _format_timestamp (599996 # 10000) false
    = hh +:+ ":" +:+ two_digits 0 +:+ ":" +:+ two_digits (t / 1000) +:+
      String "." (three_digits (t mod 1000))
    ∧ dec_value hh = Some 0
    ∧ 0 ≤ t ≤ 60000
    ∧ (t = 60000 ↔ (119999 # 2000 <= 599996 # 10000)%Q)
    ∧ (t = 60000 →
       _format_timestamp (599996 # 10000) false
       = hh +:+ ":" +:+ two_digits 0 +:+ ":60" +:+ String "." "000").
Proof.
  assert (0 <= 599996 # 10000)%Q as Hpos by done.
  exact (format_timestamp_no_carry (599996 # 10000) false Hpos).
Defined.

(** ** The listing of the projects, in general *)

Lemma iterdir_lookup fs (p : Path.t) (n : string) :
  n ∈ Fs.iterdir fs p → ∃ x, fs !! (p ++ [n]) = Some x.
Proof.
  unfold Fs.iterdir. intros (q & Hq & Hn)%list_elem_of_omap.
  apply list_elem_of_fmap in Hq as ([q' x] & -> & Hq).
  apply elem_of_map_to_list in Hq. cbn [fst] in Hn.
  destruct (decide (Path.parent q' = p ∧ q' ≠ [])) as [[Hp Hne]|]; [|done].
  injection Hn as <-. exists x.
  unfold Path.parent in Hp. rewrite <- Hp.
  by rewrite <- (app_removelast_last "" Hne).
Qed.

Lemma project_name_not_root (n : string) :
  is_project_name n = true → Path.is_root n = false.
Proof.
  intros H. unfold Path.is_root.
  destruct (String.eqb_spec n "/") as [->|]; [done|].
  destruct (String.eqb_spec n "//") as [->|]; done.
Qed.

(** The listing where the base directory exists. *)
Lemma list_projects_names (self : ProjectStructure) (w : world) :
  Fs.is_dir (w_fs w) (base_dir self) = true →
  ∃ names,
    list_projects self w = (Ok names, w)
    ∧ StronglySorted String.le names
    ∧ NoDup names
    ∧ ∀ n, n ∈ names
           ↔ w_fs w !! (base_dir self ++ [n]) = Some Dir
             ∧ is_project_name n = true.
Proof.
  intros Hbase. unfold list_projects, Fs.is_dir in *.
  destruct (Fs.node_at (w_fs w) (base_dir self)) as [[|?]|]; [|done..].
  eexists. split; [done|]. split; [apply StronglySorted_merge_sort; apply _|].
  split; [rewrite merge_sort_Permutation; apply NoDup_filter, iterdir_NoDup|].
  intros n. rewrite merge_sort_Permutation, list_elem_of_filter. split.
  - intros [[Hd Hn] _]. split; [|done].
    rewrite node_at_child in Hd by (by apply project_name_not_root).
    by destruct (w_fs w !! (base_dir self ++ [n])) as [[|?]|].
  - intros [Hd Hn]. split; [split; [|done]|by eapply iterdir_elem].
    rewrite node_at_child by (by apply project_name_not_root).
    by rewrite Hd.
Qed.

(** X4: where the base directory exists, [list_projects] changes nothing
    and returns, in ascending order and without repetition, exactly the
    names of the directories right under the base directory that begin with
    [youtube_] or [local_]. *)
Theorem list_projects_spec (self : ProjectStructure) (w : world) :
  Fs.is_dir (w_fs w) (base_dir self) = true →
  ∃ names,
    list_projects self w = (Ok names, w)
    ∧ StronglySorted String.le names
    ∧ NoDup names
    ∧ ∀ n, n ∈ names
           ↔ w_fs w !! (base_dir self ++ [n]) = Some Dir
             ∧ is_project_name n = true.
Proof. apply list_projects_names. Qed.

Lemma list_projects_spec_witness :
  ∃ names,
    list_projects demo_store demo_world = (Ok names, demo_world)
    ∧ StronglySorted String.le names
    ∧ NoDup names
    ∧ ∀ n, n ∈ names
           ↔ w_fs demo_world !! (base_dir demo_store ++ [n]) = Some Dir
             ∧ is_project_name n = true.
Proof. apply (list_projects_spec demo_store demo_world). by vm_compute. Defined.

(** ** Creating a project, in general *)

Section StoreMore.

Variable json_dumps : json → string.
Variable isoformat : nat → string.

Lemma folder_plain (name ptype : string) :
  let folder := if String.eqb ptype "youtube" then "youtube_" +:+ name
                else "local_" +:+ name in
  plain_name name →
  plain_name folder ∧ Path.is_name folder = true
  ∧ is_project_name folder = true.
Proof.
  intros folder Hp. subst folder. unfold plain_name in *.
  destruct (String.eqb ptype "youtube"); rewrite has_char_app, Hp; done.
Qed.

Lemma dict_set_nonempty {V} (d : Dict.t V) k v : Dict.set d k v ≠ [].
Proof. destruct d as [|[k' v'] d]; simpl; [done|]. by destruct (String.eqb k' k). Qed.

Lemma with_project_lookup (b : Path.t) (folder : string) fs (p : Path.t) :
  with_project b folder fs !! p
  = if decide (p ∈ [b ++ [folder]; (b ++ [folder]) ++ ["src_audio"];
                    (b ++ [folder]) ++ ["transcription"]])
    then Some Dir else fs !! p.
Proof.
  unfold with_project.
  destruct (decide (p = (b ++ [folder]) ++ ["transcription"])) as [->|N1].
  { rewrite lookup_insert_eq, decide_True; [done|set_solver]. }
  rewrite lookup_insert_ne by done.
  destruct (decide (p = (b ++ [folder]) ++ ["src_audio"])) as [->|N2].
  { rewrite lookup_insert_eq, decide_True; [done|set_solver]. }
  rewrite lookup_insert_ne by done.
  destruct (decide (p = b ++ [folder])) as [->|N3].
  { rewrite lookup_insert_eq, decide_True; [done|set_solver]. }
  rewrite lookup_insert_ne by done.
  rewrite decide_False; [done|].
  rewrite !elem_of_cons, elem_of_nil. by intros [?|[?|[?|[]]]].
Qed.

Lemma with_project_base (b : Path.t) (folder : string) fs :
  Fs.is_dir (with_project b folder fs) b = Fs.is_dir fs b.
Proof.
  unfold with_project. rewrite !is_dir_insert_ne; [done|..].
  - intros E. by apply (child_ne b folder).
  - rewrite <- app_assoc. apply grandchild_ne.
  - rewrite <- app_assoc. apply grandchild_ne.
Qed.

(** X5: for every project name without a slash and every project type,
    with no metadata to save, [create_project] returns the three paths
    [base/folder], [base/folder/src_audio] and [base/folder/transcription],
    where [folder] is [youtube_] and the name when the type is [youtube],
    and [local_] and the name for every other type; these three paths are
    directories afterwards and every other path is as before; the mappings
    the callers hold, the clock and the calls to the model are untouched; a
    second call returns the same and changes nothing; and the listing of the
    projects then names the folder. *)
Theorem create_project_any_name (self : ProjectStructure)
    (name ptype : string) (md : option nat) (w : world) :
  let folder := if String.eqb ptype "youtube" then "youtube_" +:+ name
                else "local_" +:+ name in
  let pd := base_dir self ++ [folder] in
  plain_name name →
  match md with
  | Some l => default [] (w_heap w !! l) = []
  | None => True
  end →
  Fs.is_dir (w_fs w) (base_dir self) = true →
  (∀ p s, p ∈ [pd; pd ++ ["src_audio"]; pd ++ ["transcription"]] →
          w_fs w !! p ≠ Some (File s)) →
  ∃ dirs w1 names,
    create_project json_dumps isoformat self name ptype md w = (Ok dirs, w1)
    ∧ create_project json_dumps isoformat self name ptype md w1
      = (Ok dirs, w1)
    ∧ dirs = [("project_dir", pd);
              ("src_audio_dir", pd ++ ["src_audio"]);
              ("transcription_dir", pd ++ ["transcription"])]
    ∧ (∀ p, w_fs w1 !! p
            = if decide (p ∈ [pd; pd ++ ["src_audio"];
                              pd ++ ["transcription"]])
              then Some Dir else w_fs w !! p)
    ∧ w_heap w1 = w_heap w ∧ w_clock w1 = w_clock w ∧ w_calls w1 = w_calls w
    ∧ list_projects self w1 = (Ok names, w1)
    ∧ folder ∈ names.
Proof.
  intros folder pd Hname Hmd Hbase Hfree.
  destruct (folder_plain name ptype Hname) as (Hplain & Hisname & Hproj).
  fold folder in Hplain, Hisname, Hproj.
  set (fs1 := with_project (base_dir self) folder (w_fs w)).
  assert (Fs.is_dir fs1 (base_dir self) = true) as Hbase1
    by (subst fs1; by rewrite with_project_base).
  assert (fs1 !! pd = Some Dir) as D1.
  { subst fs1. rewrite with_project_lookup, decide_True; [done|set_solver]. }
  exists [("project_dir", pd); ("src_audio_dir", pd ++ ["src_audio"]);
          ("transcription_dir", pd ++ ["transcription"])],
         (set_fs fs1 w),
         (merge_sort String.le
            (filter (λ n, Fs.is_dir fs1 (base_dir self ++ [n]) = true
                          ∧ is_project_name n = true)
                    (Fs.iterdir fs1 (base_dir self)))).
  split; [|split; [|split; [done|split; [|repeat split]]]].
  - by apply (create_project_dirs json_dumps isoformat self name ptype).
  - rewrite (create_project_dirs json_dumps isoformat self name ptype).
    + cbn [w_fs set_fs]. subst fs1.
      by rewrite with_project_idem, set_fs_set_fs.
    + done.
    + done.
    + done.
    + intros p s Hp. cbn [w_fs set_fs]. fold folder pd in Hp. fold fs1.
      subst fs1. rewrite with_project_lookup. fold pd.
      by rewrite decide_True.
  - intros p. cbn [w_fs set_fs]. subst fs1. apply with_project_lookup.
  - unfold list_projects. cbn [w_fs set_fs]. unfold Fs.is_dir in Hbase1.
    by destruct (Fs.node_at fs1 (base_dir self)) as [[|?]|].
  - rewrite merge_sort_Permutation. apply list_elem_of_filter. split.
    + split; [|done]. unfold Fs.is_dir.
      rewrite node_at_child by (by apply plain_not_root).
      fold pd. by rewrite D1.
    + by apply (iterdir_elem _ _ _ Dir).
Qed.

(** X6: a regular file that has the name of the project folder is left
    alone: [create_project] raises [FileExistsError] for the project
    directory and changes nothing. *)
Theorem create_project_file_in_the_way (self : ProjectStructure)
    (name ptype s : string) (md : option nat) (w : world) :
  let folder := if String.eqb ptype "youtube" then "youtube_" +:+ name
                else "local_" +:+ name in
  let pd := base_dir self ++ [folder] in
  plain_name name →
  w_fs w !! pd = Some (File s) →
  create_project json_dumps isoformat self name ptype md w
  = (Raise (FileExistsError (Path.to_str pd)), w).
Proof.
  intros folder pd Hname Hfile.
  destruct (folder_plain name ptype Hname) as (Hplain & Hisname & _).
  fold folder in Hplain, Hisname.
  unfold create_project. fold folder.
  rewrite (div_plain _ folder) by done. fold pd.
  cbv [mbind M_bind mkdir fs_op]. unfold Fs.mkdir_exist_ok.
  subst pd. rewrite node_at_child by (by apply plain_not_root).
  by rewrite Hfile.
Qed.

(** What [create_project] does with metadata to save, once the three
    directories can be made. *)
Lemma create_project_metadata_run (self : ProjectStructure)
    (name ptype : string) (l : nat) (d : Dict.t json) (w : world) :
  let folder := if String.eqb ptype "youtube" then "youtube_" +:+ name
                else "local_" +:+ name in
  let pd := base_dir self ++ [folder] in
  let mf := pd ++ ["metadata.json"] in
  let fs1 := with_project (base_dir self) folder (w_fs w) in
  let d' := Dict.set (Dict.set d "created_at" (JStr (isoformat (w_clock w))))
              "project_type" (JStr ptype) in
  plain_name name →
  w_heap w !! l = Some d →
  d ≠ [] →
  Fs.is_dir (w_fs w) (base_dir self) = true →
  (∀ p s, p ∈ [pd; pd ++ ["src_audio"]; pd ++ ["transcription"]] →
          w_fs w !! p ≠ Some (File s)) →
  create_project json_dumps isoformat self name ptype (Some l) w
  = match Fs.open_w mf fs1 with
    | Ok fs2 =>
        (Ok [("project_dir", pd);
             ("src_audio_dir", pd ++ ["src_audio"]);
             ("transcription_dir", pd ++ ["transcription"])],
         World (Fs.append mf (json_dumps (JObj d')) fs2)
           (<[l := d']> (w_heap w)) (S (w_clock w)) (w_calls w))
    | Raise e =>
        (Raise e,
         World fs1 (<[l := d']> (w_heap w)) (S (w_clock w)) (w_calls w))
    end.
Proof.
  intros folder pd mf fs1 d' Hname Hl Hd Hbase Hfree.
  destruct (folder_plain name ptype Hname) as (Hplain & Hisname & _).
  fold folder in Hplain, Hisname.
  pose proof (plain_not_root _ Hplain) as Hroot.
  unfold create_project. fold folder.
  rewrite (div_plain _ folder) by done.
  rewrite !(div_plain (base_dir self ++ [folder])) by done.
  cbv [mbind M_bind mret M_ret mkdir fs_op].
  rewrite mkdir_child; [|done|done|intros s; apply Hfree; set_solver].
  cbn [w_fs set_fs].
  rewrite mkdir_child; [|done|by apply is_dir_child_insert|].
  2:{ intros s. rewrite lookup_insert_ne by (intros E; by eapply child_ne).
      apply Hfree. set_solver. }
  cbn [w_fs set_fs].
  rewrite mkdir_child; [|done| |].
  2:{ rewrite is_dir_insert_child. by apply is_dir_child_insert. }
  2:{ intros s. rewrite lookup_insert_ne by (by apply siblings_ne).
      rewrite lookup_insert_ne by (intros E; by eapply child_ne).
      apply Hfree. set_solver. }
  cbn [w_fs set_fs].
  change (<[(base_dir self ++ [folder]) ++ ["transcription"]:=Dir]>
            (<[(base_dir self ++ [folder]) ++ ["src_audio"]:=Dir]>
               (<[base_dir self ++ [folder]:=Dir]> (w_fs w)))) with fs1.
  fold pd. fold mf. clearbody fs1.
  destruct w as [fs h clock calls]. cbn [w_heap w_clock w_fs w_calls] in *.
  cbv [deref now setitem open_w write fs_op set_fs set_heap
       w_fs w_heap w_clock w_calls].
  rewrite Hl. cbn [default].
  destruct d as [|[k0 v0] d0]; [done|].
  cbv beta iota zeta delta [id].
  rewrite Hl, lookup_insert_eq. cbn [default].
  rewrite insert_insert_eq. fold d'.
  destruct (Fs.open_w mf fs1) as [fs2|e]; [|done].
  by rewrite lookup_insert_eq.
Qed.

(** X7: with a non-empty metadata mapping, where the three directories can
    be made and no directory has the name [metadata.json],
    [create_project] returns normally: the three directories exist,
    [metadata.json] holds the serialization of the mapping with
    [created_at] (the time of this call) and [project_type] set, the
    caller's mapping has changed the same way, the clock was read once, and
    every other path is as before.  The call can be repeated, and every
    call writes its own time to [created_at]. *)
Theorem create_project_saves_metadata (self : ProjectStructure)
    (name ptype : string) (l : nat) (d : Dict.t json) (w : world) :
  let folder := if String.eqb ptype "youtube" then "youtube_" +:+ name
                else "local_" +:+ name in
  let pd := base_dir self ++ [folder] in
  let mf := pd ++ ["metadata.json"] in
  let stamped (d : Dict.t json) (clock : nat) :=
    Dict.set (Dict.set d "created_at" (JStr (isoformat clock)))
      "project_type" (JStr ptype) in
  plain_name name →
  w_heap w !! l = Some d →
  d ≠ [] →
  Fs.is_dir (w_fs w) (base_dir self) = true →
  (∀ p s, p ∈ [pd; pd ++ ["src_audio"]; pd ++ ["transcription"]] →
          w_fs w !! p ≠ Some (File s)) →
  w_fs w !! mf ≠ Some Dir →
  ∃ dirs w1 w2,
    create_project json_dumps isoformat self name ptype (Some l) w
    = (Ok dirs, w1)
    ∧ dirs = [("project_dir", pd);
              ("src_audio_dir", pd ++ ["src_audio"]);
              ("transcription_dir", pd ++ ["transcription"])]
    ∧ w_fs w1
      = <[mf := File (json_dumps (JObj (stamped d (w_clock w))))]>
          (with_project (base_dir self) folder (w_fs w))
    ∧ w_heap w1 = <[l := stamped d (w_clock w)]> (w_heap w)
    ∧ w_clock w1 = S (w_clock w)
    ∧ w_calls w1 = w_calls w
    ∧ create_project json_dumps isoformat self name ptype (Some l) w1
      = (Ok dirs, w2)
    ∧ file_at w2 mf
      = Some (json_dumps
                (JObj (stamped (stamped d (w_clock w)) (S (w_clock w)))))
    ∧ w_heap w2 !! l = Some (stamped (stamped d (w_clock w)) (S (w_clock w))).
Proof.
  intros folder pd mf stamped Hname Hl Hd Hbase Hfree Hmf.
  destruct (folder_plain name ptype Hname) as (Hplain & Hisname & _).
  fold folder in Hplain, Hisname.
  subst stamped. cbv beta.
  set (d1 := Dict.set (Dict.set d "created_at" (JStr (isoformat (w_clock w))))
               "project_type" (JStr ptype)).
  set (d2 := Dict.set
               (Dict.set d1 "created_at" (JStr (isoformat (S (w_clock w)))))
               "project_type" (JStr ptype)).
  set (fs1 := with_project (base_dir self) folder (w_fs w)).
  assert (∀ p, p ∈ [pd; pd ++ ["src_audio"]; pd ++ ["transcription"]] →
               p ≠ mf) as Hne.
  { intros p Hp ->. subst mf.
    apply elem_of_cons in Hp as [E|Hp];
      [by apply (child_ne pd "metadata.json")|].
    apply elem_of_cons in Hp as [E|Hp];
      [by apply siblings_ne in E|].
    apply elem_of_cons in Hp as [E|Hp];
      [by apply siblings_ne in E|].
    by apply elem_of_nil in Hp. }
  assert (fs1 !! mf = w_fs w !! mf) as Hmf1.
  { subst fs1. rewrite with_project_lookup. fold pd.
    rewrite decide_False; [done|]. intros Hin. by apply (Hne mf). }
  assert (Fs.is_dir fs1 pd = true) as Hpd1.
  { unfold Fs.is_dir. subst pd.
    rewrite node_at_child by (by apply plain_not_root).
    subst fs1. rewrite with_project_lookup, decide_True; [done|set_solver]. }
  assert (∀ s fs, Fs.is_dir fs pd = true → fs !! mf ≠ Some Dir →
            ∃ fs2, Fs.open_w mf fs = Ok fs2
                   ∧ Fs.append mf s fs2 = <[mf := File s]> fs) as Hopen.
  { intros s fs H1 H2. by apply open_write. }
  destruct (Hopen (json_dumps (JObj d1)) fs1)
    as (fs2 & Ho & Ha); [done|by rewrite Hmf1|].
  set (w1 := World (<[mf := File (json_dumps (JObj d1))]> fs1)
               (<[l := d1]> (w_heap w)) (S (w_clock w)) (w_calls w)).
  assert (create_project json_dumps isoformat self name ptype (Some l) w
          = (Ok [("project_dir", pd);
                 ("src_audio_dir", pd ++ ["src_audio"]);
                 ("transcription_dir", pd ++ ["transcription"])], w1)) as Hrun1.
  { rewrite (create_project_metadata_run self name ptype l d w) by done.
    fold folder pd mf fs1 d1. by rewrite Ho, Ha. }
  assert (d1 ≠ []) as Hd1.
  { apply dict_set_nonempty. }
  assert (with_project (base_dir self) folder (w_fs w1)
          = <[mf := File (json_dumps (JObj d1))]> fs1) as Hfs1.
  { apply map_eq. intros p. rewrite with_project_lookup. fold pd.
    subst w1. cbn [w_fs]. destruct (decide _) as [Hin|Hout]; [|done].
    rewrite lookup_insert_ne by (intros E; by apply (Hne p)).
    subst fs1. rewrite with_project_lookup. fold pd. by rewrite decide_True. }
  destruct (Hopen (json_dumps (JObj d2))
              (<[mf := File (json_dumps (JObj d1))]> fs1))
    as (fs3 & Ho3 & Ha3).
  { unfold Fs.is_dir in *. rewrite node_at_insert_ne; [done|].
    intros E. by apply (child_ne pd "metadata.json"). }
  { by rewrite lookup_insert_eq. }
  exists [("project_dir", pd); ("src_audio_dir", pd ++ ["src_audio"]);
          ("transcription_dir", pd ++ ["transcription"])], w1,
         (World (<[mf := File (json_dumps (JObj d2))]>
                   (<[mf := File (json_dumps (JObj d1))]> fs1))
            (<[l := d2]> (w_heap w1)) (S (w_clock w1)) (w_calls w1)).
  split; [exact Hrun1|]. split; [done|].
  split; [done|]. split; [done|]. split; [done|]. split; [done|].
  split.
  - rewrite (create_project_metadata_run self name ptype l d1 w1).
    + fold folder pd mf. rewrite Hfs1, Ho3.
      change (w_clock w1) with (S (w_clock w)). fold d2. by rewrite Ha3.
    + done.
    + subst w1. cbn [w_heap]. by rewrite lookup_insert_eq.
    + done.
    + subst w1. cbn [w_fs]. rewrite is_dir_insert_ne.
      * subst fs1. by rewrite with_project_base.
      * intros E. subst mf pd. rewrite <- app_assoc in E.
        by apply grandchild_ne in E.
    + intros p s Hp. fold folder pd in Hp. subst w1. cbn [w_fs].
      rewrite lookup_insert_ne by (intros E; by apply (Hne p)).
      subst fs1. rewrite with_project_lookup. fold pd. by rewrite decide_True.
  - unfold file_at. cbn [w_fs w_heap]. by rewrite !lookup_insert_eq.
Qed.

(** X8: when a directory has the name [metadata.json], [create_project]
    raises [IsADirectoryError] only after it has made the three directories,
    read the clock and changed the caller's mapping. *)
Theorem create_project_metadata_blocked (self : ProjectStructure)
    (name ptype : string) (l : nat) (d : Dict.t json) (w : world) :
  let folder := if String.eqb ptype "youtube" then "youtube_" +:+ name
                else "local_" +:+ name in
  let pd := base_dir self ++ [folder] in
  let mf := pd ++ ["metadata.json"] in
  let d' := Dict.set (Dict.set d "created_at" (JStr (isoformat (w_clock w))))
              "project_type" (JStr ptype) in
  plain_name name →
  w_heap w !! l = Some d →
  d ≠ [] →
  Fs.is_dir (w_fs w) (base_dir self) = true →
  (∀ p s, p ∈ [pd; pd ++ ["src_audio"]; pd ++ ["transcription"]] →
          w_fs w !! p ≠ Some (File s)) →
  w_fs w !! mf = Some Dir →
  create_project json_dumps isoformat self name ptype (Some l) w
  = (Raise (IsADirectoryError (Path.to_str mf)),
     World (with_project (base_dir self) folder (w_fs w))
       (<[l := d']> (w_heap w)) (S (w_clock w)) (w_calls w)).
Proof.
  intros folder pd mf d' Hname Hl Hd Hbase Hfree Hmf.
  rewrite (create_project_metadata_run self name ptype l d w) by done.
  fold folder pd mf.
  assert (Fs.open_w mf (with_project (base_dir self) folder (w_fs w))
          = Raise (IsADirectoryError (Path.to_str mf))) as ->; [|done].
  unfold Fs.open_w. subst mf. rewrite node_at_child by done.
  rewrite with_project_lookup. fold pd.
  rewrite decide_False; [unfold Path.t in *; by rewrite Hmf|].
  intros Hin.
  apply elem_of_cons in Hin as [E|Hin];
    [by apply (child_ne pd "metadata.json")|].
  apply elem_of_cons in Hin as [E|Hin]; [by apply siblings_ne in E|].
  apply elem_of_cons in Hin as [E|Hin]; [by apply siblings_ne in E|].
  by apply elem_of_nil in Hin.
Qed.

End StoreMore.

Lemma create_project_any_name_witness :
  ∃ dirs w1 names,
    create_project demo_dumps demo_isoformat demo_store "talk" "podcast" None
      store_world = (Ok dirs, w1)
    ∧ create_project demo_dumps demo_isoformat demo_store "talk" "podcast" None
        w1 = (Ok dirs, w1)
    ∧ w_fs w1 !! ["audio_projects"; "local_talk"; "src_audio"] = Some Dir
    ∧ list_projects demo_store w1 = (Ok names, w1)
    ∧ "local_talk" ∈ names.
Proof.
  destruct (create_project_any_name demo_dumps demo_isoformat demo_store
              "talk" "podcast" None store_world)
    as (dirs & w1 & names & H1 & H2 & _ & H3 & _ & _ & _ & H4 & H5).
  - by vm_compute.
  - done.
  - by vm_compute.
  - intros p s Hp.
    apply elem_of_cons in Hp as [->|Hp]; [by vm_compute|].
    apply elem_of_cons in Hp as [->|Hp]; [by vm_compute|].
    apply elem_of_cons in Hp as [->|Hp]; [by vm_compute|].
    by apply elem_of_nil in Hp.
  - exists dirs, w1, names. split; [exact H1|]. split; [exact H2|].
    split; [|by split].
    specialize (H3 ["audio_projects"; "local_talk"; "src_audio"]).
    rewrite decide_True in H3 by (right; left).
    exact H3.
Defined.

Lemma create_project_file_in_the_way_witness :
  let w := set_fs (<[["audio_projects"; "local_talk"] := File "notes"]>
                     (w_fs store_world)) store_world in
  create_project demo_dumps demo_isoformat demo_store "talk" "local" None w
  = (Raise (FileExistsError "audio_projects/local_talk"), w).
Proof.
  intros w.
  apply (create_project_file_in_the_way demo_dumps demo_isoformat demo_store
           "talk" "local" "notes" None w); by vm_compute.
Defined.

Lemma create_project_saves_metadata_witness :
  ∃ dirs w1 w2,
    create_project demo_dumps demo_isoformat demo_store "abc" "youtube"
      (Some 0%nat) titled_world = (Ok dirs, w1)
    ∧ w_clock w1 = 1%nat
    ∧ create_project demo_dumps demo_isoformat demo_store "abc" "youtube"
        (Some 0%nat) w1 = (Ok dirs, w2)
    ∧ w_heap w2 !! 0%nat
      = Some [("title", JStr "Talk");
              ("created_at", JStr "2024-01-01T00:00:01");
              ("project_type", JStr "youtube")].
Proof.
  destruct (create_project_saves_metadata demo_dumps demo_isoformat demo_store
              "abc" "youtube" 0%nat [("title", JStr "Talk")] titled_world)
    as (dirs & w1 & w2 & H1 & _ & _ & _ & H2 & _ & H3 & _ & H4).
  - by vm_compute.
  - by vm_compute.
  - done.
  - by vm_compute.
  - intros p s Hp.
    apply elem_of_cons in Hp as [->|Hp]; [by vm_compute|].
    apply elem_of_cons in Hp as [->|Hp]; [by vm_compute|].
    apply elem_of_cons in Hp as [->|Hp]; [by vm_compute|].
    by apply elem_of_nil in Hp.
  - by vm_compute.
  - exists dirs, w1, w2. split; [exact H1|]. split; [exact H2|].
    split; [exact H3|exact H4].
Defined.

Lemma create_project_metadata_blocked_witness :
  let w := set_fs (<[["audio_projects"; "youtube_abc"; "metadata.json"] := Dir]>
                     (<[["audio_projects"; "youtube_abc"] := Dir]>
                        (w_fs titled_world))) titled_world in
  (create_project demo_dumps demo_isoformat demo_store "abc" "youtube"
     (Some 0%nat) w).1
  = Raise (IsADirectoryError "audio_projects/youtube_abc/metadata.json")
  ∧ w_heap (create_project demo_dumps demo_isoformat demo_store "abc"
              "youtube" (Some 0%nat) w).2 !! 0%nat
    = Some [("title", JStr "Talk");
            ("created_at", JStr "2024-01-01T00:00:00");
            ("project_type", JStr "youtube")].
Proof.
  intros w.
  rewrite (create_project_metadata_blocked demo_dumps demo_isoformat
             demo_store "abc" "youtube" 0%nat [("title", JStr "Talk")] w).
  - split; by vm_compute.
  - by vm_compute.
  - by vm_compute.
  - done.
  - by vm_compute.
  - intros p s Hp.
    apply elem_of_cons in Hp as [->|Hp]; [by vm_compute|].
    apply elem_of_cons in Hp as [->|Hp]; [by vm_compute|].
    apply elem_of_cons in Hp as [->|Hp]; [by vm_compute|].
    by apply elem_of_nil in Hp.
  - by vm_compute.
Defined.

(** ** The settings of a transcription, and outputs that cannot be saved *)

Lemma dict_keys_set {V} (d : Dict.t V) k v :
  Dict.keys (Dict.set d k v)
  = if bool_decide (k ∈ Dict.keys d) then Dict.keys d
    else Dict.keys d ++ [k].
Proof.
  unfold Dict.keys.
  induction d as [|[k' v'] d IH]; [done|]. cbn [Dict.set].
  destruct (String.eqb_spec k' k) as [->|Hne].
  - rewrite bool_decide_eq_true_2; [done|]. cbn. left.
  - cbn [map fst]. rewrite IH.
    destruct (bool_decide (k ∈ map fst d)) eqn:E.
    + apply bool_decide_eq_true in E.
      rewrite bool_decide_eq_true_2; [done|by right].
    + apply bool_decide_eq_false in E.
      rewrite bool_decide_eq_false_2; [done|].
      intros [?|?]%elem_of_cons; congruence.
Qed.

Section SettingsMore.

Variable json_dumps : json → string.
Variable json_loads : string → option json.
Variable isoformat : nat → string.

(** What [save_transcription_settings] does where the file can be
    written. *)
Lemma save_settings_run (self : ProjectStructure) (project_dir : Path.t)
    (settings : Dict.t json) (w : world) :
  let td := project_dir ++ ["transcription"] in
  let sf := td ++ ["settings.json"] in
  let data := Dict.set settings "processed_at" (JStr (isoformat (w_clock w))) in
  Fs.is_dir (w_fs w) td = true →
  w_fs w !! sf ≠ Some Dir →
  save_transcription_settings json_dumps isoformat self project_dir settings w
  = (Ok tt,
     World (<[sf := File (json_dumps (JObj data))]> (w_fs w)) (w_heap w)
       (S (w_clock w)) (w_calls w)).
Proof.
  intros td sf data Hd Hfree.
  unfold save_transcription_settings.
  rewrite (div_plain project_dir "transcription") by done.
  rewrite (div_plain _ "settings.json") by done.
  fold td. fold sf.
  destruct (open_write (w_fs w) td "settings.json" (json_dumps (JObj data)))
    as (fs1 & Ho & Ha); [done..|].
  fold sf in Ho, Ha.
  destruct w as [fs h clock calls]. cbn [w_fs w_heap w_clock w_calls] in *.
  cbv [mbind M_bind now open_w write fs_op set_fs w_fs w_heap w_clock w_calls].
  rewrite Ho. fold data. by rewrite Ha.
Qed.

(** X9: where the transcription directory of the project exists and no
    directory has the name [settings.json], [save_transcription_settings]
    writes to [transcription/settings.json] the serialization of the
    settings with [processed_at] set to the time of the call: a
    [processed_at] the caller passed is replaced where it stands, otherwise
    the key comes last, and every other key keeps its value and place.  The
    clock is read once and no other path changes. *)
Theorem save_settings_file (self : ProjectStructure) (project_dir : Path.t)
    (settings : Dict.t json) (w : world) :
  let td := project_dir ++ ["transcription"] in
  let sf := td ++ ["settings.json"] in
  let data := Dict.set settings "processed_at" (JStr (isoformat (w_clock w))) in
  Fs.is_dir (w_fs w) td = true →
  w_fs w !! sf ≠ Some Dir →
  save_transcription_settings json_dumps isoformat self project_dir settings w
  = (Ok tt,
     World (<[sf := File (json_dumps (JObj data))]> (w_fs w)) (w_heap w)
       (S (w_clock w)) (w_calls w))
  ∧ Dict.get data "processed_at" = Some (JStr (isoformat (w_clock w)))
  ∧ (∀ k, k ≠ "processed_at" → Dict.get data k = Dict.get settings k)
  ∧ Dict.keys data
    = if bool_decide ("processed_at" ∈ Dict.keys settings)
      then Dict.keys settings
      else Dict.keys settings ++ ["processed_at"].
Proof.
  intros td sf data Hd Hfree.
  split; [by apply save_settings_run|].
  split; [apply dict_get_set_eq|].
  split; [intros k Hk; by apply dict_get_set_ne|apply dict_keys_set].
Qed.


(** X11: text for the [json] format that does not parse makes
    [save_transcription_outputs] raise [JSONDecodeError] after the file was
    opened for writing: [{base_name}.json] is left empty, whatever it held
    before. *)
Theorem save_outputs_bad_json (self : ProjectStructure)
    (project_dirs : Dict.t Path.t) (td : Path.t) (s base_name : string)
    (rest : Dict.t content) (w : world) :
  let fp := td ++ [base_name +:+ ".json"] in
  Dict.get project_dirs "transcription_dir" = Some td →
  Fs.is_dir (w_fs w) td = true →
  plain_name base_name →
  w_fs w !! fp ≠ Some Dir →
  json_loads s = None →
  save_transcription_outputs json_dumps json_loads self project_dirs
    (("json", CStr s) :: rest) base_name w
  = (Raise JSONDecodeError, set_fs (<[fp := File ""]> (w_fs w)) w).
Proof.
  intros fp Htd Hd Hb Hfree Hs.
  destruct (file_name_plain base_name "json" Hb) as [Hp Hn]; [done..|].
  change (base_name +:+ "." +:+ "json") with (base_name +:+ ".json") in *.
  unfold save_transcription_outputs, getitem. rewrite Htd.
  cbv [mbind M_bind mret M_ret]. cbn [save_loop]. unfold save_branch.
  eval_eqb. rewrite div_plain by done. fold fp.
  destruct (open_write (w_fs w) td _ "" (plain_not_root _ Hp) Hd Hfree)
    as (fs1 & Ho & Ha).
  fold fp in Ho, Ha.
  cbv [mbind M_bind mret M_ret open_w fs_op raise]. rewrite Ho, Hs.
  rewrite (open_w_ok _ _ _ Ho). done.
Qed.

End SettingsMore.

Lemma save_settings_file_witness :
  (save_transcription_settings demo_dumps demo_isoformat demo_store
     ["audio_projects"; "local_demo"]
     [("processed_at", JStr "never"); ("model_size", JStr "base")]
     demo_world).1 = Ok tt
  ∧ file_at
      (save_transcription_settings demo_dumps demo_isoformat demo_store
         ["audio_projects"; "local_demo"]
         [("processed_at", JStr "never"); ("model_size", JStr "base")]
         demo_world).2
      ["audio_projects"; "local_demo"; "transcription"; "settings.json"]
    = Some "{processed_at,model_size}".
Proof.
  destruct (save_settings_file demo_dumps demo_isoformat demo_store
              ["audio_projects"; "local_demo"]
              [("processed_at", JStr "never"); ("model_size", JStr "base")]
              demo_world) as (H & _).
  - by vm_compute.
  - by vm_compute.
  - rewrite H. split; by vm_compute.
Defined.


Lemma save_outputs_bad_json_witness :
  save_transcription_outputs demo_dumps demo_loads demo_store demo_dirs
    [("json", CStr "{oops"); ("text", CStr "hello")] "transcript" demo_world
  = (Raise JSONDecodeError,
     set_fs (<[["audio_projects"; "local_demo"; "transcription";
                "transcript.json"] := File ""]> (w_fs demo_world)) demo_world).
Proof.
  apply (save_outputs_bad_json demo_dumps demo_loads demo_store demo_dirs
           ["audio_projects"; "local_demo"; "transcription"]);
    by vm_compute.
Defined.

(** ** Reading a project back *)

Section Info.

Variable json_dumps : json → string.
Variable isoformat : nat → string.
Variable json_load : string → outcome json.

Lemma load_if_exists_world (p : Path.t) (w : world) :
  (load_if_exists json_load p w).2 = w.
Proof.
  unfold load_if_exists, path_exists, read_json.
  cbv [mbind M_bind mret M_ret].
  destruct (Fs.node_at (w_fs w) p); cbn [negb]; [|done].
  destruct (open_r p (w_fs w)); [|done]. by destruct (json_load _).
Qed.

(** X12: [get_project_info] changes nothing, whatever it is asked and
    whether it returns or raises; and it returns [None] exactly when nothing
    has the path of the project. *)
Theorem get_project_info_none (self : ProjectStructure) (project_name : string)
    (w : world) :
  (get_project_info json_load self project_name w).2 = w
  ∧ ((get_project_info json_load self project_name w).1 = Ok None
     ↔ Fs.node_at (w_fs w) (Path.div (base_dir self) project_name) = None).
Proof.
  unfold get_project_info.
  set (pd := Path.div (base_dir self) project_name).
  cbv [mbind M_bind mret M_ret path_exists glob_star].
  destruct (Fs.node_at (w_fs w) pd) eqn:E; cbn [negb]; [|done].
  pose proof (load_if_exists_world (Path.div pd "metadata.json") w) as H1.
  destruct (load_if_exists json_load (Path.div pd "metadata.json") w)
    as [[m|e] w1]; cbn [snd] in H1; subst w1; [|done].
  pose proof (load_if_exists_world
                (Path.div (Path.div pd "transcription") "settings.json") w)
    as H2.
  destruct (load_if_exists json_load
              (Path.div (Path.div pd "transcription") "settings.json") w)
    as [[s|e] w2]; cbn [snd] in H2; subst w2; done.
Qed.

Lemma load_if_exists_absent (p : Path.t) (n : string) (w : world) :
  Path.is_root n = false →
  w_fs w !! (p ++ [n]) = None →
  load_if_exists json_load (p ++ [n]) w = (Ok None, w).
Proof.
  intros Hn Hp. unfold load_if_exists, path_exists.
  cbv [mbind M_bind mret M_ret]. rewrite node_at_child by done.
  unfold Path.t in *. by rewrite Hp.
Qed.

Lemma load_if_exists_file (p : Path.t) (n s : string) (j : json) (w : world) :
  Path.is_root n = false →
  w_fs w !! (p ++ [n]) = Some (File s) →
  json_load s = Ok j →
  load_if_exists json_load (p ++ [n]) w = (Ok (Some j), w).
Proof.
  intros Hn Hp Hj. unfold load_if_exists, path_exists, read_json, open_r.
  cbv [mbind M_bind mret M_ret].
  rewrite node_at_child by done. unfold Path.t in *. rewrite Hp. cbn [negb].
  rewrite node_at_child by done. unfold Path.t in *. rewrite Hp.
  by rewrite Hj.
Qed.

Lemma iterdir_empty fs (p : Path.t) :
  (∀ n, fs !! (p ++ [n]) = None) → Fs.iterdir fs p = [].
Proof.
  intros H. destruct (Fs.iterdir fs p) as [|n l] eqn:E; [done|].
  destruct (iterdir_lookup fs p n) as [x Hx]; [rewrite E; left|].
  by rewrite H in Hx.
Qed.

(** What [get_project_info] returns for a folder that exists, once its two
    files are read. *)
Lemma get_project_info_run (self : ProjectStructure) (n : string)
    (x : node) (m s : option json) (w : world) :
  let pd := base_dir self ++ [n] in
  plain_name n → Path.is_name n = true →
  w_fs w !! pd = Some x →
  load_if_exists json_load (pd ++ ["metadata.json"]) w = (Ok m, w) →
  load_if_exists json_load ((pd ++ ["transcription"]) ++ ["settings.json"]) w
  = (Ok s, w) →
  get_project_info json_load self n w
  = (Ok (Some {| info_name := n;
                 info_path := Path.to_str pd;
                 info_has_audio :=
                   (0 <? length (if Fs.is_dir (w_fs w) (pd ++ ["src_audio"])
                                 then Fs.iterdir (w_fs w) (pd ++ ["src_audio"])
                                 else []))%nat;
                 info_has_transcription :=
                   (0 <? length
                           (if Fs.is_dir (w_fs w) (pd ++ ["transcription"])
                            then Fs.iterdir (w_fs w) (pd ++ ["transcription"])
                            else []))%nat;
                 info_metadata := m;
                 info_transcription_settings := s |}), w).
Proof.
  intros pd Hp Hn Hx Hm Hs. unfold get_project_info.
  rewrite (div_plain _ n) by done. fold pd.
  rewrite !(div_plain pd) by done.
  rewrite (div_plain _ "settings.json") by done.
  cbv [mbind M_bind mret M_ret path_exists glob_star].
  subst pd. rewrite node_at_child by (by apply plain_not_root).
  unfold Path.t in *. rewrite Hx. cbn [negb]. by rewrite Hm, Hs.
Qed.

(** X13: a project created with metadata, where nothing had its name, is
    read back by [get_project_info] under its folder name: the name, the
    path, no audio and no transcription yet, no settings, and for the
    metadata what the JSON library reads from the file, which is the
    mapping with [created_at] and [project_type] whenever the library reads
    back what it wrote. *)
Theorem create_then_info (self : ProjectStructure) (name ptype : string)
    (l : nat) (d : Dict.t json) (w : world) :
  let folder := if String.eqb ptype "youtube" then "youtube_" +:+ name
                else "local_" +:+ name in
  let pd := base_dir self ++ [folder] in
  let d' := Dict.set (Dict.set d "created_at" (JStr (isoformat (w_clock w))))
              "project_type" (JStr ptype) in
  plain_name name →
  w_heap w !! l = Some d →
  d ≠ [] →
  Fs.is_dir (w_fs w) (base_dir self) = true →
  (∀ q, w_fs w !! (pd ++ q) = None) →
  json_load (json_dumps (JObj d')) = Ok (JObj d') →
  ∃ dirs w1,
    create_project json_dumps isoformat self name ptype (Some l) w
    = (Ok dirs, w1)
    ∧ get_project_info json_load self folder w1
      = (Ok (Some {| info_name := folder;
                     info_path := Path.to_str pd;
                     info_has_audio := false;
                     info_has_transcription := false;
                     info_metadata := Some (JObj d');
                     info_transcription_settings := None |}), w1).
Proof.
  intros folder pd d' Hname Hl Hd Hbase Hfresh Hload.
  destruct (folder_plain name ptype Hname) as (Hplain & Hisname & _).
  fold folder in Hplain, Hisname.
  set (mf := pd ++ ["metadata.json"]).
  set (fs1 := with_project (base_dir self) folder (w_fs w)).
  assert (∀ q, fs1 !! (pd ++ q)
               = if decide (q ∈ [[]; ["src_audio"]; ["transcription"]])
                 then Some Dir else None) as Hfs1.
  { intros q. subst fs1. rewrite with_project_lookup. fold pd.
    rewrite Hfresh.
    destruct (decide (q ∈ _)) as [Hq|Hq].
    - rewrite decide_True; [done|].
      rewrite !elem_of_cons, elem_of_nil in Hq.
      destruct Hq as [-> | [-> | [-> | []]]].
      + rewrite app_nil_r. left.
      + right. left.
      + right. right. left.
    - rewrite decide_False; [done|]. intros Hin. apply Hq.
      rewrite !elem_of_cons, elem_of_nil in Hin.
      rewrite !elem_of_cons.
      destruct Hin as [E | [E | [E | []]]].
      + left. rewrite <- (app_nil_r pd) in E at 2. by apply app_inv_head in E.
      + right. left. by apply app_inv_head in E.
      + right. right. left. by apply app_inv_head in E. }
  assert (Fs.is_dir fs1 pd = true) as Hpd1.
  { unfold Fs.is_dir. subst pd.
    rewrite node_at_child by (by apply plain_not_root).
    specialize (Hfs1 []). rewrite app_nil_r in Hfs1.
    unfold Path.t in *. by rewrite Hfs1. }
  destruct (open_write fs1 pd "metadata.json" (json_dumps (JObj d')))
    as (fs2 & Ho & Ha); [done|done| |].
  { specialize (Hfs1 ["metadata.json"]). unfold Path.t in *.
    by rewrite Hfs1. }
  fold mf in Ho, Ha.
  set (w1 := World (<[mf := File (json_dumps (JObj d'))]> fs1)
               (<[l := d']> (w_heap w)) (S (w_clock w)) (w_calls w)).
  exists [("project_dir", pd); ("src_audio_dir", pd ++ ["src_audio"]);
          ("transcription_dir", pd ++ ["transcription"])], w1.
  split.
  { rewrite (create_project_metadata_run json_dumps isoformat self name ptype
               l d w); [|done..|].
    - fold folder pd mf fs1 d'. by rewrite Ho, Ha.
    - intros p s Hp. fold folder pd in Hp.
      rewrite !elem_of_cons, elem_of_nil in Hp.
      destruct Hp as [-> | [-> | [-> | []]]].
      + specialize (Hfresh []). rewrite app_nil_r in Hfresh.
        unfold Path.t in *. by rewrite Hfresh.
      + unfold Path.t in *. by rewrite Hfresh.
      + unfold Path.t in *. by rewrite Hfresh. }
  assert (∀ q, q ≠ ["metadata.json"] →
               w_fs w1 !! (pd ++ q) = fs1 !! (pd ++ q)) as Hw1.
  { intros q Hq. subst w1 mf. cbn [w_fs]. rewrite lookup_insert_ne; [done|].
    intros E. by apply app_inv_head in E. }
  rewrite (get_project_info_run self folder Dir (Some (JObj d')) None w1);
    [| done | done | | | ].
  - fold pd. do 3 f_equal.
    assert (∀ a, Fs.iterdir (w_fs w1) (pd ++ [a]) = []) as Hempty.
    { intros a. apply iterdir_empty. intros n. rewrite <- app_assoc.
      destruct (decide ([a] ++ [n] = ["metadata.json"])) as [E|Hne];
        [done|].
      rewrite Hw1, Hfs1 by done. rewrite decide_False; [done|].
      rewrite !elem_of_cons, elem_of_nil. by intros [?|[?|[?|[]]]]. }
    rewrite !Hempty. by rewrite !Tauto.if_same.
  - fold pd. specialize (Hw1 []). rewrite app_nil_r in Hw1.
    rewrite Hw1 by done. specialize (Hfs1 []). rewrite app_nil_r in Hfs1.
    by rewrite Hfs1.
  - fold pd. fold mf. apply (load_if_exists_file _ _ (json_dumps (JObj d')));
      [done| |done].
    subst w1. cbn [w_fs]. by rewrite lookup_insert_eq.
  - fold pd. apply load_if_exists_absent; [done|].
    rewrite <- app_assoc. rewrite Hw1, Hfs1 by done.
    rewrite decide_False; [done|].
    rewrite !elem_of_cons, elem_of_nil. by intros [?|[?|[?|[]]]].
Qed.

(** X14: after [save_transcription_settings], [get_project_info] reports a
    transcription for the project, whether any transcript was written or
    not: [settings.json] itself sits in the transcription directory.  The
    settings it returns are what the JSON library reads from the file. *)
Theorem settings_then_info (self : ProjectStructure) (n : string)
    (settings : Dict.t json) (w : world) :
  let pd := base_dir self ++ [n] in
  let td := pd ++ ["transcription"] in
  let data := Dict.set settings "processed_at" (JStr (isoformat (w_clock w))) in
  plain_name n → Path.is_name n = true →
  w_fs w !! pd = Some Dir →
  Fs.is_dir (w_fs w) td = true →
  w_fs w !! (td ++ ["settings.json"]) ≠ Some Dir →
  w_fs w !! (pd ++ ["metadata.json"]) = None →
  json_load (json_dumps (JObj data)) = Ok (JObj data) →
  ∃ w1 has_audio,
    save_transcription_settings json_dumps isoformat self pd settings w
    = (Ok tt, w1)
    ∧ get_project_info json_load self n w1
      = (Ok (Some {| info_name := n;
                     info_path := Path.to_str pd;
                     info_has_audio := has_audio;
                     info_has_transcription := true;
                     info_metadata := None;
                     info_transcription_settings := Some (JObj data) |}), w1).
Proof.
  intros pd td data Hp Hn Hpd Htd Hsf Hmf Hload.
  set (sf := td ++ ["settings.json"]) in *.
  destruct (open_write (w_fs w) td "settings.json" (json_dumps (JObj data)))
    as (fs1 & Ho & Ha); [done..|].
  fold sf in Ho, Ha.
  set (w1 := World (<[sf := File (json_dumps (JObj data))]> (w_fs w))
               (w_heap w) (S (w_clock w)) (w_calls w)).
  assert (save_transcription_settings json_dumps isoformat self pd settings w
          = (Ok tt, w1)) as Hrun
    by (by apply save_settings_run).
  assert (sf ≠ pd) as N1.
  { subst sf td. rewrite <- app_assoc. intros E. symmetry in E.
    by apply grandchild_ne in E. }
  assert (sf ≠ pd ++ ["metadata.json"]) as N2.
  { subst sf td. rewrite <- app_assoc. intros E.
    by apply app_inv_head in E. }
  assert (sf ≠ td) as N3 by (apply child_ne).
  eexists w1, _. split; [exact Hrun|].
  rewrite (get_project_info_run self n Dir None (Some (JObj data)) w1);
    [| done | done | | | ].
  - fold pd td. do 3 f_equal.
    assert (Fs.is_dir (w_fs w1) td = true) as ->.
    { subst w1. cbn [w_fs]. by rewrite is_dir_insert_ne. }
    assert ("settings.json" ∈ Fs.iterdir (w_fs w1) td) as Hin.
    { apply (iterdir_elem _ _ _ (File (json_dumps (JObj data)))).
      subst w1. cbn [w_fs]. fold sf. by rewrite lookup_insert_eq. }
    by destruct (Fs.iterdir (w_fs w1) td); [apply elem_of_nil in Hin|].
  - fold pd. subst w1. cbn [w_fs]. rewrite lookup_insert_ne by done.
    unfold Path.t in *. by rewrite Hpd.
  - fold pd. apply load_if_exists_absent; [done|].
    subst w1. cbn [w_fs]. rewrite lookup_insert_ne by done.
    unfold Path.t in *. by rewrite Hmf.
  - fold pd td sf. apply (load_if_exists_file _ _ (json_dumps (JObj data)));
      [done| |done].
    subst w1. cbn [w_fs]. fold sf. by rewrite lookup_insert_eq.
Qed.

(** X15: every name [list_projects] returns is one [get_project_info] has
    an answer for: it returns a dictionary, or raises on a file it cannot
    read, and never returns [None]. *)
Theorem listed_project_has_info (self : ProjectStructure) (w : world)
    (names : list string) (n : string) :
  list_projects self w = (Ok names, w) →
  Fs.is_dir (w_fs w) (base_dir self) = true →
  n ∈ names →
  plain_name n →
  (get_project_info json_load self n w).1 ≠ Ok None.
Proof.
  intros Hlist Hbase Hin Hp.
  destruct (list_projects_names self w Hbase) as (names' & Hrun & _ & _ & Hn).
  assert (names' = names) as -> by congruence.
  apply Hn in Hin as [Hd Hproj].
  assert (Path.is_name n = true) as Hname.
  { unfold Path.is_name.
    destruct (String.eqb_spec n "") as [->|]; [done|].
    destruct (String.eqb_spec n ".") as [->|]; done. }
  unfold get_project_info.
  rewrite (div_plain _ n) by done.
  cbv [mbind M_bind mret M_ret path_exists glob_star].
  rewrite node_at_child by (by apply plain_not_root).
  unfold Path.t in *. rewrite Hd. cbn [negb].
  set (pd := base_dir self ++ [n]).
  pose proof (load_if_exists_world (Path.div pd "metadata.json") w) as H1.
  destruct (load_if_exists json_load (Path.div pd "metadata.json") w)
    as [[m|e] w1]; cbn [snd] in H1; subst w1; [|done].
  by destruct (load_if_exists json_load _ w) as [[s|e] w2].
Qed.

End Info.

Lemma create_then_info_witness :
  ∃ dirs w1,
    create_project kv_dumps demo_isoformat demo_store "abc" "youtube"
      (Some 0%nat) titled_world = (Ok dirs, w1)
    ∧ get_project_info kv_load demo_store "youtube_abc" w1
      = (Ok (Some {| info_name := "youtube_abc";
                     info_path := "audio_projects/youtube_abc";
                     info_has_audio := false;
                     info_has_transcription := false;
                     info_metadata :=
                       Some (JObj [("title", JStr "Talk");
                                   ("created_at", JStr "2024-01-01T00:00:00");
                                   ("project_type", JStr "youtube")]);
                     info_transcription_settings := None |}), w1).
Proof.
  apply (create_then_info kv_dumps demo_isoformat kv_load demo_store "abc"
           "youtube" 0%nat [("title", JStr "Talk")] titled_world).
  - by vm_compute.
  - by vm_compute.
  - done.
  - by vm_compute.
  - intros q.
    change (w_fs titled_world) with (w_fs store_world).
    assert (w_fs store_world = {[ ["audio_projects"] := Dir ]}) as ->
      by reflexivity.
    by apply lookup_singleton_ne.
  - by vm_compute.
Defined.

Lemma settings_then_info_witness :
  ∃ w1 has_audio,
    save_transcription_settings kv_dumps demo_isoformat demo_store
      ["audio_projects"; "local_demo"] [("model_size", JStr "base")] demo_world
    = (Ok tt, w1)
    ∧ get_project_info kv_load demo_store "local_demo" w1
      = (Ok (Some {| info_name := "local_demo";
                     info_path := "audio_projects/local_demo";
                     info_has_audio := has_audio;
                     info_has_transcription := true;
                     info_metadata := None;
                     info_transcription_settings :=
                       Some (JObj [("model_size", JStr "base");
                                   ("processed_at",
                                    JStr "2024-01-01T00:00:00")]) |}), w1).
Proof.
  apply (settings_then_info kv_dumps demo_isoformat kv_load demo_store
           "local_demo" [("model_size", JStr "base")] demo_world);
    by vm_compute.
Defined.

Lemma listed_project_has_info_witness :
  list_projects demo_store demo_world = (Ok ["local_demo"], demo_world)
  ∧ (get_project_info kv_load demo_store "local_demo" demo_world).1 ≠ Ok None.
Proof.
  assert (list_projects demo_store demo_world
          = (Ok ["local_demo"], demo_world)) as Hlist by reflexivity.
  split; [exact Hlist|].
  apply (listed_project_has_info kv_load demo_store demo_world ["local_demo"]
           "local_demo" Hlist).
  - by vm_compute.
  - left.
  - by vm_compute.
Defined.

(** ** A path and its text *)

Lemma split_nonempty c (s : string) : Path.split c s ≠ [].
Proof.
  induction s as [|a s IH]; [done|]. simpl.
  destruct (Ascii.eqb a c); [done|]. by destruct (Path.split c s).
Qed.

Lemma split_parts_plain (s : string) : Forall plain_name (Path.split "/" s).
Proof.
  induction s as [|a s IH]; [by repeat constructor|]. simpl.
  destruct (Ascii.eqb_spec a "/") as [->|Hne]; [by constructor|].
  destruct (Path.split "/" s) as [|x xs] eqn:E;
    [by apply split_nonempty in E|].
  apply Forall_cons in IH as [Hx Hxs]. constructor; [|done].
  unfold plain_name, has_char in *. simpl.
  destruct (Ascii.eqb_spec "/" a) as [E'|_]; [by rewrite E' in Hne|done].
Qed.

Lemma split_plain_app (a b : string) :
  plain_name a →
  Path.split "/" (a +:+ String "/" b) = a :: Path.split "/" b.
Proof.
  unfold plain_name, has_char. induction a as [|c a IH]; intros Ha.
  - done.
  - simpl in Ha. apply orb_false_elim in Ha as [Hc Ha].
    rewrite app_cons. simpl. rewrite Ascii.eqb_sym, Hc, (IH Ha). done.
Qed.

Lemma split_concat (names : list string) :
  names ≠ [] → Forall plain_name names →
  Path.split "/" (String.concat "/" names) = names.
Proof.
  induction names as [|x [|y l] IH]; intros Hne Hall; [done| |].
  - simpl. apply split_plain. by apply Forall_cons in Hall as [? _].
  - apply Forall_cons in Hall as [Hx Hall].
    change (String.concat "/" (x :: y :: l))
      with (x +:+ String "/" (String.concat "/" (y :: l))).
    rewrite split_plain_app by done. by rewrite IH.
Qed.

Lemma filter_all {A} (P : A → Prop) `{∀ x, Decision (P x)} (l : list A) :
  Forall P l → filter P l = l.
Proof.
  induction 1 as [|x l Hx Hl IH]; [done|].
  by rewrite filter_cons_True, IH.
Qed.

Lemma plain_head (c : string) (rest : string) :
  plain_name c → Path.is_name c = true →
  ∃ a c', c = String a c' ∧ a ≠ "/"%char.
Proof.
  intros Hp Hn. destruct c as [|a c']; [done|]. exists a, c'. split; [done|].
  unfold plain_name, has_char in Hp. simpl in Hp.
  apply orb_false_elim in Hp as [Hp _]. intros ->. done.
Qed.

(** The parts [Path(s)] keeps are names without a slash. *)
Lemma parse_names (s : string) :
  let names := filter (λ c, Path.is_name c = true) (Path.split "/" s) in
  Forall plain_name names ∧ Forall (λ c, Path.is_name c = true) names.
Proof.
  intros names. split.
  - subst names. apply Forall_forall. intros c [_ Hc]%list_elem_of_filter.
    pose proof (split_parts_plain s) as H. rewrite Forall_forall in H. auto.
  - subst names. apply Forall_forall. by intros c [Hc _]%list_elem_of_filter.
Qed.

Lemma root_of_cases (s : string) :
  Path.root_of s = "" ∨ Path.root_of s = "/" ∨ Path.root_of s = "//".
Proof.
  unfold Path.root_of.
  destruct (Str.startswith "///" s); [auto|].
  destruct (Str.startswith "//" s); [auto|].
  destruct (Str.startswith "/" s); auto.
Qed.

Lemma parse_concat (r c : string) (rest : list string) :
  Forall plain_name (c :: rest) →
  Forall (λ c, Path.is_name c = true) (c :: rest) →
  r = "" ∨ r = "/" ∨ r = "//" →
  Path.parse (r +:+ String.concat "/" (c :: rest))
  = match r with
    | "" => c :: rest
    | _ => r :: c :: rest
    end.
Proof.
  intros Hplain Hname Hr.
  assert (filter (λ c, Path.is_name c = true)
            (Path.split "/" (String.concat "/" (c :: rest))) = c :: rest)
    as Hsplit.
  { rewrite split_concat by done. by apply filter_all. }
  pose proof Hplain as Hp. pose proof Hname as Hn.
  apply Forall_cons in Hp as [Hc _]. apply Forall_cons in Hn as [Hcn _].
  destruct (plain_head c "" Hc Hcn) as (a & c' & -> & Ha).
  assert (Ascii.eqb "/" a = false) as Hneq
    by (destruct (Ascii.eqb_spec "/" a); congruence).
  unfold Path.parse.
  destruct Hr as [-> | [-> | ->]].
  - rewrite app_empty_l, Hsplit.
    assert (Path.root_of (String.concat "/" (String a c' :: rest)) = "")
      as ->; [|done].
    unfold Path.root_of. destruct rest; simpl; by rewrite Hneq.
  - change (Path.split "/" ("/" +:+ ?x)) with ("" :: Path.split "/" x).
    rewrite filter_cons_False by done. rewrite Hsplit.
    assert (Path.root_of ("/" +:+ String.concat "/" (String a c' :: rest))
            = "/") as ->; [|done].
    unfold Path.root_of. destruct rest; simpl; by rewrite Hneq.
  - change (Path.split "/" ("//" +:+ ?x))
      with ("" :: "" :: Path.split "/" x).
    rewrite !filter_cons_False by done. rewrite Hsplit.
    assert (Path.root_of ("//" +:+ String.concat "/" (String a c' :: rest))
            = "//") as ->; [|done].
    unfold Path.root_of. destruct rest; simpl; by rewrite Hneq.
Qed.

(** [Path(str(p)) == p] for every path [p = Path(s)]. *)
Lemma parse_to_str (s : string) :
  Path.parse (Path.to_str (Path.parse s)) = Path.parse s.
Proof.
  unfold Path.parse at 2 3.
  destruct (parse_names s) as [Hplain Hname].
  set (names := filter (λ c, Path.is_name c = true) (Path.split "/" s)) in *.
  clearbody names.
  destruct (root_of_cases s) as [-> | [-> | ->]].
  - destruct names as [|c rest]; [done|].
    assert (Path.to_str (c :: rest) = "" +:+ String.concat "/" (c :: rest))
      as ->.
    { unfold Path.to_str. apply Forall_cons in Hplain as [Hc _].
      by rewrite (plain_not_root c). }
    by rewrite parse_concat by auto.
  - change (Path.to_str ("/" :: names)) with ("/" +:+ String.concat "/" names).
    destruct names as [|c rest]; [done|]. by rewrite parse_concat by auto.
  - change (Path.to_str ("//" :: names))
      with ("//" +:+ String.concat "/" names).
    destruct names as [|c rest]; [done|]. by rewrite parse_concat by auto.
Qed.

(** ** Taking the audio into the project *)

Lemma name_child (q : Path.t) (n : string) :
  Path.is_root n = false → Path.name (q ++ [n]) = n.
Proof.
  intros Hn. unfold Path.name. destruct q as [|c q'].
  - simpl. by rewrite Hn.
  - cbn [app]. destruct (Path.is_root c).
    + apply last_last.
    + rewrite app_comm_cons. apply last_last.
Qed.

(** The last part of a parsed path, when it is no root, is a name without a
    slash. *)
Lemma parse_last (s : string) (q : Path.t) (n : string) :
  Path.parse s = q ++ [n] → Path.is_root n = false →
  plain_name n ∧ Path.is_name n = true.
Proof.
  intros Hs Hn. destruct (parse_names s) as [Hplain Hname].
  unfold Path.parse in Hs.
  set (names := filter (λ c, Path.is_name c = true) (Path.split "/" s)) in *.
  assert (n ∈ names) as Hin.
  { destruct (root_of_cases s) as [E | [E | E]]; rewrite E in Hs.
    - rewrite Hs. apply elem_of_app. right. left.
    - destruct q as [|c q']; simplify_eq/=.
      rewrite H0. apply elem_of_app. right. left.
    - destruct q as [|c q']; simplify_eq/=.
      rewrite H0. apply elem_of_app. right. left. }
  rewrite Forall_forall in Hplain, Hname. auto.
Qed.

Lemma is_dir_child_false fs (p : Path.t) (n : string) :
  Path.is_root n = false → fs !! (p ++ [n]) ≠ Some Dir →
  Fs.is_dir fs (p ++ [n]) = false.
Proof.
  intros Hn H. unfold Fs.is_dir. rewrite node_at_child by done.
  by destruct (fs !! (p ++ [n])) as [[|?]|].
Qed.

Section Audio.

Variable move_tree : Path.t → Path.t → M unit.

(** The copy of an audio file into a project. *)
Lemma copy_audio_run (self : ProjectStructure) (audio_file : string)
    (project_dirs : Dict.t Path.t) (sd q : Path.t) (n s : string) (w : world) :
  Path.parse audio_file = q ++ [n] →
  Path.is_root n = false →
  Dict.get project_dirs "src_audio_dir" = Some sd →
  w_fs w !! (q ++ [n]) = Some (File s) →
  Fs.is_dir (w_fs w) sd = true →
  w_fs w !! (sd ++ [n]) ≠ Some Dir →
  q ≠ sd →
  ∃ w',
    move_audio_to_project move_tree self audio_file project_dirs true w
    = (Ok (sd ++ [n]), w')
    ∧ w' = set_fs (<[sd ++ [n] := File s]> (w_fs w)) w
    ∧ file_at w' (sd ++ [n]) = Some s
    ∧ file_at w' (q ++ [n]) = Some s.
Proof.
  intros Hparse Hn Hsd Hsrc Hd Hfree Hne.
  destruct (parse_last _ _ _ Hparse Hn) as [Hplain Hname].
  assert (q ++ [n] ≠ sd ++ [n]) as Hne' by (intros E%app_inv_tail; done).
  destruct (open_write (w_fs w) sd n s Hn Hd Hfree) as (fs1 & Ho & Ha).
  eexists. split; [|split; [reflexivity|]].
  - unfold move_audio_to_project, getitem. rewrite Hsd.
    cbv [mbind M_bind mret M_ret]. rewrite Hparse.
    rewrite name_child, div_plain by done. unfold shutil_copy2.
    rewrite is_dir_child_false by done.
    unfold samefile. rewrite bool_decide_eq_false_2 by done. cbn [andb].
    unfold open_r. rewrite node_at_child by done.
    unfold Path.t in *. by rewrite Hsrc, Ho, Ha.
  - unfold file_at. cbn [w_fs set_fs]. rewrite lookup_insert_eq.
    rewrite lookup_insert_ne by done. unfold Path.t in *. by rewrite Hsrc.
Qed.

(** X16: with [keep_original], an audio file that is there is copied into
    the audio directory of the project under its own name, over a regular
    file of that name that may be there; the path of the copy is returned,
    the original stays where it is with its content, and no other path
    changes. *)
Theorem copy_audio_to_project (self : ProjectStructure) (audio_file : string)
    (project_dirs : Dict.t Path.t) (sd q : Path.t) (n s : string) (w : world) :
  Path.parse audio_file = q ++ [n] →
  Path.is_root n = false →
  Dict.get project_dirs "src_audio_dir" = Some sd →
  w_fs w !! (q ++ [n]) = Some (File s) →
  Fs.is_dir (w_fs w) sd = true →
  w_fs w !! (sd ++ [n]) ≠ Some Dir →
  q ≠ sd →
  ∃ w',
    move_audio_to_project move_tree self audio_file project_dirs true w
    = (Ok (sd ++ [n]), w')
    ∧ w' = set_fs (<[sd ++ [n] := File s]> (w_fs w)) w
    ∧ file_at w' (sd ++ [n]) = Some s
    ∧ file_at w' (q ++ [n]) = Some s.
Proof. apply copy_audio_run. Qed.

(** X17: without [keep_original], an audio file that is there is moved
    into the audio directory of the project under its own name, over a
    regular file of that name that may be there: the new path is returned
    and holds the content, nothing is left at the old path, and no other
    path changes. *)
Theorem move_audio_to_project_moves (self : ProjectStructure)
    (audio_file : string) (project_dirs : Dict.t Path.t) (sd q : Path.t)
    (n s : string) (w : world) :
  Path.parse audio_file = q ++ [n] →
  Path.is_root n = false →
  Dict.get project_dirs "src_audio_dir" = Some sd →
  w_fs w !! (q ++ [n]) = Some (File s) →
  Fs.is_dir (w_fs w) sd = true →
  w_fs w !! (sd ++ [n]) ≠ Some Dir →
  q ≠ sd →
  ∃ w',
    move_audio_to_project move_tree self audio_file project_dirs false w
    = (Ok (sd ++ [n]), w')
    ∧ w' = set_fs (delete (q ++ [n]) (<[sd ++ [n] := File s]> (w_fs w))) w
    ∧ file_at w' (sd ++ [n]) = Some s
    ∧ w_fs w' !! (q ++ [n]) = None.
Proof.
  intros Hparse Hn Hsd Hsrc Hd Hfree Hne.
  destruct (parse_last _ _ _ Hparse Hn) as [Hplain Hname].
  assert (q ++ [n] ≠ sd ++ [n]) as Hne' by (intros E%app_inv_tail; done).
  destruct (open_write (w_fs w) sd n s Hn Hd Hfree) as (fs1 & Ho & Ha).
  eexists. split; [|split; [reflexivity|]].
  - unfold move_audio_to_project, getitem. rewrite Hsd.
    cbv [mbind M_bind mret M_ret]. rewrite parse_to_str, Hparse.
    rewrite name_child, div_plain by done. unfold shutil_move.
    rewrite is_dir_child_false by done. cbn [andb].
    unfold samefile. rewrite bool_decide_eq_false_2 by done. cbn [andb].
    unfold open_r. rewrite node_at_child by done.
    unfold Path.t in *. by rewrite Hsrc, Ho, Ha.
  - unfold file_at. cbn [w_fs set_fs]. rewrite lookup_delete_eq.
    rewrite lookup_delete_ne by done. by rewrite lookup_insert_eq.
Qed.

(** An audio file that is not there. *)
Lemma move_audio_missing_run (self : ProjectStructure) (audio_file : string)
    (project_dirs : Dict.t Path.t) (sd q : Path.t) (n : string)
    (keep_original : bool) (w : world) :
  Path.parse audio_file = q ++ [n] →
  Path.is_root n = false →
  Dict.get project_dirs "src_audio_dir" = Some sd →
  w_fs w !! (q ++ [n]) = None →
  Fs.is_dir (w_fs w) q = true →
  w_fs w !! (sd ++ [n]) ≠ Some Dir →
  move_audio_to_project move_tree self audio_file project_dirs keep_original w
  = (Raise (FileNotFoundError (Path.to_str (q ++ [n]))), w).
Proof.
  intros Hparse Hn Hsd Hsrc Hq Hfree.
  destruct (parse_last _ _ _ Hparse Hn) as [Hplain Hname].
  assert (open_r (q ++ [n]) (w_fs w)
          = Raise (FileNotFoundError (Path.to_str (q ++ [n])))) as Hopen.
  { unfold open_r, Fs.parent_check. rewrite node_at_child, parent_child by done.
    unfold Fs.is_dir in Hq. unfold Path.t in *. rewrite Hsrc.
    by destruct (Fs.node_at (w_fs w) q) as [[|?]|]. }
  assert (samefile (w_fs w) (q ++ [n]) (sd ++ [n]) = false) as Hsame.
  { unfold samefile. rewrite node_at_child by done.
    unfold Path.t in *. rewrite Hsrc. apply andb_false_r. }
  unfold move_audio_to_project, getitem. rewrite Hsd.
  cbv [mbind M_bind mret M_ret]. rewrite parse_to_str, Hparse.
  rewrite name_child, div_plain by done.
  destruct keep_original.
  - unfold shutil_copy2. rewrite is_dir_child_false by done.
    by rewrite Hsame, Hopen.
  - unfold shutil_move. rewrite is_dir_child_false by done. cbn [andb].
    rewrite Hopen. rewrite node_at_child by done.
    unfold Path.t in *. by rewrite Hsrc.
Qed.

(** X18: when nothing is at the path of the audio file (in a directory
    that exists) and the place in the project is not taken by a directory,
    [move_audio_to_project] raises [FileNotFoundError] for the audio file,
    with and without [keep_original], and changes nothing. *)
Theorem move_audio_missing (self : ProjectStructure) (audio_file : string)
    (project_dirs : Dict.t Path.t) (sd q : Path.t) (n : string)
    (keep_original : bool) (w : world) :
  Path.parse audio_file = q ++ [n] →
  Path.is_root n = false →
  Dict.get project_dirs "src_audio_dir" = Some sd →
  w_fs w !! (q ++ [n]) = None →
  Fs.is_dir (w_fs w) q = true →
  w_fs w !! (sd ++ [n]) ≠ Some Dir →
  move_audio_to_project move_tree self audio_file project_dirs keep_original w
  = (Raise (FileNotFoundError (Path.to_str (q ++ [n]))), w).
Proof. apply move_audio_missing_run. Qed.

(** X19: an audio file that already lies in the audio directory of the
    project cannot be taken in with [keep_original]: the copy onto itself
    raises [shutil.SameFileError]; without [keep_original] the call returns
    the path.  Nothing changes either way. *)
Theorem move_audio_in_place (self : ProjectStructure) (audio_file : string)
    (project_dirs : Dict.t Path.t) (sd : Path.t) (n s : string) (w : world) :
  Path.parse audio_file = sd ++ [n] →
  Path.is_root n = false →
  Dict.get project_dirs "src_audio_dir" = Some sd →
  w_fs w !! (sd ++ [n]) = Some (File s) →
  move_audio_to_project move_tree self audio_file project_dirs true w
  = (Raise (CollaboratorError "shutil.SameFileError"), w)
  ∧ move_audio_to_project move_tree self audio_file project_dirs false w
    = (Ok (sd ++ [n]), w).
Proof.
  intros Hparse Hn Hsd Hsrc.
  destruct (parse_last _ _ _ Hparse Hn) as [Hplain Hname].
  assert (Fs.is_dir (w_fs w) (sd ++ [n]) = false) as Hnd.
  { apply is_dir_child_false; [done|]. unfold Path.t in *. by rewrite Hsrc. }
  assert (samefile (w_fs w) (sd ++ [n]) (sd ++ [n]) = true) as Hsame.
  { unfold samefile. rewrite bool_decide_eq_true_2 by done.
    rewrite node_at_child by done. unfold Path.t in *. by rewrite Hsrc. }
  unfold move_audio_to_project, getitem. rewrite Hsd.
  cbv [mbind M_bind mret M_ret]. rewrite parse_to_str, Hparse.
  rewrite name_child, div_plain by done. split.
  - unfold shutil_copy2. by rewrite Hnd, Hsame.
  - unfold shutil_move. rewrite Hnd. cbn [andb].
    unfold open_r. rewrite node_at_child by done.
    unfold Path.t in *. by rewrite Hsrc, Hsame.
Qed.

End Audio.

Lemma copy_audio_to_project_witness :
  ∃ w',
    move_audio_to_project demo_move_tree demo_store "talk.mp3" demo_dirs true
      talk_world
    = (Ok (["audio_projects"; "local_demo"; "src_audio"] ++ ["talk.mp3"]), w')
    ∧ w' = set_fs (<[["audio_projects"; "local_demo"; "src_audio"]
                     ++ ["talk.mp3"] := File "RIFF"]> (w_fs talk_world))
             talk_world
    ∧ file_at w' (["audio_projects"; "local_demo"; "src_audio"]
                  ++ ["talk.mp3"]) = Some "RIFF"
    ∧ file_at w' ([] ++ ["talk.mp3"]) = Some "RIFF".
Proof.
  apply (copy_audio_to_project demo_move_tree demo_store "talk.mp3"
           demo_dirs ["audio_projects"; "local_demo"; "src_audio"] []
           "talk.mp3" "RIFF" talk_world).
  - reflexivity.
  - reflexivity.
  - reflexivity.
  - by vm_compute.
  - by vm_compute.
  - by vm_compute.
  - done.
Defined.

Lemma move_audio_to_project_moves_witness :
  ∃ w',
    move_audio_to_project demo_move_tree demo_store "talk.mp3" demo_dirs false
      talk_world
    = (Ok (["audio_projects"; "local_demo"; "src_audio"] ++ ["talk.mp3"]), w')
    ∧ w' = set_fs (delete ([] ++ ["talk.mp3"])
                     (<[["audio_projects"; "local_demo"; "src_audio"]
                        ++ ["talk.mp3"] := File "RIFF"]> (w_fs talk_world)))
             talk_world
    ∧ file_at w' (["audio_projects"; "local_demo"; "src_audio"]
                  ++ ["talk.mp3"]) = Some "RIFF"
    ∧ w_fs w' !! ([] ++ ["talk.mp3"]) = None.
Proof.
  apply (move_audio_to_project_moves demo_move_tree demo_store "talk.mp3"
           demo_dirs ["audio_projects"; "local_demo"; "src_audio"] []
           "talk.mp3" "RIFF" talk_world).
  - reflexivity.
  - reflexivity.
  - reflexivity.
  - by vm_compute.
  - by vm_compute.
  - by vm_compute.
  - done.
Defined.

Lemma move_audio_missing_witness :
  move_audio_to_project demo_move_tree demo_store "talk.mp3" demo_dirs true
    demo_world
  = (Raise (FileNotFoundError "talk.mp3"), demo_world).
Proof.
  apply (move_audio_missing demo_move_tree demo_store "talk.mp3" demo_dirs
           ["audio_projects"; "local_demo"; "src_audio"] [] "talk.mp3" true
           demo_world); by vm_compute.
Defined.

Lemma move_audio_in_place_witness :
  move_audio_to_project demo_move_tree demo_store
    "audio_projects/local_demo/src_audio/talk.mp3" demo_dirs true
    taken_in_world
  = (Raise (CollaboratorError "shutil.SameFileError"), taken_in_world)
  ∧ move_audio_to_project demo_move_tree demo_store
      "audio_projects/local_demo/src_audio/talk.mp3" demo_dirs false
      taken_in_world
    = (Ok ["audio_projects"; "local_demo"; "src_audio"; "talk.mp3"],
       taken_in_world).
Proof.
  apply (move_audio_in_place demo_move_tree demo_store
           "audio_projects/local_demo/src_audio/talk.mp3" demo_dirs
           ["audio_projects"; "local_demo"; "src_audio"] "talk.mp3" "RIFF"
           taken_in_world); by vm_compute.
Defined.

(** ** The orchestrator on the project layout *)

Section OrchestratorMore.

Variable json_dumps : json → string.
Variable json_loads : string → option json.
Variable isoformat : nat → string.
Variable strftime : nat → string.
Variable whisper :
  string → string → option string → gmap Path.t node → outcome transcription.

Lemma output_contents_spec (fmt : string) (r : transcription) :
  let items := output_contents_of fmt r in
  NoDup (Dict.keys items)
  ∧ (∀ tag c, (tag, c) ∈ items →
       recognized tag = true ∧ wanted fmt tag = true
       ∧ content_text json_dumps json_loads tag c
         = Some (output_text json_dumps r tag))
  ∧ (∀ tag, recognized tag = true → wanted fmt tag = true →
       ∃ c, (tag, c) ∈ items).
Proof.
  unfold output_contents_of, wanted.
  destruct (str_in fmt ["text"; "all"]) eqn:B1;
    destruct (str_in fmt ["json"; "all"]) eqn:B2;
    destruct (str_in fmt ["srt"; "all"]) eqn:B3;
    destruct (str_in fmt ["vtt"; "all"]) eqn:B4;
    cbn [Dict.set]; eval_eqb; cbn [Dict.set]; eval_eqb; cbn [Dict.set];
    eval_eqb; cbv zeta;
    (split; [apply (bool_decide_unpack _); by vm_compute|]);
    (split;
     [intros tag c Hin;
      repeat (apply elem_of_cons in Hin as [Hin|Hin];
              [injection Hin as -> ->; by repeat split|]);
      by apply elem_of_nil in Hin
     |intros tag Ht Hw;
      destruct (recognized_cases tag Ht) as [-> | [-> | [-> | ->]]];
      first [congruence | eexists; repeat first [left | right]]]).
Qed.

(** Saving outputs touches nothing but files. *)
Lemma save_branch_set_fs td base tag c fp w out w' :
  save_branch json_dumps json_loads td base tag c fp w = (out, w') →
  ∃ fs, w' = set_fs fs w.
Proof.
  assert (∀ p (k : M (option Path.t)),
            (∀ w1 o w2, k w1 = (o, w2) → ∃ fs, w2 = set_fs fs w1) →
            ∀ o w2, (open_w p;; k) w = (o, w2) → ∃ fs, w2 = set_fs fs w)
    as Hopen.
  { intros p k Hk o w2. cbv [mbind M_bind open_w fs_op].
    destruct (Fs.open_w p (w_fs w)) as [fs1|e].
    - intros H. apply Hk in H as [fs ->]. by exists fs.
    - intros H. injection H as _ <-. exists (w_fs w). by destruct w. }
  assert (∀ p c,
            ∀ w1 o w2, (write_content p c;; mret (Some p)) w1 = (o, w2) →
                       ∃ fs, w2 = set_fs fs w1) as Hwrite.
  { intros p c' w1 o w2. destruct c' as [s|j];
      cbv [mbind M_bind mret M_ret write_content write fs_op raise];
      intros H; injection H as _ <-; [by eexists|].
    exists (w_fs w1). by destruct w1. }
  unfold save_branch.
  destruct (String.eqb tag "text"); [by apply Hopen, Hwrite|].
  destruct (String.eqb tag "json").
  { apply Hopen. intros w1 o w2.
    cbv [mbind M_bind mret M_ret write fs_op raise].
    destruct c as [s|j]; [destruct (json_loads s)|];
      intros H; injection H as _ <-; try (by eexists).
    exists (w_fs w1). by destruct w1. }
  destruct (String.eqb tag "srt"); [by apply Hopen, Hwrite|].
  destruct (String.eqb tag "vtt"); [by apply Hopen, Hwrite|].
  intros H. injection H as _ <-. exists (w_fs w). by destruct w.
Qed.

Lemma save_loop_set_fs td base items :
  ∀ fp saved w out w',
  save_loop json_dumps json_loads td base items fp saved w = (out, w') →
  ∃ fs, w' = set_fs fs w.
Proof.
  induction items as [|[tag c] items IH]; intros fp saved w out w' H.
  - injection H as _ <-. exists (w_fs w). by destruct w.
  - cbn [save_loop] in H. cbv [mbind M_bind] in H.
    destruct (save_branch json_dumps json_loads td base tag c fp w)
      as [[fp'|e] w1] eqn:Eb;
      apply save_branch_set_fs in Eb as [fs1 ->].
    + destruct fp' as [q|].
      * apply IH in H as [fs ->]. by exists fs.
      * injection H as _ <-. by exists fs1.
    + injection H as _ <-. by exists fs1.
Qed.

(** The project layout of [transcribe_audio], step by step. *)
Lemma transcribe_audio_project_run (self : AudioTranscriber)
    (pm : ProjectStructure) (audio_path : string) (language : option string)
    (output_format : string) (dirs : Dict.t Path.t) (pd td : Path.t)
    (r : transcription) (w : world) :
  let sf := (pd ++ ["transcription"]) ++ ["settings.json"] in
  let settings :=
    Dict.set
      [("model_size", JStr (model_size self));
       ("language", match language with Some l => JStr l | None => JNull end);
       ("output_format", JStr output_format);
       ("audio_file", JStr audio_path)]
      "processed_at" (JStr (isoformat (w_clock w))) in
  use_project_structure self = true →
  project_manager self = Some pm →
  Fs.exists_ (w_fs w) audio_path = true →
  whisper (model_size self) audio_path language (w_fs w) = Ok r →
  Dict.get dirs "project_dir" = Some pd →
  Dict.get dirs "transcription_dir" = Some td →
  Fs.is_dir (w_fs w) (pd ++ ["transcription"]) = true →
  Fs.is_dir (w_fs w) td = true →
  w_fs w !! sf ≠ Some Dir →
  (∀ tag, recognized tag = true →
          w_fs w !! output_path td "transcript" tag ≠ Some Dir) →
  ∃ res w',
    transcribe_audio json_dumps json_loads isoformat strftime whisper self
      audio_path language output_format (Some dirs) w = (Ok res, w')
    ∧ res_text res = t_text r
    ∧ res_language res = default "unknown" (t_language r)
    ∧ res_duration res = default 0%Q (t_duration r)
    ∧ res_segments res = t_segments r
    ∧ file_at w' sf = Some (json_dumps (JObj settings))
    ∧ (∀ tag, recognized tag = true →
         if wanted output_format tag
         then file_at w' (output_path td "transcript" tag)
              = Some (output_text json_dumps r tag)
              ∧ Dict.get (res_output_files res) tag
                = Some (Path.to_str (output_path td "transcript" tag))
         else w_fs w' !! output_path td "transcript" tag
              = w_fs w !! output_path td "transcript" tag
              ∧ Dict.get (res_output_files res) tag = None)
    ∧ (∀ k, recognized k = false → Dict.get (res_output_files res) k = None)
    ∧ (∀ p, p ≠ sf →
            (∀ tag, recognized tag = true →
                    p ≠ output_path td "transcript" tag) →
            w_fs w' !! p = w_fs w !! p)
    ∧ w_heap w' = w_heap w
    ∧ w_clock w' = S (w_clock w)
    ∧ w_calls w'
      = WhisperCall (model_size self) audio_path language :: w_calls w.
Proof.
  intros sf settings Huse Hpm Hexists Hwhisper Hpd Htd Hdp Hdt Hsf Hfree.
  set (call := WhisperCall (model_size self) audio_path language).
  set (w1 := World (w_fs w) (w_heap w) (w_clock w) (call :: w_calls w)).
  set (w2 := World (<[sf := File (json_dumps (JObj settings))]> (w_fs w))
               (w_heap w) (S (w_clock w)) (call :: w_calls w)).
  set (items := output_contents_of output_format r).
  destruct (output_contents_spec output_format r) as (Hnd & Hitems & Hall).
  fold items in Hnd, Hitems, Hall.
  assert (∀ tag, recognized tag = true →
            sf ≠ output_path td "transcript" tag) as Hsfne.
  { intros tag Ht E. unfold output_path in E. subst sf.
    apply (f_equal (λ l, List.last l "")) in E. rewrite !last_last in E.
    destruct (recognized_cases tag Ht) as [-> | [-> | [-> | ->]]]; done. }
  assert (td ≠ sf) as Htdsf.
  { intros E. rewrite E in Hdt. subst sf.
    rewrite is_dir_child_false in Hdt; done. }
  destruct (save_loop_spec json_dumps json_loads td "transcript"
              ltac:(done) items None [] w2)
    as (saved & w' & Hrun & Hframe & Hkeys & Hres).
  { subst w2. cbn [w_fs]. by rewrite is_dir_insert_ne. }
  { done. }
  { intros tag c Hin Ht. destruct (Hitems tag c Hin) as (_ & _ & Hc).
    split; [by rewrite Hc|]. subst w2. cbn [w_fs].
    rewrite lookup_insert_ne by (by apply Hsfne). by apply Hfree. }
  { intros _ tag c rest E. apply (Hitems tag c). rewrite E. left. }
  assert (transcribe_audio json_dumps json_loads isoformat strftime whisper
            self audio_path language output_format (Some dirs) w
          = (Ok {| res_text := t_text r;
                   res_language := default "unknown" (t_language r);
                   res_duration := default 0%Q (t_duration r);
                   res_output_files := saved;
                   res_segments := t_segments r |}, w')) as Hmain.
  { unfold transcribe_audio.
    cbv [mbind M_bind mret M_ret os_path_exists raise model_transcribe].
    rewrite Hexists. cbn [negb]. rewrite Hwhisper. rewrite Huse.
    destruct dirs as [|kv dirs']; [done|].
    unfold transcribe_to_project, getattr, getitem. rewrite Hpm, Hpd.
    cbv [mbind M_bind mret M_ret]. fold call. fold w1.
    rewrite (save_settings_run json_dumps isoformat pm pd _ w1) by done.
    change (World _ (w_heap w1) (S (w_clock w1)) (w_calls w1)) with w2.
    change (if str_in output_format ["vtt"; "all"] then _ else _)
      with items.
    unfold save_transcription_outputs, getitem. rewrite Htd.
    cbv [mbind M_bind mret M_ret]. by rewrite Hrun. }
  eexists _, w'. split; [exact Hmain|]. cbn [res_text res_language
    res_duration res_segments res_output_files].
  split; [done|]. split; [done|]. split; [done|]. split; [done|].
  assert (∀ p, (∀ tag, recognized tag = true →
                       p ≠ output_path td "transcript" tag) →
               w_fs w' !! p = w_fs w2 !! p) as Hframe'.
  { intros p Hp. apply Hframe. intros tag c _ Ht. by apply Hp. }
  split.
  { unfold file_at. rewrite Hframe' by (by apply Hsfne).
    subst w2. cbn [w_fs]. by rewrite lookup_insert_eq. }
  assert (∀ tag, recognized tag = true → wanted output_format tag = false →
                 tag ∉ Dict.keys items) as Hnot.
  { intros tag Ht Hw (kv & -> & Hin)%list_elem_of_fmap.
    destruct kv as [k c]. destruct (Hitems k c Hin) as (_ & Hw' & _).
    cbn [fst] in Hw. congruence. }
  split.
  { intros tag Ht. destruct (wanted output_format tag) eqn:Hw.
    - destruct (Hall tag Ht Hw) as [c Hin].
      destruct (Hres tag c Hin Ht) as (text & Hc & Hfile & Hget).
      destruct (Hitems tag c Hin) as (_ & _ & Hc').
      split; [|done]. rewrite Hfile. congruence.
    - split; [|by rewrite Hkeys by (by apply Hnot)].
      rewrite Hframe.
      + subst w2. cbn [w_fs]. rewrite lookup_insert_ne; [done|].
        by apply Hsfne.
      + intros tag' c' Hin' Ht' E.
        apply output_path_inj in E; [|done..]. subst tag'.
        destruct (Hitems tag c' Hin') as (_ & Hw' & _). congruence. }
  split.
  { intros k Hk. rewrite Hkeys; [done|].
    intros (kv & -> & Hin)%list_elem_of_fmap. destruct kv as [k' c].
    destruct (Hitems k' c Hin) as (Ht & _). cbn [fst] in Hk. congruence. }
  split.
  { intros p Hp1 Hp2. rewrite Hframe' by done. subst w2. cbn [w_fs].
    by rewrite lookup_insert_ne. }
  destruct (save_loop_set_fs _ _ _ _ _ _ _ _ Hrun) as [fs' ->]. done.
Qed.

(** X20: the project layout of [transcribe_audio].  With a project manager,
    an audio file that is there, a model that returns, and project
    directories in which the settings and the outputs can be written, the
    call returns the text, language, duration and segments of the model
    (with [unknown] and [0] for a missing language or duration); the model
    is called once, on the path it was given; [settings.json] holds the
    model size, language, output format, audio path and time; for each of
    [text], [json], [srt] and [vtt] that [output_format] asks for (all four
    for [all]) the file [transcript.{ext}] holds the text, the serialized
    result, or what [_generate_srt] and [_generate_vtt] return, and
    [output_files] maps the format to that path; the files of the other
    formats are left as they were and [output_files] has no other key; no
    other path changes.  For an [output_format] that is none of the five,
    only [settings.json] is written and [output_files] is empty. *)
Theorem transcribe_audio_project (self : AudioTranscriber)
    (pm : ProjectStructure) (audio_path : string) (language : option string)
    (output_format : string) (dirs : Dict.t Path.t) (pd td : Path.t)
    (r : transcription) (w : world) :
  let sf := (pd ++ ["transcription"]) ++ ["settings.json"] in
  let settings :=
    Dict.set
      [("model_size", JStr (model_size self));
       ("language", match language with Some l => JStr l | None => JNull end);
       ("output_format", JStr output_format);
       ("audio_file", JStr audio_path)]
      "processed_at" (JStr (isoformat (w_clock w))) in
  use_project_structure self = true →
  project_manager self = Some pm →
  Fs.exists_ (w_fs w) audio_path = true →
  whisper (model_size self) audio_path language (w_fs w) = Ok r →
  Dict.get dirs "project_dir" = Some pd →
  Dict.get dirs "transcription_dir" = Some td →
  Fs.is_dir (w_fs w) (pd ++ ["transcription"]) = true →
  Fs.is_dir (w_fs w) td = true →
  w_fs w !! sf ≠ Some Dir →
  (∀ tag, recognized tag = true →
          w_fs w !! output_path td "transcript" tag ≠ Some Dir) →
  ∃ res w',
    transcribe_audio json_dumps json_loads isoformat strftime whisper self
      audio_path language output_format (Some dirs) w = (Ok res, w')
    ∧ res_text res = t_text r
    ∧ res_language res = default "unknown" (t_language r)
    ∧ res_duration res = default 0%Q (t_duration r)
    ∧ res_segments res = t_segments r
    ∧ file_at w' sf = Some (json_dumps (JObj settings))
    ∧ (∀ tag, recognized tag = true →
         if wanted output_format tag
         then file_at w' (output_path td "transcript" tag)
              = Some (output_text json_dumps r tag)
              ∧ Dict.get (res_output_files res) tag
                = Some (Path.to_str (output_path td "transcript" tag))
         else w_fs w' !! output_path td "transcript" tag
              = w_fs w !! output_path td "transcript" tag
              ∧ Dict.get (res_output_files res) tag = None)
    ∧ (∀ k, recognized k = false → Dict.get (res_output_files res) k = None)
    ∧ (∀ p, p ≠ sf →
            (∀ tag, recognized tag = true →
                    p ≠ output_path td "transcript" tag) →
            w_fs w' !! p = w_fs w !! p)
    ∧ w_heap w' = w_heap w
    ∧ w_clock w' = S (w_clock w)
    ∧ w_calls w'
      = WhisperCall (model_size self) audio_path language :: w_calls w.
Proof. apply transcribe_audio_project_run. Qed.

(** X21: a transcriber made with the default [use_project_structure] has
    no [output_dir]; when it is asked to transcribe without project
    directories (none, or an empty dictionary), the model runs first and the
    call then raises [AttributeError] for [output_dir]: nothing is written,
    and the work of the model is lost. *)
Theorem transcribe_audio_no_output_dir (size : string) (w0 w1 : world)
    (self : AudioTranscriber) (audio_path : string) (language : option string)
    (output_format : string) (project_dirs : option (Dict.t Path.t))
    (r : transcription) (w : world) :
  AudioTranscriber_init size true w0 = (Ok self, w1) →
  project_dirs = None ∨ project_dirs = Some [] →
  Fs.exists_ (w_fs w) audio_path = true →
  whisper size audio_path language (w_fs w) = Ok r →
  transcribe_audio json_dumps json_loads isoformat strftime whisper self
    audio_path language output_format project_dirs w
  = (Raise (AttributeError "output_dir"),
     World (w_fs w) (w_heap w) (S (w_clock w))
       (WhisperCall size audio_path language :: w_calls w)).
Proof.
  intros Hinit Hdirs Hexists Hwhisper.
  assert (model_size self = size ∧ output_dir self = None) as [Hsize Hout].
  { unfold AudioTranscriber_init in Hinit. cbn [negb] in Hinit.
    cbv [mbind M_bind mret M_ret ProjectStructure_init mkdir fs_op] in Hinit.
    destruct (Fs.mkdir_exist_ok _ _); [|done].
    by injection Hinit as <- _. }
  unfold transcribe_audio.
  cbv [mbind M_bind mret M_ret os_path_exists raise model_transcribe].
  rewrite Hexists. cbn [negb]. rewrite Hsize, Hwhisper.
  assert (∀ w2, transcribe_to_output_dir json_dumps strftime self r audio_path
                  output_format w2
                = (Raise (AttributeError "output_dir"),
                   World (w_fs w2) (w_heap w2) (S (w_clock w2)) (w_calls w2)))
    as Hold.
  { intros w2. unfold transcribe_to_output_dir, getattr. rewrite Hout.
    by cbv [mbind M_bind now raise]. }
  destruct Hdirs as [-> | ->];
    destruct (use_project_structure self); by rewrite Hold.
Qed.

End OrchestratorMore.

Lemma transcribe_audio_project_witness :
  ∃ res w',
    transcribe_audio demo_dumps demo_loads demo_isoformat demo_strftime
      demo_whisper
      {| model_size := "base"; use_project_structure := true;
         output_dir := None; project_manager := Some demo_store |}
      "audio_projects/local_demo/src_audio/talk.mp3" None "all"
      (Some demo_dirs) taken_in_world = (Ok res, w')
    ∧ res_text res = "hello world"
    ∧ file_at w'
        ["audio_projects"; "local_demo"; "transcription"; "transcript.srt"]
      = Some (_generate_srt two_cues)
    ∧ Dict.get (res_output_files res) "vtt"
      = Some "audio_projects/local_demo/transcription/transcript.vtt".
Proof.
  destruct (transcribe_audio_project demo_dumps demo_loads demo_isoformat
              demo_strftime demo_whisper
              {| model_size := "base"; use_project_structure := true;
                 output_dir := None; project_manager := Some demo_store |}
              demo_store "audio_projects/local_demo/src_audio/talk.mp3" None
              "all" demo_dirs ["audio_projects"; "local_demo"]
              ["audio_projects"; "local_demo"; "transcription"]
              (Transcription "hello world" two_cues (Some "en") None)
              taken_in_world)
    as (res & w' & H1 & H2 & _ & _ & _ & _ & H3 & _).
  - reflexivity.
  - reflexivity.
  - by vm_compute.
  - reflexivity.
  - reflexivity.
  - reflexivity.
  - by vm_compute.
  - by vm_compute.
  - by vm_compute.
  - intros tag Ht.
    destruct (recognized_cases tag Ht) as [-> | [-> | [-> | ->]]];
      by vm_compute.
  - exists res, w'. split; [exact H1|]. split; [exact H2|].
    destruct (H3 "srt" eq_refl) as [Hsrt _].
    destruct (H3 "vtt" eq_refl) as [_ Hvtt].
    split; [exact Hsrt|exact Hvtt].
Defined.

Lemma transcribe_audio_no_output_dir_witness :
  transcribe_audio demo_dumps demo_loads demo_isoformat demo_strftime
    demo_whisper
    {| model_size := "base"; use_project_structure := true;
       output_dir := None; project_manager := Some demo_store |}
    "talk.mp3" None "all" None talk_world
  = (Raise (AttributeError "output_dir"),
     World (w_fs talk_world) (w_heap talk_world) (S (w_clock talk_world))
       (WhisperCall "base" "talk.mp3" None :: w_calls talk_world)).
Proof.
  apply (transcribe_audio_no_output_dir demo_dumps demo_loads demo_isoformat
           demo_strftime demo_whisper "base" store_world store_world _ _ _ _
           _ (Transcription "hello world" two_cues (Some "en") None)).
  - reflexivity.
  - by left.
  - by vm_compute.
  - reflexivity.
Defined.

(** ** The other patterns of [_extract_video_id], and links it reads well *)

Lemma search_no_match (r : Re.regex) (url : string) :
  (∀ pre s, url = pre +:+ s → head_group (Re.matches r s) = None) →
  Re.search r url = None.
Proof.
  induction url as [|c u IH]; intros H.
  - rewrite search_unfold. by rewrite (H "" "").
  - rewrite search_unfold. rewrite (H "" (String c u)) by done.
    apply IH. intros pre s ->. apply (H (String c pre)). by rewrite app_cons.
Qed.

Lemma search_match (r : Re.regex) (url : string) (m : option string) :
  Re.search r url = Some m →
  ∃ pre s, url = pre +:+ s ∧ head_group (Re.matches r s) = Some m.
Proof.
  induction url as [|c u IH]; rewrite search_unfold.
  - destruct (head_group (Re.matches r "")) eqn:E; [|done].
    intros [= ->]. by exists "", "".
  - destruct (head_group (Re.matches r (String c u))) eqn:E.
    + intros [= ->]. by exists "", (String c u).
    + intros (pre & s & -> & Hs)%IH. exists (String c pre), s.
      by rewrite app_cons.
Qed.

(** A literal and the id group match only where the literal stands before
    eleven id characters. *)
Lemma lit_group_matches (l s : string) :
  head_group (Re.matches (Re.Seq (Re.Lit l) video_id_group) s) ≠ None →
  Str.startswith l s = true
  ∧ class_prefix id_char 11 (Str.drop (String.length l) s) = true.
Proof.
  unfold video_id_group.
  change (Re.matches (Re.Seq ?a ?b) s)
    with (Re.and_then (Re.matches a s) (Re.matches b)).
  change (Re.matches (Re.Lit l) s)
    with (if Str.startswith l s
          then [(Str.drop (String.length l) s, None) : Re.attempt] else []).
  destruct (Str.startswith l s); [|done]. intros H. split; [done|].
  rewrite and_then_single in H. cbn [fst] in H.
  change (Re.matches (Re.Group ?r) ?t)
    with (map (λ a : Re.attempt,
                 (a.1, Some (Str.take (String.length t - String.length a.1) t)))
              (Re.matches r t)) in H.
  rewrite rep_class in H.
  by destruct (class_prefix id_char 11 (Str.drop (String.length l) s)).
Qed.

Lemma occurrence_app (pre s id rest : string) :
  occurrence s "" id rest → occurrence (pre +:+ s) pre id rest.
Proof.
  intros (Hs & Hlen & Hall). split; [|done].
  rewrite !app_empty_l in Hs. destruct Hs as [-> | ->]; auto.
Qed.

(** Where a literal that ends in [v=] or a slash stands before eleven id
    characters, there is an occurrence of the first pattern. *)
Lemma lit_group_occurrence (l0 d url pre s : string) :
  d = "v=" ∨ d = "/" →
  url = pre +:+ s →
  head_group (Re.matches (Re.Seq (Re.Lit (l0 +:+ d)) video_id_group) s)
  ≠ None →
  ∃ pre' id rest, occurrence url pre' id rest.
Proof.
  intros Hd -> H. apply lit_group_matches in H as [Hs Hc].
  destruct (class_prefix_take _ _ _ Hc) as (Hall & Hlen & Hsplit).
  apply startswith_drop in Hs. rewrite Hsplit in Hs.
  set (T := Str.take 11 (Str.drop (String.length (l0 +:+ d)) s)) in *.
  set (D := Str.drop 11 (Str.drop (String.length (l0 +:+ d)) s)) in *.
  exists (pre +:+ l0), T, D.
  split; [|done]. clearbody T D. subst s. rewrite !app_assoc_str.
  destruct Hd as [-> | ->]; auto.
Qed.

(** Without an occurrence no pattern matches: the patterns after the
    first match only where the first one does. *)
Lemma patterns_no_match (url : string) :
  (¬ ∃ pre id rest, occurrence url pre id rest) →
  Forall (λ p, Re.search p url = None) patterns.
Proof.
  intros Hno.
  assert (∀ l0 d, d = "v=" ∨ d = "/" →
            Re.search (Re.Seq (Re.Lit (l0 +:+ d)) video_id_group) url = None)
    as Hlit.
  { intros l0 d Hd. apply search_no_match. intros pre s E.
    destruct (head_group _) eqn:Eh; [|done]. destruct Hno.
    apply (lit_group_occurrence l0 d url pre s); [done..|]. by rewrite Eh. }
  unfold patterns. repeat apply Forall_cons_2; [| | | | |constructor].
  - apply search_no_match. intros pre s ->.
    rewrite (first_pattern_at _ _ eq_refl).
    destruct (id_at s) as [id|] eqn:E; [|done].
    destruct (id_at_sound _ _ E) as [rest H]. destruct Hno.
    exists pre, id, rest. by apply occurrence_app.
  - apply (Hlit "embed" "/"). auto.
  - apply (Hlit "watch?" "v="). auto.
  - apply (Hlit "youtu.be" "/"). auto.
  - apply (Hlit "live" "/"). auto.
Qed.

Lemma first_match_none (ps : list Re.regex) (url : string) :
  Forall (λ p, Re.search p url = None) ps → first_match ps url = None.
Proof.
  induction 1 as [|p ps Hp _ IH]; [done|]. cbn [first_match]. by rewrite Hp.
Qed.

Lemma id_chars_plain (id : string) :
  all_chars id_char id = true → plain_name id.
Proof.
  unfold plain_name, has_char. induction id as [|c id IH]; [done|].
  simpl. intros [Hc Hid]%andb_true_iff. rewrite (IH Hid), orb_false_r.
  destruct (Ascii.eqb_spec "/" c) as [<-|]; done.
Qed.

Section DownloaderMore.

Variable download_result : Type.
Variable download_with_id :
  YouTubeDownloader → string → string → string → string → M download_result.

(** X22: a URL in which no [v=] and no slash is followed by eleven
    characters of [[0-9A-Za-z_-]] has no video id: none of the five patterns
    matches, [_extract_video_id] returns [None], and [download_audio] raises
    [ValueError] with the URL in its message before anything is downloaded
    or changed. *)
Theorem extract_video_id_none (url : string) :
  (¬ ∃ pre id rest, occurrence url pre id rest) →
  Forall (λ p, Re.search p url = None) patterns
  ∧ _extract_video_id url = None
  ∧ ∀ self audio_format quality w,
      download_audio download_result download_with_id self url audio_format
        quality w
      = (Raise (ValueError ("Invalid YouTube URL: " +:+ url)), w).
Proof.
  intros Hno. pose proof (patterns_no_match url Hno) as Hall.
  pose proof (first_match_none _ _ Hall) as Hnone.
  split; [done|]. split; [done|].
  intros self audio_format quality w. unfold download_audio.
  unfold _extract_video_id. by rewrite Hnone.
Qed.

End DownloaderMore.

(** X23: whatever [_extract_video_id] returns is eleven characters of
    [[0-9A-Za-z_-]] that stand in the URL right behind a [v=] or a slash, at
    the leftmost such place; it contains no slash, so the project folder
    [youtube_{id}] is a single name. *)
Theorem extract_video_id_shape (url id : string) :
  _extract_video_id url = Some id →
  String.length id = 11%nat
  ∧ all_chars id_char id = true
  ∧ plain_name ("youtube_" +:+ id)
  ∧ ∃ pre rest,
      occurrence url pre id rest
      ∧ ∀ pre2 id2 rest2,
          occurrence url pre2 id2 rest2 →
          (String.length pre ≤ String.length pre2)%nat.
Proof.
  intros Hid.
  assert (∃ pre0 id0 rest0, occurrence url pre0 id0 rest0) as Hex.
  { unfold _extract_video_id, patterns in Hid. cbn [first_match] in Hid.
    assert (∀ l0 d m, d = "v=" ∨ d = "/" →
              Re.search (Re.Seq (Re.Lit (l0 +:+ d)) video_id_group) url
              = Some m →
              ∃ pre0 id0 rest0, occurrence url pre0 id0 rest0) as Hlit.
    { intros l0 d m Hd (pre & s & E & Hm)%search_match.
      apply (lit_group_occurrence l0 d url pre s); [done..|]. by rewrite Hm. }
    destruct (Re.search _ url) as [m|] eqn:E1 in Hid.
    { apply search_match in E1 as (pre & s & -> & Hm).
      rewrite (first_pattern_at _ _ eq_refl) in Hm.
      destruct (id_at s) as [id0|] eqn:Eid; [|done].
      destruct (id_at_sound _ _ Eid) as [rest H].
      exists pre, id0, rest. by apply occurrence_app. }
    destruct (Re.search _ url) as [m|] eqn:E2 in Hid;
      [by apply (Hlit "embed" "/" m); auto|].
    destruct (Re.search _ url) as [m|] eqn:E3 in Hid;
      [by apply (Hlit "watch?" "v=" m); auto|].
    destruct (Re.search _ url) as [m|] eqn:E4 in Hid;
      [by apply (Hlit "youtu.be" "/" m); auto|].
    destruct (Re.search _ url) as [m|] eqn:E5 in Hid;
      [by apply (Hlit "live" "/" m); auto|].
    done. }
  destruct (search_leftmost _ url eq_refl Hex)
    as (pre' & id' & rest' & Hocc & Hs & Hleft).
  assert (id = id') as ->.
  { unfold _extract_video_id, patterns in Hid. cbn [first_match] in Hid.
    rewrite Hs in Hid. congruence. }
  pose proof Hocc as (_ & Hlen & Hall).
  split; [done|]. split; [done|]. split.
  - unfold plain_name. rewrite has_char_app.
    by rewrite (id_chars_plain id' Hall).
  - exists pre', rest'. split; [done|]. intros pre2 id2 rest2 H2.
    by apply (Hleft pre2 id2 rest2).
Qed.

Lemma stops_class_prefix (n : nat) (s t : string) :
  stops n s = true → class_prefix id_char n (s +:+ t) = false.
Proof.
  revert s. induction n as [|n IH]; intros s; [done|].
  destruct s as [|c s]; [done|]. rewrite app_cons. simpl.
  destruct (id_char c); [|done]. simpl. apply IH.
Qed.

Lemma drop_app_long (n : nat) (s t : string) :
  (n ≤ String.length s)%nat → Str.drop n (s +:+ t) = Str.drop n s +:+ t.
Proof.
  revert s. induction n as [|n IH]; intros s Hn; [done|].
  destruct s as [|c s]; [simpl in Hn; lia|].
  rewrite app_cons. simpl. apply IH. simpl in Hn. lia.
Qed.

Lemma startswith_app_long (p s t : string) :
  (String.length p ≤ String.length s)%nat →
  Str.startswith p (s +:+ t) = Str.startswith p s.
Proof.
  revert s. induction p as [|a p IH]; intros s Hn; [by destruct s|].
  destruct s as [|c s]; [simpl in Hn; lia|].
  rewrite app_cons. simpl. rewrite IH; [done|]. simpl in Hn. lia.
Qed.

Lemma no_id_at_app (s t : string) :
  (2 ≤ String.length s)%nat → no_id_at s = true → id_at (s +:+ t) = None.
Proof.
  intros Hlen [H1 H2]%andb_true_iff. unfold id_at.
  rewrite !startswith_app_long by (simpl; lia).
  rewrite !drop_app_long by lia.
  destruct (Str.startswith "v=" s); cbn [negb orb andb] in *.
  { rewrite stops_class_prefix by done.
    destruct (Str.startswith "/" s); cbn [negb orb andb] in *; [|done].
    by rewrite stops_class_prefix. }
  destruct (Str.startswith "/" s); cbn [negb orb andb] in *; [|done].
  by rewrite stops_class_prefix.
Qed.

Lemma clear_before_search (pre d id rest : string) :
  d = "v=" ∨ d = "/" →
  clear_before pre d = true →
  String.length id = 11%nat →
  all_chars id_char id = true →
  Re.search (Re.Seq (Re.Alt (Re.Lit "v=") (Re.Lit "/"))
               (Re.Seq video_id_group Re.AnyStar))
    (pre +:+ d +:+ id +:+ rest) = Some (Some id).
Proof.
  intros Hd Hclear Hlen Hall.
  induction pre as [|c pre IH].
  - rewrite app_empty_l, search_unfold, (first_pattern_at _ _ eq_refl).
    rewrite (id_at_complete _ id rest); [done|].
    split; [|done]. rewrite !app_empty_l. destruct Hd as [-> | ->]; auto.
  - cbn [clear_before] in Hclear. apply andb_true_iff in Hclear as [H1 H2].
    rewrite search_unfold, (first_pattern_at _ _ eq_refl).
    rewrite <- app_assoc_str, no_id_at_app; [|..|done].
    + cbn [fmap option_fmap option_map]. rewrite !app_cons.
      rewrite app_assoc_str. by apply IH.
    + rewrite length_app_str. destruct Hd as [-> | ->]; simpl; lia.
Qed.

(** X24: a link is read as intended when no id can begin before the
    intended one, and the links the patterns name are of this kind: for
    [https://www.youtube.com/watch?v=], [https://youtu.be/],
    [https://www.youtube.com/embed/] and [https://www.youtube.com/live/]
    followed by eleven id characters and anything else,
    [_extract_video_id] returns those eleven characters. *)
Theorem extract_video_id_standard (pre d id rest : string) :
  (pre, d) ∈ standard_heads
  ∨ ((d = "v=" ∨ d = "/") ∧ clear_before pre d = true) →
  String.length id = 11%nat →
  all_chars id_char id = true →
  _extract_video_id (pre +:+ d +:+ id +:+ rest) = Some id.
Proof.
  intros Hhead Hlen Hall.
  assert ((d = "v=" ∨ d = "/") ∧ clear_before pre d = true) as [Hd Hclear].
  { destruct Hhead as [Hin|H]; [|done]. unfold standard_heads in Hin.
    repeat (apply elem_of_cons in Hin as [Hin|Hin];
            [injection Hin as -> ->; split; [auto|by vm_compute]|]).
    by apply elem_of_nil in Hin. }
  unfold _extract_video_id, patterns. cbn [first_match].
  by rewrite clear_before_search.
Qed.

(** X25: the first pattern takes the beginning of a host name for an id:
    in a link that starts with [https://] or [http://] and eleven id
    characters, these eleven characters are what [_extract_video_id]
    returns, whatever comes after them, a [watch?v=] with the real id
    included. *)
Theorem extract_video_id_host (scheme host rest : string) :
  scheme = "https:" ∨ scheme = "http:" →
  String.length host = 11%nat →
  all_chars id_char host = true →
  _extract_video_id (scheme +:+ "//" +:+ host +:+ rest) = Some host.
Proof.
  intros Hs Hlen Hall.
  unfold _extract_video_id, patterns. cbn [first_match].
  assert (scheme +:+ "//" +:+ host +:+ rest
          = (scheme +:+ "/") +:+ "/" +:+ host +:+ rest) as ->.
  { by rewrite !app_assoc_str. }
  rewrite clear_before_search; [done|auto| |done|done].
  destruct Hs as [-> | ->]; by vm_compute.
Qed.

Lemma extract_video_id_none_witness :
  _extract_video_id "https://example.com/" = None
  ∧ download_audio unit (λ _ _ _ _ _, mret tt)
      {| yt_use_project_structure := true;
         yt_project_manager := Some demo_store; yt_output_dir := None |}
      "https://example.com/" "mp3" "best" store_world
    = (Raise (ValueError "Invalid YouTube URL: https://example.com/"),
       store_world).
Proof.
  destruct (extract_video_id_none unit (λ _ _ _ _ _, mret tt)
              "https://example.com/") as (_ & H1 & H2).
  - intros Hex.
    destruct (search_leftmost _ "https://example.com/" eq_refl Hex)
      as (pre & id & rest & _ & Hs & _).
    by vm_compute in Hs.
  - split; [exact H1|]. apply H2.
Defined.

Lemma extract_video_id_shape_witness :
  String.length "dQw4w9WgXcQ" = 11%nat
  ∧ all_chars id_char "dQw4w9WgXcQ" = true
  ∧ plain_name ("youtube_" +:+ "dQw4w9WgXcQ")
  ∧ ∃ pre rest,
      occurrence "https://youtu.be/dQw4w9WgXcQ?t=1" pre "dQw4w9WgXcQ" rest
      ∧ ∀ pre2 id2 rest2,
          occurrence "https://youtu.be/dQw4w9WgXcQ?t=1" pre2 id2 rest2 →
          (String.length pre ≤ String.length pre2)%nat.
Proof.
  apply (extract_video_id_shape "https://youtu.be/dQw4w9WgXcQ?t=1").
  by vm_compute.
Defined.

Lemma extract_video_id_standard_witness :
  _extract_video_id
    ("https://www.youtube.com/watch?" +:+ "v=" +:+ "dQw4w9WgXcQ" +:+ "&t=1")
  = Some "dQw4w9WgXcQ".
Proof.
  apply extract_video_id_standard; [left; left|reflexivity|reflexivity].
Defined.

Lemma extract_video_id_host_witness :
  _extract_video_id
    ("https:" +:+ "//" +:+ "youtube-noc" +:+ "ookie.com/embed/dQw4w9WgXcQ")
  = Some "youtube-noc".
Proof.
  apply extract_video_id_host; [by left|reflexivity|reflexivity].
Defined.

(** ** main.py: a local audio file *)

Lemma take_plain (i : nat) (s : string) :
  plain_name s → plain_name (Str.take i s).
Proof.
  unfold plain_name, has_char. revert s.
  induction i as [|i IH]; intros s; [done|].
  destruct s as [|c s]; [done|]. simpl.
  intros [Hc Hs]%orb_false_elim. by rewrite Hc, IH.
Qed.

Lemma stem_plain (q : Path.t) (n : string) :
  Path.is_root n = false → plain_name n → plain_name (Path.stem (q ++ [n])).
Proof.
  intros Hn Hp. unfold Path.stem. rewrite name_child by done.
  destruct (Path.rfind_dot n) as [i|]; [|done].
  destruct (_ && _); [by apply take_plain|done].
Qed.

(** The store in the working directory, made or found. *)
Lemma store_init (w : world) :
  (∀ s, w_fs w !! ["audio_projects"] ≠ Some (File s)) →
  ProjectStructure_init "audio_projects" w
  = (Ok {| base_dir := ["audio_projects"] |},
     set_fs (<[["audio_projects"] := Dir]> (w_fs w)) w).
Proof.
  intros Hfree. unfold ProjectStructure_init.
  change (Path.parse "audio_projects") with ([] ++ ["audio_projects"]).
  cbv [mbind M_bind mret M_ret mkdir fs_op base_dir].
  by rewrite mkdir_child.
Qed.

(** A regular file under a relative path of plain names is found by
    [os.path.exists] under the text of its path. *)
Lemma exists_file fs (c : string) (rest : list string) (s : string) :
  Forall plain_name (c :: rest) →
  Forall (λ c, Path.is_name c = true) (c :: rest) →
  fs !! (c :: rest) = Some (File s) →
  Fs.exists_ fs (Path.to_str (c :: rest)) = true.
Proof.
  intros Hplain Hname Hfile.
  pose proof Hplain as Hp. pose proof Hname as Hn.
  apply Forall_cons in Hp as [Hc _]. apply Forall_cons in Hn as [Hcn _].
  assert (Path.to_str (c :: rest) = "" +:+ String.concat "/" (c :: rest))
    as E.
  { unfold Path.to_str. by rewrite (plain_not_root c). }
  pose proof (parse_concat "" c rest Hplain Hname ltac:(auto)) as Hparse.
  rewrite <- E in Hparse. cbv iota in Hparse.
  unfold Fs.exists_. rewrite Hparse.
  assert (Fs.node_at fs (c :: rest) = Some (File s)) as ->.
  { unfold Fs.node_at. destruct rest; [|done].
    by rewrite (plain_not_root c). }
  assert (Path.is_name (List.last (c :: rest) "") = true) as Hlast.
  { rewrite Forall_forall in Hname. apply Hname.
    destruct (exists_last (l := c :: rest)) as (l' & x & E'); [done|].
    rewrite E', last_last. apply elem_of_app. right. left. }
  rewrite E, app_empty_l. rewrite split_concat by done. rewrite Hlast.
  destruct (plain_head c "" Hc Hcn) as (a & c' & -> & _).
  by destruct rest.
Qed.

Lemma store_init_again (w : world) :
  w_fs w !! ["audio_projects"] = Some Dir →
  ProjectStructure_init "audio_projects" w
  = (Ok {| base_dir := ["audio_projects"] |}, w).
Proof.
  intros H. rewrite store_init by (intros s; unfold Path.t in *; congruence).
  by rewrite insert_id, set_fs_id.
Qed.

Section MainLocal.

Variable json_dumps : json → string.
Variable json_loads : string → option json.
Variable isoformat : nat → string.
Variable strftime : nat → string.
Variable whisper :
  string → string → option string → gmap Path.t node → outcome transcription.
Variable move_tree : Path.t → Path.t → M unit.
Variable dir_size : Path.t → Z.

(** The project [transcribe_local_audio] makes once the store is there,
    where nothing has the name of the project. *)
Lemma local_project_run (stem : string) (d0 : Dict.t json) (w : world) :
  let base := ["audio_projects"] in
  let pd := base ++ ["local_" +:+ stem] in
  let l := fresh (dom (w_heap w)) in
  let d := Dict.set (Dict.set d0 "created_at" (JStr (isoformat (w_clock w))))
             "project_type" (JStr "local") in
  let fs2 := <[pd ++ ["metadata.json"] := File (json_dumps (JObj d))]>
               (with_project base ("local_" +:+ stem) (w_fs w)) in
  plain_name stem →
  d0 ≠ [] →
  Fs.is_dir (w_fs w) base = true →
  (∀ q', w_fs w !! (pd ++ q') = None) →
  create_project json_dumps isoformat {| base_dir := base |} stem "local"
    (Some l) (set_heap (<[l := d0]> (w_heap w)) w)
  = (Ok [("project_dir", pd); ("src_audio_dir", pd ++ ["src_audio"]);
         ("transcription_dir", pd ++ ["transcription"])],
     World fs2 (<[l := d]> (w_heap w)) (S (w_clock w)) (w_calls w)).
Proof.
  intros base pd l d fs2 Hstem Hd0 Hbase Hfresh.
  set (w1 := set_heap _ _).
  rewrite (create_project_metadata_run json_dumps isoformat
             {| base_dir := base |} stem "local" l d0 w1).
  - cbn [base_dir]. change (if String.eqb "local" "youtube" then _ else _)
      with ("local_" +:+ stem). fold pd.
    change (w_fs w1) with (w_fs w).
    destruct (open_write (with_project base ("local_" +:+ stem) (w_fs w))
                pd "metadata.json" (json_dumps (JObj d)))
      as (fs3 & Ho & Ha).
    + done.
    + unfold Fs.is_dir. subst pd. rewrite node_at_child by done.
      rewrite with_project_lookup, decide_True; [done|left].
    + rewrite with_project_lookup. fold pd.
      rewrite decide_False; [by rewrite Hfresh|].
      rewrite !elem_of_cons, elem_of_nil.
      intros [E | [E | [E | []]]].
      * by apply (child_ne pd "metadata.json").
      * by apply siblings_ne in E.
      * by apply siblings_ne in E.
    + rewrite Ho. subst w1. cbn [w_heap w_clock w_calls set_heap set_fs].
      rewrite insert_insert_eq. fold d. by rewrite Ha.
  - done.
  - subst w1. cbn [w_heap set_heap]. by rewrite lookup_insert_eq.
  - done.
  - done.
  - intros p s Hp. change (w_fs w1) with (w_fs w). cbn [base_dir] in Hp.
    change (if String.eqb "local" "youtube" then _ else _)
      with ("local_" +:+ stem) in Hp. fold pd in Hp.
    rewrite !elem_of_cons, elem_of_nil in Hp.
    destruct Hp as [-> | [-> | [-> | []]]].
    + specialize (Hfresh []). rewrite app_nil_r in Hfresh.
      unfold Path.t in *. by rewrite Hfresh.
    + unfold Path.t in *. by rewrite Hfresh.
    + unfold Path.t in *. by rewrite Hfresh.
Qed.

Lemma is_dir_grow fs fs' (q : Path.t) :
  (∀ p, fs !! p = Some Dir → fs' !! p = Some Dir) →
  Fs.is_dir fs q = true → Fs.is_dir fs' q = true.
Proof.
  intros Hmono. unfold Fs.is_dir, Fs.node_at, Path.t in *.
  destruct q as [|c [|c' q']]; [done| |].
  - destruct (Path.is_root c); [done|].
    destruct (fs !! [c]) as [[|?]|] eqn:E; cbv beta iota; [|done..].
    by rewrite (Hmono _ E).
  - destruct (fs !! (c :: c' :: q')) as [[|?]|] eqn:E; cbv beta iota;
      [|done..].
    by rewrite (Hmono _ E).
Qed.

(** The file system once the project of a local file exists: what was
    outside the store is as it was. *)
Lemma local_project_fs (folder text : string) fs (p : Path.t) :
  let base := ["audio_projects"] in
  let pd := base ++ [folder] in
  let fs2 := <[pd ++ ["metadata.json"] := File text]>
               (with_project base folder (<[base := Dir]> fs)) in
  hd "" p ≠ "audio_projects" →
  fs2 !! p = fs !! p.
Proof.
  intros base pd fs2 Hp. subst fs2.
  assert (∀ r, base ++ r ≠ p) as Hne by (intros r <-; by apply Hp).
  rewrite lookup_insert_ne
    by (subst pd; rewrite <- app_assoc; apply Hne).
  rewrite with_project_lookup. fold pd.
  rewrite decide_False.
  - rewrite lookup_insert_ne; [done|]. rewrite <- (app_nil_r base).
    apply Hne.
  - rewrite !elem_of_cons, elem_of_nil. subst pd.
    intros [E | [E | [E | []]]]; rewrite <- ?app_assoc in E;
      symmetry in E; by apply Hne in E.
Qed.

(** X26: [transcribe_local_audio] makes the project before it looks at
    the file.  For an audio file that is not there (outside the store, in a
    directory that exists, where nothing has the name of the project), the
    call raises [FileNotFoundError] for the file, and leaves behind the
    project [local_{stem}] with its three directories and a
    [metadata.json] that records the file name and a size of [0]; the model
    is never called. *)
Theorem local_audio_missing (audio_path size : string)
    (language : option string) (output_format : string) (q : Path.t)
    (n : string) (w : world) :
  let base := ["audio_projects"] in
  let pd := base ++ ["local_" +:+ Path.stem (q ++ [n])] in
  let d := [("original_filename", JStr n); ("file_size", JInt 0);
            ("source_type", JStr "local");
            ("created_at", JStr (isoformat (w_clock w)));
            ("project_type", JStr "local")] in
  Path.parse audio_path = q ++ [n] →
  Path.is_root n = false →
  hd "" (q ++ [n]) ≠ "audio_projects" →
  w_fs w !! (q ++ [n]) = None →
  Fs.is_dir (w_fs w) q = true →
  (∀ s, w_fs w !! base ≠ Some (File s)) →
  (∀ q', w_fs w !! (pd ++ q') = None) →
  ∃ w',
    transcribe_local_audio json_dumps json_loads isoformat strftime whisper
      move_tree dir_size audio_path size language output_format w
    = (Raise (FileNotFoundError (Path.to_str (q ++ [n]))), w')
    ∧ w_fs w' !! pd = Some Dir
    ∧ w_fs w' !! (pd ++ ["src_audio"]) = Some Dir
    ∧ w_fs w' !! (pd ++ ["transcription"]) = Some Dir
    ∧ file_at w' (pd ++ ["metadata.json"]) = Some (json_dumps (JObj d))
    ∧ w_heap w' !! fresh (dom (w_heap w)) = Some d
    ∧ w_calls w' = w_calls w.
Proof.
  intros base pd d Hparse Hn Hhd Hsrc Hq Hbase Hfresh.
  destruct (parse_last _ _ _ Hparse Hn) as [Hplain Hname].
  pose proof (stem_plain q n Hn Hplain) as Hstem.
  set (stem := Path.stem (q ++ [n])) in *.
  set (fs0 := <[base := Dir]> (w_fs w)).
  set (w0 := set_fs fs0 w).
  set (l := fresh (dom (w_heap w))).
  set (fs2 := <[pd ++ ["metadata.json"] := File (json_dumps (JObj d))]>
                (with_project base ("local_" +:+ stem) fs0)).
  set (w4 := World fs2 (<[l := d]> (w_heap w)) (S (w_clock w)) (w_calls w)).
  assert (∀ p, hd "" p ≠ "audio_projects" → fs2 !! p = w_fs w !! p) as Hout.
  { intros p Hp. by apply local_project_fs. }
  assert (∀ q', fs0 !! (pd ++ q') = None) as Hfresh0.
  { intros q'. subst fs0. rewrite lookup_insert_ne; [apply Hfresh|].
    subst pd. rewrite <- app_assoc. by destruct q'. }
  assert (∀ q', q' ∈ [[]; ["src_audio"]; ["transcription"]] →
                fs2 !! (pd ++ q') = Some Dir) as Hdirs.
  { intros q' Hq'. subst fs2.
    rewrite lookup_insert_ne.
    2:{ intros E. apply app_inv_head in E. subst q'.
        rewrite !elem_of_cons, elem_of_nil in Hq'.
        by destruct Hq' as [? | [? | [? | []]]]. }
    rewrite with_project_lookup. fold pd. rewrite decide_True; [done|].
    rewrite !elem_of_cons, elem_of_nil in Hq'. rewrite !elem_of_cons.
    destruct Hq' as [-> | [-> | [-> | []]]]; rewrite ?app_nil_r; auto. }
  assert (transcribe_local_audio json_dumps json_loads isoformat strftime
            whisper move_tree dir_size audio_path size language
            output_format w
          = (Raise (FileNotFoundError (Path.to_str (q ++ [n]))), w4)) as Hrun.
  { unfold transcribe_local_audio. cbv [mbind M_bind mret M_ret].
    rewrite store_init by done. fold base fs0 w0.
    unfold size_or_zero, alloc. rewrite Hparse.
    rewrite node_at_child by done.
    assert (w_fs w0 !! (q ++ [n]) = None) as ->.
    { subst w0 fs0. cbn [w_fs set_fs]. rewrite lookup_insert_ne; [done|].
      intros E. by rewrite <- E in Hhd. }
    rewrite name_child by done. fold stem.
    rewrite (local_project_run stem _ w0); [|done|done| |done].
    2:{ subst w0 fs0. cbn [w_fs set_fs]. by apply (is_dir_child_insert _ []). }
    change (w_heap w0) with (w_heap w). fold l.
    change (w_clock w0) with (w_clock w). change (w_calls w0) with (w_calls w).
    change (w_fs w0) with fs0. cbn [Dict.set]. eval_eqb. cbn [Dict.set].
    eval_eqb. fold d. fold pd. fold fs2. fold w4.
    rewrite (move_audio_missing_run move_tree _ audio_path _
               (pd ++ ["src_audio"]) q n true w4); [done|done..| | |].
    - subst w4. cbn [w_fs]. by rewrite Hout.
    - subst w4. cbn [w_fs]. apply (is_dir_grow (w_fs w)); [|done].
      intros p Hp. destruct (decide (hd "" p = "audio_projects")) as [E|E];
        [|by rewrite Hout].
      destruct p as [|c p']; [done|]. cbn [hd] in E. subst c.
      destruct p' as [|c' p'].
      + subst fs2. rewrite lookup_insert_ne by done.
        rewrite with_project_lookup, decide_False.
        * subst fs0. by rewrite lookup_insert_eq.
        * rewrite !elem_of_cons, elem_of_nil. by intros [? | [? | [? | []]]].
      + destruct (decide (c' = "local_" +:+ stem)) as [->|Hc].
        * pose proof (Hfresh p') as Hf. unfold Path.t in *.
          change (pd ++ p')
            with ("audio_projects" :: ("local_" +:+ stem) :: p') in Hf.
          congruence.
        * subst fs2. rewrite lookup_insert_ne by (intros [= ?]; done).
          rewrite with_project_lookup, decide_False.
          -- subst fs0. by rewrite lookup_insert_ne.
          -- rewrite !elem_of_cons, elem_of_nil.
             intros [[= ?] | [[= ?] | [[= ?] | []]]]; done.
    - subst w4. cbn [w_fs]. rewrite <- app_assoc.
      subst fs2. rewrite lookup_insert_ne
        by (intros E; by apply app_inv_head in E).
      rewrite with_project_lookup. fold pd. rewrite decide_False.
      + by rewrite Hfresh0.
      + rewrite !elem_of_cons, elem_of_nil.
        intros [E | [E | [E | []]]].
        * rewrite <- (app_nil_r pd) in E at 2. by apply app_inv_head in E.
        * by apply app_inv_head in E.
        * by apply app_inv_head in E. }
  exists w4. split; [exact Hrun|]. subst w4. cbn [w_fs w_heap w_calls].
  split; [|split; [|split; [|split; [|split]]]].
  - rewrite <- (app_nil_r pd). apply Hdirs. left.
  - apply Hdirs. right. left.
  - apply Hdirs. right. right. left.
  - unfold file_at. cbn [w_fs]. subst fs2. by rewrite lookup_insert_eq.
  - by rewrite lookup_insert_eq.
  - done.
Qed.

(** X27: [transcribe_local_audio] on an audio file that is there (outside
    the store, where nothing has the name of the project) returns what the
    model returns.  The project [local_{stem}] holds a copy of the audio in
    [src_audio], the original stays in place, [metadata.json] records the
    file name and the size in bytes, the model is called once, on the copy,
    and [settings.json] names the copy as the audio file; the outputs asked
    for are in [transcription], as [transcribe_audio] files them. *)
Theorem local_audio_transcribed (audio_path size : string)
    (language : option string) (output_format : string) (q : Path.t)
    (n s : string) (r : transcription) (w : world) :
  let folder := "local_" +:+ Path.stem (q ++ [n]) in
  let pd := ["audio_projects"; folder] in
  let dest := ["audio_projects"; folder; "src_audio"; n] in
  let td := ["audio_projects"; folder; "transcription"] in
  let d := [("original_filename", JStr n);
            ("file_size", JInt (Z.of_nat (String.length s)));
            ("source_type", JStr "local");
            ("created_at", JStr (isoformat (w_clock w)));
            ("project_type", JStr "local")] in
  let settings :=
    [("model_size", JStr size);
     ("language", match language with Some l => JStr l | None => JNull end);
     ("output_format", JStr output_format);
     ("audio_file", JStr (Path.to_str dest));
     ("processed_at", JStr (isoformat (S (w_clock w))))] in
  let fs5 :=
    <[dest := File s]>
      (<[pd ++ ["metadata.json"] := File (json_dumps (JObj d))]>
         (with_project ["audio_projects"] folder
            (<[["audio_projects"] := Dir]> (w_fs w)))) in
  Path.parse audio_path = q ++ [n] →
  Path.is_root n = false →
  hd "" (q ++ [n]) ≠ "audio_projects" →
  w_fs w !! (q ++ [n]) = Some (File s) →
  (∀ s', w_fs w !! ["audio_projects"] ≠ Some (File s')) →
  (∀ q', w_fs w !! (pd ++ q') = None) →
  whisper size (Path.to_str dest) language fs5 = Ok r →
  ∃ res w',
    transcribe_local_audio json_dumps json_loads isoformat strftime whisper
      move_tree dir_size audio_path size language output_format w
    = (Ok res, w')
    ∧ res_text res = t_text r
    ∧ res_segments res = t_segments r
    ∧ file_at w' (q ++ [n]) = Some s
    ∧ file_at w' dest = Some s
    ∧ file_at w' (pd ++ ["metadata.json"]) = Some (json_dumps (JObj d))
    ∧ file_at w' (td ++ ["settings.json"])
      = Some (json_dumps (JObj settings))
    ∧ (∀ tag, recognized tag = true →
         if wanted output_format tag
         then file_at w' (output_path td "transcript" tag)
              = Some (output_text json_dumps r tag)
              ∧ Dict.get (res_output_files res) tag
                = Some (Path.to_str (output_path td "transcript" tag))
         else w_fs w' !! output_path td "transcript" tag = None
              ∧ Dict.get (res_output_files res) tag = None)
    ∧ w_calls w'
      = WhisperCall size (Path.to_str dest) language :: w_calls w.
Proof.
  intros folder pd dest td d settings fs5 Hparse Hn Hhd Hsrc Hbase Hfresh
    Hwhisper.
  destruct (parse_last _ _ _ Hparse Hn) as [Hplain Hname].
  pose proof (stem_plain q n Hn Hplain) as Hstem.
  set (stem := Path.stem (q ++ [n])) in *.
  assert (plain_name folder ∧ Path.is_name folder = true) as [Hfp Hfn].
  { subst folder. split; [|done]. unfold plain_name in *.
    by rewrite has_char_app, Hstem. }
  set (base := ["audio_projects"]) in *.
  set (fs0 := <[base := Dir]> (w_fs w)).
  set (w0 := set_fs fs0 w).
  set (l := fresh (dom (w_heap w))).
  set (mf := pd ++ ["metadata.json"]) in *.
  set (fs2 := <[mf := File (json_dumps (JObj d))]>
                (with_project base folder fs0)) in *.
  set (w4 := World fs2 (<[l := d]> (w_heap w)) (S (w_clock w)) (w_calls w)).
  set (w5 := set_fs fs5 w4).
  unfold Path.t in *.
  assert (∀ p, hd "" p ≠ "audio_projects" → fs2 !! p = w_fs w !! p) as Hout.
  { intros p Hp. by apply local_project_fs. }
  assert (∀ q', fs0 !! (pd ++ q') = None) as Hfresh0.
  { intros q'. subst fs0. rewrite lookup_insert_ne; [apply Hfresh|].
    subst pd base. by destruct q'. }
  assert (∀ q', fs5 !! (pd ++ q')
                = if decide (q' ∈ [[]; ["src_audio"]; ["transcription"]])
                  then Some Dir
                  else if decide (q' = ["metadata.json"])
                  then Some (File (json_dumps (JObj d)))
                  else if decide (q' = ["src_audio"; n])
                  then Some (File s) else None) as Hin.
  { intros q'. subst fs5 fs2. fold mf.
    destruct (decide (q' ∈ _)) as [Hq'|Hq'].
    - rewrite !elem_of_cons, elem_of_nil in Hq'.
      rewrite !lookup_insert_ne
        by (destruct Hq' as [-> | [-> | [-> | []]]]; done).
      rewrite with_project_lookup, decide_True; [done|].
      destruct Hq' as [-> | [-> | [-> | []]]];
        [left|right; left|right; right; left].
    - destruct (decide (q' = ["metadata.json"])) as [->|Hq2].
      { rewrite lookup_insert_ne by done. by rewrite lookup_insert_eq. }
      destruct (decide (q' = ["src_audio"; n])) as [->|Hq3].
      { by rewrite lookup_insert_eq. }
      rewrite !lookup_insert_ne
        by (intros E; apply (app_inv_head pd) in E; done).
      rewrite with_project_lookup, decide_False; [apply Hfresh0|].
      intros Hq4. apply Hq'. rewrite !elem_of_cons, elem_of_nil in Hq4.
      rewrite !elem_of_cons.
      destruct Hq4 as [E | [E | [E | []]]];
        apply (app_inv_head pd _ [_]) in E || idtac; auto.
      left. rewrite <- (app_nil_r (base ++ [folder])) in E.
      by apply (app_inv_head pd) in E. }
  assert (Fs.exists_ fs5 (Path.to_str dest) = true) as Hexists.
  { apply (exists_file _ _ _ s).
    - repeat constructor; done.
    - repeat constructor; done.
    - change (fs5 !! (pd ++ ["src_audio"; n]) = Some (File s)).
      rewrite (Hin ["src_audio"; n]).
      rewrite decide_False
        by (rewrite !elem_of_cons, elem_of_nil; by intros [? | [? | [? | []]]]).
      rewrite decide_False by done. by rewrite decide_True. }
  assert (transcribe_local_audio json_dumps json_loads isoformat strftime
            whisper move_tree dir_size audio_path size language
            output_format w
          = transcribe_audio json_dumps json_loads isoformat strftime whisper
              {| model_size := size; use_project_structure := true;
                 output_dir := None;
                 project_manager := Some {| base_dir := base |} |}
              (Path.to_str dest) language output_format
              (Some [("project_dir", pd);
                     ("src_audio_dir", pd ++ ["src_audio"]);
                     ("transcription_dir", td)]) w5) as Hrun.
  { unfold transcribe_local_audio. cbv [mbind M_bind mret M_ret].
    rewrite store_init by done.
    change (set_fs _ w) with w0.
    unfold size_or_zero, alloc. rewrite Hparse.
    rewrite node_at_child by done.
    match goal with
    | |- context [JInt (match ?x with Some _ => _ | None => _ end)] =>
        assert (x = Some (File s)) as ->
    end.
    { subst w0 fs0. cbn [w_fs set_fs]. rewrite lookup_insert_ne; [done|].
      intros E. by rewrite <- E in Hhd. }
    rewrite name_child by done. fold stem.
    rewrite (local_project_run stem _ w0);
      [|done|done| |done].
    2:{ subst w0 fs0. cbn [w_fs set_fs]. by apply (is_dir_child_insert _ []). }
    change (w_heap w0) with (w_heap w). fold l.
    change (w_clock w0) with (w_clock w). change (w_calls w0) with (w_calls w).
    change (w_fs w0) with fs0. cbn [Dict.set]. eval_eqb. cbn [Dict.set].
    eval_eqb. fold d. fold folder. fold base.
    change (base ++ [folder]) with pd. fold mf.
    change (World _ _ _ _) with w4.
    destruct (copy_audio_run move_tree {| base_dir := base |} audio_path
                [("project_dir", pd); ("src_audio_dir", pd ++ ["src_audio"]);
                 ("transcription_dir", pd ++ ["transcription"])]
                (pd ++ ["src_audio"]) q n s w4)
      as (w5' & Hcopy & -> & _); [done|done|done| | | | |].
    - subst w4. cbn [w_fs]. by rewrite Hout.
    - unfold Fs.is_dir. rewrite node_at_child by done.
      subst w4. cbn [w_fs]. subst fs2.
      rewrite lookup_insert_ne by done.
      rewrite with_project_lookup, decide_True; [done|right; left].
    - subst w4. cbn [w_fs]. subst fs2.
      rewrite lookup_insert_ne by done.
      rewrite with_project_lookup, decide_False.
      + change ((pd ++ ["src_audio"]) ++ [n]) with (pd ++ ["src_audio"; n]).
        by rewrite Hfresh0.
      + rewrite !elem_of_cons, elem_of_nil.
        by intros [? | [? | [? | []]]].
    - intros E. apply Hhd. by rewrite E.
    - rewrite Hcopy.
      change (set_fs _ w4) with w5.
      unfold AudioTranscriber_init. cbn [negb].
      cbv [mbind M_bind mret M_ret].
      rewrite store_init_again; [done|].
      subst w5. cbn [w_fs set_fs]. subst fs5 fs2.
      rewrite !lookup_insert_ne by done.
      rewrite with_project_lookup, decide_False.
      + subst fs0. by rewrite lookup_insert_eq.
      + rewrite !elem_of_cons, elem_of_nil. by intros [? | [? | [? | []]]]. }
  destruct (transcribe_audio_project_run json_dumps json_loads isoformat
              strftime whisper
              {| model_size := size; use_project_structure := true;
                 output_dir := None;
                 project_manager := Some {| base_dir := base |} |}
              {| base_dir := base |} (Path.to_str dest) language
              output_format
              [("project_dir", pd); ("src_audio_dir", pd ++ ["src_audio"]);
               ("transcription_dir", td)] pd td r w5)
    as (res & w' & Hmain & Htext & _ & _ & Hsegs & Hsettings & Hout' & _
        & Hframe & _ & _ & Hcalls);
    [done|done|done|done|done|done| | | | |].
  - apply (is_dir_grow {[ pd ++ ["transcription"] := Dir ]}).
    + intros p [<- _]%lookup_singleton_Some.
      change (fs5 !! (pd ++ ["transcription"]) = Some Dir).
      rewrite Hin. rewrite decide_True; [done|right; right; left].
    + unfold Fs.is_dir. rewrite node_at_child by done.
      by rewrite lookup_singleton_eq.
  - apply (is_dir_grow {[ pd ++ ["transcription"] := Dir ]}).
    + intros p [<- _]%lookup_singleton_Some.
      change (fs5 !! (pd ++ ["transcription"]) = Some Dir).
      rewrite Hin. rewrite decide_True; [done|right; right; left].
    + unfold Fs.is_dir. change td with (pd ++ ["transcription"]).
      rewrite node_at_child by done. by rewrite lookup_singleton_eq.
  - change (fs5 !! (pd ++ ["transcription"; "settings.json"]) ≠ Some Dir).
    rewrite Hin. rewrite decide_False
      by (rewrite !elem_of_cons, elem_of_nil; by intros [? | [? | [? | []]]]).
    by rewrite !decide_False by done.
  - intros tag Ht.
    change (fs5 !! (pd ++ ["transcription";
                           "transcript" +:+ "." +:+ ext_of tag]) ≠ Some Dir).
    rewrite Hin. rewrite decide_False
      by (rewrite !elem_of_cons, elem_of_nil; by intros [? | [? | [? | []]]]).
    by rewrite !decide_False by done.
  - assert (∀ p x, fs5 !! p = Some (File x) →
              p ≠ pd ++ ["transcription"; "settings.json"] →
              (∀ tag, p ≠ output_path td "transcript" tag) →
              file_at w' p = Some x) as Hkeep.
    { intros p x Hp H1 H2. unfold file_at.
      pose proof (Hframe p H1 (λ tag _, H2 tag)) as E.
      change (w_fs w5) with fs5 in E. unfold Path.t in *.
      rewrite Hp in E. by rewrite E. }
    assert (∀ q' tag, q' ∈ [["metadata.json"]; ["src_audio"; n]] →
              pd ++ q' ≠ output_path td "transcript" tag) as Hne1.
    { intros q' tag Hq' E.
      change (output_path td "transcript" tag)
        with (pd ++ ["transcription"; "transcript" +:+ "." +:+ ext_of tag])
        in E.
      apply (app_inv_head pd) in E. subst q'.
      rewrite !elem_of_cons, elem_of_nil in Hq'.
      by destruct Hq' as [? | [? | []]]. }
    exists res, w'. split; [by rewrite Hrun|].
    split; [done|]. split; [done|].
    split.
    { apply Hkeep.
      - subst fs5. rewrite lookup_insert_ne
          by (intros E; by rewrite <- E in Hhd).
        by rewrite Hout.
      - intros E. by rewrite E in Hhd.
      - intros tag E. by rewrite E in Hhd. }
    split.
    { apply Hkeep.
      - by subst fs5; rewrite lookup_insert_eq.
      - done.
      - intros tag. apply (Hne1 ["src_audio"; n]). right. left. }
    split.
    { apply Hkeep.
      - subst fs5. rewrite lookup_insert_ne by done.
        subst fs2. by rewrite lookup_insert_eq.
      - done.
      - intros tag. apply (Hne1 ["metadata.json"]). left. }
    split.
    { etrans; [exact Hsettings|]. cbn [Dict.set model_size]. eval_eqb.
      cbn [Dict.set]. eval_eqb. cbn [Dict.set]. eval_eqb. cbn [Dict.set].
      eval_eqb. done. }
    split; [|done].
    intros tag Ht. specialize (Hout' tag Ht).
    destruct (wanted output_format tag); [done|].
    destruct Hout' as [H1 H2]. split; [|done].
    unfold Path.t in *. rewrite H1.
    change (fs5 !! (pd ++ ["transcription";
                           "transcript" +:+ "." +:+ ext_of tag]) = None).
    rewrite Hin. rewrite decide_False
      by (rewrite !elem_of_cons, elem_of_nil; by intros [? | [? | [? | []]]]).
    by rewrite !decide_False by done.
Qed.

End MainLocal.

Lemma local_audio_missing_witness :
  ∃ w',
    transcribe_local_audio demo_dumps demo_loads demo_isoformat demo_strftime
      demo_whisper demo_move_tree demo_dir_size "talk.mp3" "base" None "all"
      empty_world
    = (Raise (FileNotFoundError "talk.mp3"), w')
    ∧ w_fs w' !! ["audio_projects"; "local_talk"] = Some Dir
    ∧ file_at w' ["audio_projects"; "local_talk"; "metadata.json"]
      = Some "{original_filename,file_size,source_type,created_at,project_type}"
    ∧ w_calls w' = [].
Proof.
  destruct (local_audio_missing demo_dumps demo_loads demo_isoformat
              demo_strftime demo_whisper demo_move_tree demo_dir_size
              "talk.mp3" "base" None "all" [] "talk.mp3" empty_world)
    as (w' & H1 & H2 & _ & _ & H3 & _ & H4).
  - reflexivity.
  - reflexivity.
  - by vm_compute.
  - reflexivity.
  - reflexivity.
  - intros s. by vm_compute.
  - intros q'. apply lookup_empty.
  - exists w'. split; [exact H1|]. split; [exact H2|]. split; [exact H3|].
    exact H4.
Defined.

Lemma local_audio_transcribed_witness :
  ∃ res w',
    transcribe_local_audio demo_dumps demo_loads demo_isoformat demo_strftime
      demo_whisper demo_move_tree demo_dir_size "talk.mp3" "base" None "all"
      lone_file_world
    = (Ok res, w')
    ∧ res_text res = "hello world"
    ∧ file_at w' ["talk.mp3"] = Some "RIFF"
    ∧ file_at w' ["audio_projects"; "local_talk"; "src_audio"; "talk.mp3"]
      = Some "RIFF".
Proof.
  destruct (local_audio_transcribed demo_dumps demo_loads demo_isoformat
              demo_strftime demo_whisper demo_move_tree demo_dir_size
              "talk.mp3" "base" None "all" [] "talk.mp3" "RIFF"
              (Transcription "hello world" two_cues (Some "en") None)
              lone_file_world)
    as (res & w' & H1 & H2 & _ & H3 & H4 & _).
  - reflexivity.
  - reflexivity.
  - by vm_compute.
  - reflexivity.
  - intros s. by vm_compute.
  - intros q'. unfold lone_file_world. cbn [w_fs set_fs].
    rewrite lookup_insert_ne by done. apply lookup_empty.
  - reflexivity.
  - exists res, w'. split; [exact H1|]. split; [exact H2|].
    split; [exact H3|exact H4].
Defined.

(** ** The orchestrator on the old layout *)

Lemma name_parse_plain (s : string) : plain_name (Path.name (Path.parse s)).
Proof.
  destruct (parse_names s) as [Hplain _].
  unfold Path.parse.
  set (names := filter (λ c, Path.is_name c = true) (Path.split "/" s)) in *.
  clearbody names.
  assert (∀ l : list string, Forall plain_name l →
            plain_name (List.last l "")) as Hlast.
  { intros l Hl. destruct l as [|x l'] using rev_ind; [done|].
    rewrite last_last. apply Forall_app in Hl as [_ Hx].
    by apply Forall_cons in Hx as [? _]. }
  destruct (root_of_cases s) as [-> | [-> | ->]].
  - unfold Path.name. destruct names as [|c rest]; [done|].
    pose proof Hplain as Hc. apply Forall_cons in Hc as [Hc _].
    rewrite (plain_not_root c Hc). by apply Hlast.
  - cbn. by apply Hlast.
  - cbn. by apply Hlast.
Qed.

Lemma stem_parse_plain (s : string) : plain_name (Path.stem (Path.parse s)).
Proof.
  unfold Path.stem. pose proof (name_parse_plain s) as H.
  destruct (Path.rfind_dot _) as [i|]; [|done].
  destruct (_ && _); [by apply take_plain|done].
Qed.

(** The file a name and an extension give under [transcriptions]. *)
Lemma legacy_file (name ext : string) :
  plain_name name → plain_name ext → ext ≠ "" →
  Path.parse (Path.to_str (["transcriptions"] ++ [name]) +:+ "." +:+ ext)
  = ["transcriptions"; name +:+ "." +:+ ext].
Proof.
  intros Hn He Hne.
  destruct (file_name_plain name ext Hn He Hne) as [Hp Hi].
  change (Path.to_str (["transcriptions"] ++ [name]))
    with ("transcriptions" +:+ "/" +:+ name).
  rewrite !app_assoc_str.
  change ("transcriptions" +:+ "/" +:+ name +:+ "." +:+ ext)
    with ("" +:+ String.concat "/" ["transcriptions"; name +:+ "." +:+ ext]).
  rewrite parse_concat; [done| | |auto].
  - repeat constructor; done.
  - repeat constructor; done.
Qed.

Section Legacy.

Variable json_dumps : json → string.
Variable json_loads : string → option json.
Variable isoformat : nat → string.
Variable strftime : nat → string.
Variable whisper :
  string → string → option string → gmap Path.t node → outcome transcription.

(** One file of the old layout, written in one piece or block by block. *)
Lemma legacy_write (dir : Path.t) (n content : string) (w : world) :
  Path.is_root n = false →
  Fs.is_dir (w_fs w) dir = true →
  w_fs w !! (dir ++ [n]) ≠ Some Dir →
  (open_w (dir ++ [n]);; write (dir ++ [n]) content) w
  = (Ok tt, set_fs (<[dir ++ [n] := File content]> (w_fs w)) w).
Proof.
  intros Hn Hd Hfree.
  destruct (open_write (w_fs w) dir n content Hn Hd Hfree) as (fs1 & Ho & Ha).
  cbv [mbind M_bind open_w write fs_op]. rewrite Ho. cbn [w_fs set_fs].
  by rewrite Ha.
Qed.

Lemma legacy_write_srt (dir : Path.t) (n file : string)
    (segments : list segment) (w : world) :
  Path.parse file = dir ++ [n] →
  Path.is_root n = false →
  Fs.is_dir (w_fs w) dir = true →
  w_fs w !! (dir ++ [n]) ≠ Some Dir →
  _write_srt segments file w
  = (Ok tt,
     set_fs (<[dir ++ [n]
               := File (String.concat ""
                          (imap (λ k, srt_block (1 + Z.of_nat k)) segments))]>
               (w_fs w)) w).
Proof.
  intros Hfile Hn Hd Hfree.
  destruct (open_write (w_fs w) dir n "" Hn Hd Hfree) as (fs1 & Ho & _).
  unfold _write_srt. rewrite Hfile.
  cbv [mbind M_bind open_w fs_op]. rewrite Ho, (open_w_ok _ _ _ Ho).
  erewrite (write_srt_loop_spec _ _ 1 "");
    [|cbn [w_fs set_fs]; apply lookup_insert_eq].
  cbn [w_fs set_fs]. by rewrite insert_insert_eq, set_fs_set_fs.
Qed.

Lemma legacy_write_vtt (dir : Path.t) (n file : string)
    (segments : list segment) (w : world) :
  Path.parse file = dir ++ [n] →
  Path.is_root n = false →
  Fs.is_dir (w_fs w) dir = true →
  w_fs w !! (dir ++ [n]) ≠ Some Dir →
  _write_vtt segments file w
  = (Ok tt,
     set_fs (<[dir ++ [n]
               := File ("WEBVTT" +:+ Str.nl +:+ Str.nl +:+
                        String.concat "" (map vtt_block segments))]>
               (w_fs w)) w).
Proof.
  intros Hfile Hn Hd Hfree.
  destruct (open_write (w_fs w) dir n "" Hn Hd Hfree) as (fs1 & Ho & _).
  unfold _write_vtt. rewrite Hfile.
  cbv [mbind M_bind open_w fs_op]. rewrite Ho, (open_w_ok _ _ _ Ho).
  erewrite (write_step _ ""); [|cbn [w_fs set_fs]; apply lookup_insert_eq].
  cbn [w_fs set_fs]. rewrite insert_insert_eq, set_fs_set_fs.
  erewrite (write_vtt_loop_spec _ _ ("" +:+ "WEBVTT" +:+ Str.nl +:+ Str.nl));
    [|cbn [w_fs set_fs]; apply lookup_insert_eq].
  cbn [w_fs set_fs]. rewrite insert_insert_eq, set_fs_set_fs.
  by rewrite app_empty_l, !app_assoc_str.
Qed.

Lemma bind_ok {A B} (m : M A) (k : A → M B) (w w' : world) (a : A) :
  m w = (Ok a, w') → (m ≫= k) w = k a w'.
Proof. intros H. cbv [mbind M_bind]. by rewrite H. Qed.

(** A file of the old layout goes where [output_path] says. *)
Lemma legacy_path (name tag : string) :
  plain_name name → recognized tag = true →
  Path.parse (Path.to_str (["transcriptions"] ++ [name]) +:+ "." +:+ ext_of tag)
  = output_path ["transcriptions"] name tag
  ∧ Path.to_str (["transcriptions"] ++ [name]) +:+ "." +:+ ext_of tag
    = Path.to_str (output_path ["transcriptions"] name tag)
  ∧ Path.is_root (name +:+ "." +:+ ext_of tag) = false.
Proof.
  intros Hn Ht.
  assert (plain_name (ext_of tag) ∧ ext_of tag ≠ "") as [He Hne].
  { destruct (recognized_cases tag Ht) as [-> | [-> | [-> | ->]]]; done. }
  split; [by apply legacy_file|]. split.
  - change (Path.to_str (["transcriptions"] ++ [name]))
      with ("transcriptions" +:+ "/" +:+ name).
    by rewrite !app_assoc_str.
  - apply plain_not_root. by apply file_name_plain.
Qed.

(** Writing, or not writing, one file of the old layout. *)
Lemma legacy_step (b : bool) (m : M unit) (name tag text : string)
    (outputs : Dict.t string) (w : world) :
  let p := output_path ["transcriptions"] name tag in
  (Fs.is_dir (w_fs w) ["transcriptions"] = true →
   w_fs w !! p ≠ Some Dir →
   m w = (Ok tt, set_fs (<[p := File text]> (w_fs w)) w)) →
  Fs.is_dir (w_fs w) ["transcriptions"] = true →
  w_fs w !! p ≠ Some Dir →
  (if b then m;; mret (Dict.set outputs tag (Path.to_str p))
   else mret outputs) w
  = (Ok (if b then Dict.set outputs tag (Path.to_str p) else outputs),
     if b then set_fs (<[p := File text]> (w_fs w)) w else w).
Proof.
  intros p Hm Hd Hfree. destruct b; [|done].
  cbv [mbind M_bind mret M_ret]. by rewrite Hm.
Qed.

Lemma legacy_step_write (b : bool) (name tag text : string)
    (outputs : Dict.t string) (w : world) :
  let p := output_path ["transcriptions"] name tag in
  Path.is_root (name +:+ "." +:+ ext_of tag) = false →
  Fs.is_dir (w_fs w) ["transcriptions"] = true →
  w_fs w !! p ≠ Some Dir →
  (if b then open_w p;; write p text;;
             mret (Dict.set outputs tag (Path.to_str p))
   else mret outputs) w
  = (Ok (if b then Dict.set outputs tag (Path.to_str p) else outputs),
     if b then set_fs (<[p := File text]> (w_fs w)) w else w).
Proof.
  intros p Hr Hd Hfree. destruct b; [|done].
  destruct (open_write (w_fs w) ["transcriptions"] _ text Hr Hd Hfree)
    as (fs1 & Ho & Ha).
  cbv [mbind M_bind mret M_ret open_w write fs_op]. fold p in Ho, Ha.
  unfold p in *. unfold output_path. rewrite Ho. cbn [w_fs set_fs].
  by rewrite Ha.
Qed.

(** X28: the old layout of [transcribe_audio].  A transcriber made with
    [use_project_structure] off writes to [transcriptions], whatever
    project directories it is given: for an audio file that is there and a
    model that returns, each of [text], [json], [srt] and [vtt] that
    [output_format] asks for goes to
    [transcriptions/{stem}_{timestamp}.{ext}], where the stem is that of
    the audio path and the time is read once; the subtitle files hold the
    blocks of all segments, each closed by an empty line;
    [output_files] maps the formats written to their paths and has no
    other key; no other path changes. *)
Theorem transcribe_audio_legacy (size : string) (w0 w1 : world)
    (self : AudioTranscriber) (audio_path : string) (language : option string)
    (output_format : string) (project_dirs : option (Dict.t Path.t))
    (r : transcription) (w : world) :
  let name :=
    Path.stem (Path.parse audio_path) +:+ "_" +:+ strftime (w_clock w) in
  let dir := ["transcriptions"] in
  AudioTranscriber_init size false w0 = (Ok self, w1) →
  Fs.exists_ (w_fs w) audio_path = true →
  whisper size audio_path language (w_fs w) = Ok r →
  Fs.is_dir (w_fs w) dir = true →
  plain_name (strftime (w_clock w)) →
  (∀ tag, recognized tag = true →
          w_fs w !! output_path dir name tag ≠ Some Dir) →
  ∃ res w',
    transcribe_audio json_dumps json_loads isoformat strftime whisper self
      audio_path language output_format project_dirs w = (Ok res, w')
    ∧ res_text res = t_text r
    ∧ res_language res = default "unknown" (t_language r)
    ∧ res_duration res = default 0%Q (t_duration r)
    ∧ res_segments res = t_segments r
    ∧ (∀ tag, recognized tag = true →
         if wanted output_format tag
         then file_at w' (output_path dir name tag)
              = Some (legacy_text json_dumps r tag)
              ∧ Dict.get (res_output_files res) tag
                = Some (Path.to_str (output_path dir name tag))
         else w_fs w' !! output_path dir name tag
              = w_fs w !! output_path dir name tag
              ∧ Dict.get (res_output_files res) tag = None)
    ∧ (∀ k, recognized k = false → Dict.get (res_output_files res) k = None)
    ∧ (∀ p, (∀ tag, recognized tag = true → p ≠ output_path dir name tag) →
            w_fs w' !! p = w_fs w !! p)
    ∧ w_heap w' = w_heap w
    ∧ w_clock w' = S (w_clock w)
    ∧ w_calls w' = WhisperCall size audio_path language :: w_calls w.
Proof.
  intros name dir Hinit Hexists Hwhisper Hdir Hts Hfree.
  assert (model_size self = size ∧ use_project_structure self = false
          ∧ output_dir self = Some dir) as (Hsize & Huse & Hout).
  { unfold AudioTranscriber_init in Hinit. cbn [negb] in Hinit.
    cbv [mbind M_bind mret M_ret mkdir fs_op] in Hinit.
    destruct (Fs.mkdir_exist_ok _ _); [|done].
    by injection Hinit as <- _. }
  assert (plain_name name ∧ Path.is_name name = true) as [Hname Hisname].
  { subst name. split.
    - unfold plain_name. rewrite !has_char_app.
      by rewrite (stem_parse_plain audio_path), Hts.
    - assert (has_char "_" (Path.stem (Path.parse audio_path) +:+ "_" +:+
                            strftime (w_clock w)) = true) as Hus.
      { rewrite !has_char_app. apply orb_true_iff. right.
        apply orb_true_iff. by left. }
      unfold Path.is_name.
      destruct (String.eqb_spec (Path.stem (Path.parse audio_path) +:+ "_" +:+
                                 strftime (w_clock w)) "") as [E|_];
        [by rewrite E in Hus|].
      destruct (String.eqb_spec (Path.stem (Path.parse audio_path) +:+ "_" +:+
                                 strftime (w_clock w)) ".") as [E|_];
        [by rewrite E in Hus|done]. }
  set (call := WhisperCall size audio_path language).
  set (w1' := World (w_fs w) (w_heap w) (S (w_clock w)) (call :: w_calls w)).
  set (b1 := wanted output_format "text").
  set (b2 := wanted output_format "json").
  set (b3 := wanted output_format "srt").
  set (b4 := wanted output_format "vtt").
  set (p := λ tag, output_path dir name tag).
  set (upd := λ (b : bool) tag (v : world),
         if b then set_fs (<[p tag := File (legacy_text json_dumps r tag)]>
                             (w_fs v)) v
         else v).
  set (ins := λ (b : bool) tag (o : Dict.t string),
         if b then Dict.set o tag (Path.to_str (p tag)) else o).
  set (v1 := upd b1 "text" w1'). set (v2 := upd b2 "json" v1).
  set (v3 := upd b3 "srt" v2). set (v4 := upd b4 "vtt" v3).
  set (o1 := ins b1 "text" []). set (o2 := ins b2 "json" o1).
  set (o3 := ins b3 "srt" o2). set (o4 := ins b4 "vtt" o3).
  assert (∀ t1 t2, recognized t1 = true → recognized t2 = true →
                   t1 ≠ t2 → p t1 ≠ p t2) as Hpne.
  { intros t1 t2 H1 H2 Hne E. by apply output_path_inj in E. }
  assert (∀ b tag v q, recognized tag = true → q ≠ p tag →
            w_fs (upd b tag v) !! q = w_fs v !! q) as Hupd_ne.
  { intros b tag v q Ht Hq. subst upd. cbv beta. destruct b; [|done].
    cbn [w_fs set_fs]. by rewrite lookup_insert_ne. }
  assert (∀ b tag v, Fs.is_dir (w_fs v) dir = true →
            Fs.is_dir (w_fs (upd b tag v)) dir = true) as Hupd_dir.
  { intros b tag v Hv. subst upd. cbv beta. destruct b; [|done].
    cbn [w_fs set_fs]. subst p. cbv beta. unfold output_path.
    by rewrite is_dir_insert_child. }
  assert (transcribe_audio json_dumps json_loads isoformat strftime whisper
            self audio_path language output_format project_dirs w
          = (Ok {| res_text := t_text r;
                   res_language := default "unknown" (t_language r);
                   res_duration := default 0%Q (t_duration r);
                   res_output_files := o4;
                   res_segments := t_segments r |}, v4)) as Hmain.
  { unfold transcribe_audio.
    cbv [mbind M_bind mret M_ret os_path_exists raise model_transcribe].
    rewrite Hexists. cbn [negb]. rewrite Hsize, Hwhisper, Huse.
    fold call.
    set (wm := World (w_fs w) (w_heap w) (w_clock w) (call :: w_calls w)).
    assert (transcribe_to_output_dir json_dumps strftime self r audio_path
              output_format wm = (Ok o4, v4)) as Hold.
    { unfold transcribe_to_output_dir, getattr. rewrite Hout.
      erewrite (bind_ok (now strftime)); [|reflexivity].
      erewrite (bind_ok (mret dir)); [|reflexivity]. cbv beta zeta.
      change (w_clock wm) with (w_clock w). fold name.
      rewrite (div_plain dir name) by done.
      change (World (w_fs wm) (w_heap wm) (S (w_clock w)) (w_calls wm))
        with w1'.
      destruct (legacy_path name "text" Hname eq_refl) as (P1 & S1 & R1).
      destruct (legacy_path name "json" Hname eq_refl) as (P2 & S2 & R2).
      destruct (legacy_path name "srt" Hname eq_refl) as (P3 & S3 & R3).
      destruct (legacy_path name "vtt" Hname eq_refl) as (P4 & S4 & R4).
      change (ext_of "text") with "txt" in *.
      change (ext_of "json") with "json" in *.
      change (ext_of "srt") with "srt" in *.
      change (ext_of "vtt") with "vtt" in *.
      change ("." +:+ "txt") with ".txt" in *.
      change ("." +:+ "json") with ".json" in *.
      change ("." +:+ "srt") with ".srt" in *.
      change ("." +:+ "vtt") with ".vtt" in *.
      fold dir in P1, P2, P3, P4, S1, S2, S3, S4.
      rewrite P1, P2, S1, S2, S3, S4.
      change (str_in output_format ["text"; "all"]) with b1.
      change (str_in output_format ["json"; "all"]) with b2.
      change (str_in output_format ["srt"; "all"]) with b3.
      change (str_in output_format ["vtt"; "all"]) with b4.
      fold (p "text") (p "json") (p "srt") (p "vtt").
      assert (Fs.is_dir (w_fs w1') dir = true) as D0 by done.
      assert (Fs.is_dir (w_fs v1) dir = true) as D1 by (by apply Hupd_dir).
      assert (Fs.is_dir (w_fs v2) dir = true) as D2 by (by apply Hupd_dir).
      assert (Fs.is_dir (w_fs v3) dir = true) as D3 by (by apply Hupd_dir).
      assert (∀ tag, recognized tag = true → w_fs w1' !! p tag ≠ Some Dir)
        as F0 by (intros tag Ht; by apply Hfree).
      assert (∀ tag, recognized tag = true → tag ≠ "text" →
                     w_fs v1 !! p tag ≠ Some Dir) as F1.
      { intros tag Ht Hne. subst v1. rewrite Hupd_ne; [by apply F0|done|].
        by apply Hpne. }
      assert (∀ tag, recognized tag = true → tag ≠ "text" → tag ≠ "json" →
                     w_fs v2 !! p tag ≠ Some Dir) as F2.
      { intros tag Ht Hne1 Hne2. subst v2.
        rewrite Hupd_ne; [by apply F1|done|]. by apply Hpne. }
      assert (∀ tag, recognized tag = true → tag ≠ "text" → tag ≠ "json" →
                     tag ≠ "srt" → w_fs v3 !! p tag ≠ Some Dir) as F3.
      { intros tag Ht Hne1 Hne2 Hne3. subst v3.
        rewrite Hupd_ne; [by apply F2|done|]. by apply Hpne. }
      rewrite (bind_ok _ _ w1' v1 o1)
        by (by apply (legacy_step_write b1 name "text" (t_text r));
              [|done|apply F0]).
      rewrite (bind_ok _ _ v1 v2 o2)
        by (by apply (legacy_step_write b2 name "json"
                        (json_dumps (json_of_transcription r)));
              [|done|apply F1]).
      rewrite (bind_ok _ _ v2 v3 o3).
      2:{ apply (legacy_step b3 _ name "srt"
                   (legacy_text json_dumps r "srt")); [|done|by apply F2].
          intros H1 H2. by apply (legacy_write_srt dir). }
      apply (legacy_step b4 _ name "vtt" (legacy_text json_dumps r "vtt"));
        [|done|by apply F3].
      intros H1 H2. by apply (legacy_write_vtt dir). }
    destruct project_dirs as [[|kv dirs']|]; by rewrite Hold. }
  exists {| res_text := t_text r;
            res_language := default "unknown" (t_language r);
            res_duration := default 0%Q (t_duration r);
            res_output_files := o4;
            res_segments := t_segments r |}, v4.
  split; [exact Hmain|]. cbn [res_text res_language res_duration
    res_segments res_output_files].
  split; [done|]. split; [done|]. split; [done|]. split; [done|].
  split.
  { intros tag Ht. unfold wanted, file_at.
    subst v4 v3 v2 v1 o4 o3 o2 o1 upd ins p. cbv beta.
    fold (wanted output_format "text") (wanted output_format "json")
         (wanted output_format "srt") (wanted output_format "vtt").
    fold b1 b2 b3 b4.
    destruct (recognized_cases tag Ht) as [-> | [-> | [-> | ->]]];
      fold (wanted output_format "text") (wanted output_format "json")
           (wanted output_format "srt") (wanted output_format "vtt");
      fold b1 b2 b3 b4;
      destruct b1, b2, b3, b4; cbn [w_fs set_fs w1'];
      rewrite ?lookup_insert_eq;
      repeat (rewrite lookup_insert_ne
                by (intros E; by apply output_path_inj in E));
      rewrite ?lookup_insert_eq;
      (split; [done|]);
      rewrite ?dict_get_set_eq;
      repeat (rewrite dict_get_set_ne by done);
      rewrite ?dict_get_set_eq; done. }
  split.
  { intros k Hk. subst o4 o3 o2 o1 ins. cbv beta.
    assert (k ≠ "text" ∧ k ≠ "json" ∧ k ≠ "srt" ∧ k ≠ "vtt")
      as (K1 & K2 & K3 & K4) by (repeat split; by intros ->).
    destruct b1, b2, b3, b4; by rewrite ?dict_get_set_ne by done. }
  split.
  { intros q Hq. subst v4 v3 v2 v1.
    rewrite !Hupd_ne; [done|done|by apply Hq|done|by apply Hq
                      |done|by apply Hq|done|by apply Hq]. }
  subst v4 v3 v2 v1 upd. cbv beta.
  destruct b1, b2, b3, b4; done.
Qed.

End Legacy.

Lemma transcribe_audio_legacy_witness :
  ∃ res w',
    transcribe_audio demo_dumps demo_loads demo_isoformat demo_strftime
      demo_whisper
      {| model_size := "base"; use_project_structure := false;
         output_dir := Some ["transcriptions"]; project_manager := None |}
      "talk.mp3" None "srt" (Some demo_dirs) legacy_world = (Ok res, w')
    ∧ res_text res = "hello world"
    ∧ file_at w' ["transcriptions"; "talk_20240101_000000.srt"]
      = Some (_generate_srt two_cues +:+ Str.nl)
    ∧ Dict.get (res_output_files res) "srt"
      = Some "transcriptions/talk_20240101_000000.srt"
    ∧ Dict.get (res_output_files res) "vtt" = None.
Proof.
  destruct (transcribe_audio_legacy demo_dumps demo_loads demo_isoformat
              demo_strftime demo_whisper "base" empty_world
              (AudioTranscriber_init "base" false empty_world).2
              {| model_size := "base"; use_project_structure := false;
                 output_dir := Some ["transcriptions"];
                 project_manager := None |}
              "talk.mp3" None "srt" (Some demo_dirs)
              (Transcription "hello world" two_cues (Some "en") None)
              legacy_world)
    as (res & w' & H1 & H2 & _ & _ & _ & H3 & _).
  - reflexivity.
  - by vm_compute.
  - reflexivity.
  - by vm_compute.
  - by vm_compute.
  - intros tag Ht.
    destruct (recognized_cases tag Ht) as [-> | [-> | [-> | ->]]];
      by vm_compute.
  - exists res, w'. split; [exact H1|]. split; [exact H2|].
    destruct (H3 "srt" eq_refl) as [Hsrt Hget].
    destruct (H3 "vtt" eq_refl) as [_ Hvtt].
    split; [|split; [exact Hget|exact Hvtt]].
    etrans; [exact Hsrt|]. by vm_compute.
Defined.
